(** * PureSkin backend: favorites store, identity check and analysis proxy

    A shallow embedding of the Express/Mongoose backend:

    - [models/Favorite.js]                 -> modules [FavoriteDoc], [Favorite]
    - [services/nlpService.js]             -> module [nlpService]
    - [controllers/favoriteController.js]  -> module [favoriteController]
    - [controllers/analysisController.js]  -> module [analysisController]
    - [middleware/authMiddleware.js]       -> module [authMiddleware]
    - [controllers/userController.js], [controllers/authController.js]
                                           -> modules [userController],
                                              [authController], [account]
    - [routes/analysisRoute.js], [routes/favoriteRoutes.js],
      [routes/userRoutes.js], [server.js]  -> module [server]
    - the client's [services/axiosClient.js] -> module [axiosClient]

    Handlers are functions in a state-and-exception monad over a [World]
    holding the two collections, the clock and what it shows at its
    later readings, the ObjectId generator, the analysis engine and the
    log of calls sent to it.  An [await] on the store is an atomic
    step; the interleaving of two requests is modelled explicitly where a
    property depends on it. *)

From Stdlib Require Import List String Ascii NArith QArith Bool Lia DecimalString Lqa.
From Stdlib Require Import Sorting.Sorted Sorting.Permutation.
Import ListNotations.

Local Open Scope string_scope.
Local Open Scope N_scope.

(** ** JavaScript values used by the handlers *)

Module Js.

(** A JS string is a sequence of UTF-16 code units; a [string] here
    carries the code units below 256, one per [ascii].  The messages the
    handlers send are literals, kept byte for byte as the source files
    spell them, and are only ever compared for equality. *)

(** White space and line terminators removed by [String.prototype.trim]
    (TAB, LF, VT, FF, CR, SP, NBSP in this range). *)
Definition is_space (c : ascii) : bool :=
  let n := N_of_ascii c in
  (n =? 9) || (n =? 10) || (n =? 11) || (n =? 12) || (n =? 13)
  || (n =? 32) || (n =? 160).

Fixpoint trimStart (s : string) : string :=
  match s with
  | EmptyString => EmptyString
  | String c r => if is_space c then trimStart r else s
  end.

Fixpoint trimEnd (s : string) : string :=
  match s with
  | EmptyString => EmptyString
  | String c r =>
      match trimEnd r with
      | EmptyString => if is_space c then EmptyString else String c EmptyString
      | r' => String c r'
      end
  end.

Definition trim (s : string) : string := trimEnd (trimStart s).

(** [s.length] *)
Definition length (s : string) : N := N.of_nat (String.length s).

(** [s.startsWith(p)] *)
Definition startsWith (p s : string) : bool := String.prefix p s.

(** [s.split(' ')] *)
Fixpoint split_space_aux (cur : string) (s : string) : list string :=
  match s with
  | EmptyString => [cur]
  | String c r =>
      if Ascii.eqb c " "%char then cur :: split_space_aux EmptyString r
      else split_space_aux (cur ++ String c EmptyString) r
  end.

Definition split_space (s : string) : list string := split_space_aux EmptyString s.

(** Truthiness of an optional string: [undefined] and [""] are falsy. *)
Definition truthy_str (x : option string) : bool :=
  match x with
  | Some s => negb (String.eqb s "")
  | None => false
  end.

(** [x || d] on an optional string. *)
Definition or_str (x : option string) (d : string) : string :=
  match x with
  | Some s => if String.eqb s "" then d else s
  | None => d
  end.

(** [x || d] on an optional number: [undefined] and [0] are falsy. *)
Definition or_num (x : option Q) (d : Q) : Q :=
  match x with
  | Some q => if Qeq_bool q 0 then d else q
  | None => d
  end.

(** JSON documents, for response bodies and engine replies. *)
#[warnings="-register-all"]
Inductive json : Type :=
| JNull
| JBool (b : bool)
| JNum (q : Q)
| JStr (s : string)
| JArr (items : list json)
| JObj (fields : list (string * json)).

(** [o.k]; [None] stands for [undefined]. *)
Fixpoint assoc (k : string) (fields : list (string * json)) : option json :=
  match fields with
  | [] => None
  | (k', v) :: rest => if String.eqb k k' then Some v else assoc k rest
  end.

Definition get (k : string) (j : json) : option json :=
  match j with
  | JObj fields => assoc k fields
  | _ => None
  end.

Definition truthy (x : option json) : bool :=
  match x with
  | None | Some JNull => false
  | Some (JBool b) => b
  | Some (JNum q) => negb (Qeq_bool q 0)
  | Some (JStr s) => negb (String.eqb s "")
  | Some (JArr _) | Some (JObj _) => true
  end.

(** [{...p, k: v}] *)
Definition spread_with (p : json) (k : string) (v : json) : json :=
  match p with
  | JObj fields =>
      match assoc k fields with
      | Some _ =>
          JObj (map (fun kv => if String.eqb k (fst kv) then (fst kv, v) else kv) fields)
      | None => JObj (fields ++ [(k, v)])
      end
  | _ => JObj [(k, v)]
  end.

(** Dates.  A time value is the number of milliseconds since the epoch;
    the clock only shows times from the epoch on. *)

Fixpoint dec_digits (n : nat) (x : N) (acc : string) : string :=
  match n with
  | O => acc
  | S n' => dec_digits n' (x / 10) (String (ascii_of_N (48 + x mod 10)) acc)
  end.

(** Year, month and day of the day [days] after 1970-01-01, in the
    proleptic Gregorian calendar. *)
Definition civil (days : N) : N * N * N :=
  let z := days + 719468 in
  let era := z / 146097 in
  let doe := z mod 146097 in
  let yoe := (doe - doe / 1460 + doe / 36524 - doe / 146096) / 365 in
  let doy := doe - (365 * yoe + yoe / 4 - yoe / 100) in
  let mp := (5 * doy + 2) / 153 in
  let d := doy - (153 * mp + 2) / 5 + 1 in
  let m := if mp <? 10 then mp + 3 else mp - 9 in
  (yoe + era * 400 + (if m <=? 2 then 1 else 0), m, d).

(** [Date.prototype.toISOString]: [YYYY-MM-DDTHH:mm:ss.sssZ], the year
    with a sign and six digits beyond 9999. *)
Definition toISOString (t : N) : string :=
  let '(y, m, d) := civil (t / 86400000) in
  let ms := t mod 86400000 in
  (if y <=? 9999 then dec_digits 4 y "" else "+" ++ dec_digits 6 y "")
  ++ "-" ++ dec_digits 2 m "" ++ "-" ++ dec_digits 2 d ""
  ++ "T" ++ dec_digits 2 (ms / 3600000) ""
  ++ ":" ++ dec_digits 2 (ms / 60000 mod 60) ""
  ++ ":" ++ dec_digits 2 (ms / 1000 mod 60) ""
  ++ "." ++ dec_digits 3 (ms mod 1000) "" ++ "Z".

(** A Date in [JSON.stringify]: its ISO string; [null] for a time value
    beyond the range of Dates. *)
Definition date_toJSON (t : N) : json :=
  if t <=? 8640000000000000 then JStr (toISOString t) else JNull.

End Js.

Export Js(json(..)).

(** ** ObjectIds *)

Definition ObjectId : Type := N.

Definition hex_char (d : N) : ascii :=
  if d <? 10 then ascii_of_N (48 + d) else ascii_of_N (87 + d).

Fixpoint hex_digits (n : nat) (x : N) (acc : string) : string :=
  match n with
  | O => acc
  | S n' => hex_digits n' (x / 16) (String (hex_char (x mod 16)) acc)
  end.

(** [oid.toString()]: 24 hexadecimal digits. *)
Definition oid_toString (o : ObjectId) : string := hex_digits 24 o EmptyString.

(** ** Thrown values *)

Inductive Thrown : Type :=
| TypeError (message : string)
| CastError (message : string)
| ValidationError (message : string)
| MongoServerError (code : N) (message : string)
| JsonWebTokenError (message : string)
| MulterError (code : string) (message : string)
| Error (message : string).

(** [err.code] as the handlers test it ([err.code === 11000]). *)
Definition err_code (e : Thrown) : option N :=
  match e with
  | MongoServerError c _ => Some c
  | _ => None
  end.

(** [err.message] *)
Definition err_message (e : Thrown) : string :=
  match e with
  | TypeError m | CastError m | ValidationError m | MongoServerError _ m
  | JsonWebTokenError m | MulterError _ m | Error m => m
  end.

(** ** Documents *)

(** Modelled from the spec: the User model ([models/User.js] is not among
    the sources): unique identifier, display name, unique email and the
    credential hash. *)
Module User.

Record doc : Type := mk {
  _id : ObjectId;
  name : string;
  email : string;
  password : string
}.

(** The projection kept by [.select('-password')]. *)
Record safe : Type := mkSafe {
  id : ObjectId;
  safe_name : string;
  safe_email : string
}.

Definition select_without_password (u : doc) : safe :=
  mkSafe (_id u) (name u) (email u).

Definition toJSON (u : safe) : json :=
  JObj [("_id", JStr (oid_toString (id u)));
        ("name", JStr (safe_name u));
        ("email", JStr (safe_email u))].

End User.

(** [models/Favorite.js]: the schema's field types.  No handler reads or
    writes the [metadata] map, which therefore always holds its default,
    the empty map, and is not a field of the records below. *)
Module FavoriteDoc.

Inductive Source : Type := dupe_finder | scanner | manual.

Definition source_toString (s : Source) : string :=
  match s with
  | dupe_finder => "dupe_finder"
  | scanner => "scanner"
  | manual => "manual"
  end.

(** A stored, validated document. *)
Record doc : Type := mk {
  _id : ObjectId;
  userId : ObjectId;
  productId : string;
  productName : string;
  brandName : string;
  price : Q;
  originalPrice : option Q;
  ingredients : string;
  similarity : Q;
  category : string;
  productType : string;
  source : Source;
  addedAt : N;
  notes : string;
  createdAt : N;
  updatedAt : N
}.

(** The object literal handed to [new Favorite({...})]; [None] is a
    property that is [undefined]. *)
Record init : Type := mkInit {
  i_userId : ObjectId;
  i_productId : option string;
  i_productName : option string;
  i_brandName : option string;
  i_price : option Q;
  i_ingredients : option string;
  i_category : option string;
  i_similarity : option Q;
  i_addedAt : option N;
  i_source : option Source
}.

(** A document in memory, before [save()] has validated it. *)
Record draft : Type := mkDraft {
  d_id : ObjectId;
  d_userId : ObjectId;
  d_productId : option string;
  d_productName : option string;
  d_brandName : option string;
  d_price : option Q;
  d_originalPrice : option Q;
  d_ingredients : string;
  d_similarity : Q;
  d_category : string;
  d_productType : string;
  d_source : Source;
  d_addedAt : N;
  d_notes : string
}.

(** What [res.json(doc)] sends of a stored document: ObjectIds in
    hexadecimal, dates as ISO strings, no [originalPrice] key when the
    path is unset, the empty [metadata] map and the version key.  The
    virtuals are not part of it (the schema sets no [toJSON] option), and
    the order of the keys carries no meaning. *)
Definition toJSON (d : doc) : json :=
  JObj ([("_id", JStr (oid_toString (_id d)));
         ("userId", JStr (oid_toString (userId d)));
         ("productId", JStr (productId d));
         ("productName", JStr (productName d));
         ("brandName", JStr (brandName d));
         ("price", JNum (price d))]
        ++ match originalPrice d with
           | Some o => [("originalPrice", JNum o)]
           | None => []
           end
        ++ [("ingredients", JStr (ingredients d));
            ("similarity", JNum (similarity d));
            ("category", JStr (category d));
            ("productType", JStr (productType d));
            ("source", JStr (source_toString (source d)));
            ("addedAt", Js.date_toJSON (addedAt d));
            ("notes", JStr (notes d));
            ("metadata", JObj []);
            ("createdAt", Js.date_toJSON (createdAt d));
            ("updatedAt", Js.date_toJSON (updatedAt d));
            ("__v", JNum 0)])%list.

End FavoriteDoc.

(** ** The analysis engine, seen through axios *)

Module Engine.

(** The body posted to [/analyze/find_dupes]. *)
Record DupesPayload : Type := mkDupes {
  dp_ingredients : string;
  dp_brand_name : option string;
  dp_target_product_type : option string;
  dp_price : Q;
  dp_category : string
}.

Inductive Call : Type :=
| PostFindDupes (payload : DupesPayload)
| PostReview (text : string) (skin_type : string)
| PostScanImage (file : list Byte.byte) (filename : string) (contentType : string)
| PostQuality (product_name : string) (brand_name ingredients : option string).

(** What the catch blocks read from a rejected axios promise:
    [error.code], [error.response?.status], [error.response?.data?.detail]
    and [error.message]. *)
Record AxiosError : Type := mkAxiosError {
  code : option string;
  response_status : option N;
  response_detail : option string;
  message : string
}.

Inductive Outcome : Type :=
| Resolved (data : json)
| Rejected (error : AxiosError).

End Engine.

(** ** The world a request runs in *)

Record World : Type := mkWorld {
  favorites : list FavoriteDoc.doc;   (* the collection, in insertion order *)
  users : list User.doc;
  clock : N;                          (* what Date.now() returns next *)
  upcoming : list N;                  (* what it returns at the readings after
                                         that, in order *)
  oid_counter : N;                    (* source of fresh ObjectIds *)
  jwt_verify : string -> option ObjectId;   (* jwt.verify(token, JWT_SECRET).id *)
  engine : Engine.Call -> Engine.Outcome;
  outbox : list Engine.Call           (* calls sent to the engine, oldest first *)
}.

Definition with_favorites (fs : list FavoriteDoc.doc) (w : World) : World :=
  mkWorld fs (users w) (clock w) (upcoming w) (oid_counter w) (jwt_verify w) (engine w)
    (outbox w).

Definition with_oid_counter (n : N) (w : World) : World :=
  mkWorld (favorites w) (users w) (clock w) (upcoming w) n (jwt_verify w) (engine w)
    (outbox w).

Definition with_outbox (o : list Engine.Call) (w : World) : World :=
  mkWorld (favorites w) (users w) (clock w) (upcoming w) (oid_counter w) (jwt_verify w)
    (engine w) o.

Definition with_clock (t : N) (w : World) : World :=
  mkWorld (favorites w) (users w) t (upcoming w) (oid_counter w) (jwt_verify w) (engine w)
    (outbox w).

(** The world once the clock has been read: it shows the next of the
    [upcoming] times; with none left, it stands still. *)
Definition tick (w : World) : World :=
  mkWorld (favorites w) (users w) (hd (clock w) (upcoming w)) (tl (upcoming w))
    (oid_counter w) (jwt_verify w) (engine w) (outbox w).

(** ** State and exceptions *)

Inductive Result (A : Type) : Type :=
| Ok (a : A)
| Throw (e : Thrown).

Arguments Ok {A} a.
Arguments Throw {A} e.

Definition M (A : Type) : Type := World -> Result A * World.

Definition ret {A} (a : A) : M A := fun w => (Ok a, w).

Definition throw {A} (e : Thrown) : M A := fun w => (Throw e, w).

Definition bind {A B} (m : M A) (k : A -> M B) : M B :=
  fun w =>
    match m w with
    | (Ok a, w') => k a w'
    | (Throw e, w') => (Throw e, w')
    end.

(** [try { m } catch (err) { h err }] *)
Definition try_catch {A} (m : M A) (h : Thrown -> M A) : M A :=
  fun w =>
    match m w with
    | (Ok a, w') => (Ok a, w')
    | (Throw e, w') => h e w'
    end.

Declare Scope js_scope.
Delimit Scope js_scope with js.

Notation "x <- m ;; k" := (bind m (fun x => k))
  (at level 61, m at next level, right associativity) : js_scope.
Notation "m ;;; k" := (bind m (fun _ => k))
  (at level 61, right associativity) : js_scope.
Notation "'try' m 'catch' h" := (try_catch m h)
  (at level 62, m at level 61, h at level 61) : js_scope.

Local Open Scope js_scope.

Definition get_world : M World := fun w => (Ok w, w).

(** [Date.now()]: two readings in one request need not agree. *)
Definition Date_now : M N := fun w => (Ok (clock w), tick w).

(** [new mongoose.Types.ObjectId()] *)
Definition new_ObjectId : M ObjectId :=
  fun w => (Ok (oid_counter w), with_oid_counter (oid_counter w + 1) w).

(** [axios.post(...)]: the call is logged and the engine answers;
    a rejected promise throws at the [await]. *)
Definition axios (c : Engine.Call) : World -> (Engine.Outcome * World) :=
  fun w => (engine w c, with_outbox (outbox w ++ [c]) w).

(** ** models/Favorite.js: the model's operations *)

Module Favorite.

Export FavoriteDoc.

(** Casting a string to an ObjectId: 24 hexadecimal digits. *)
Definition hex_val (c : ascii) : option N :=
  let n := N_of_ascii c in
  if (48 <=? n) && (n <=? 57) then Some (n - 48)
  else if (97 <=? n) && (n <=? 102) then Some (n - 87)
  else if (65 <=? n) && (n <=? 70) then Some (n - 55)
  else None.

Fixpoint parse_hex (s : string) (acc : N) : option N :=
  match s with
  | EmptyString => Some acc
  | String c r =>
      match hex_val c with
      | Some d => parse_hex r (16 * acc + d)
      | None => None
      end
  end.

Definition castObjectId (s : string) : option ObjectId :=
  if Js.length s =? 24 then parse_hex s 0 else None.

(** [new Favorite({...})]: allocates [_id], applies the [trim] setters
    and the schema defaults; the default of [addedAt], [Date.now], is
    called when the literal gives no [addedAt]. *)
Definition new_Favorite (i : init) : M draft :=
  oid <- new_ObjectId ;;
  added <- match i_addedAt i with
           | Some t => ret t
           | None => Date_now
           end ;;
  ret {| d_id := oid;
         d_userId := i_userId i;
         d_productId := i_productId i;
         d_productName := option_map Js.trim (i_productName i);
         d_brandName := option_map Js.trim (i_brandName i);
         d_price := i_price i;
         d_originalPrice := None;
         d_ingredients := match i_ingredients i with Some s => s | None => "" end;
         d_similarity := match i_similarity i with Some q => q | None => 0%Q end;
         d_category := match i_category i with Some s => s | None => "Unknown" end;
         d_productType := "unknown";
         d_source := match i_source i with Some s => s | None => dupe_finder end;
         d_addedAt := added;
         d_notes := "" |}.

(** [required: true] on a String path rejects [undefined] and [""]. *)
Definition required_str (x : option string) : option string :=
  match x with
  | Some s => if String.eqb s "" then None else Some s
  | None => None
  end.

(** [min: 0] *)
Definition min0 (q : Q) : bool := Qle_bool 0 q.

(** Schema validation; on success the stored document, stamped by
    [timestamps: true]. *)
Definition validate (d : draft) (now : N) : option doc :=
  match required_str (d_productId d),
        required_str (d_productName d),
        required_str (d_brandName d),
        d_price d with
  | Some pid, Some pname, Some bname, Some p =>
      if min0 p
         && match d_originalPrice d with Some o => min0 o | None => true end
         && min0 (d_similarity d) && Qle_bool (d_similarity d) 1
      then Some {| _id := d_id d;
                   userId := d_userId d;
                   productId := pid;
                   productName := pname;
                   brandName := bname;
                   price := p;
                   originalPrice := d_originalPrice d;
                   ingredients := d_ingredients d;
                   similarity := d_similarity d;
                   category := d_category d;
                   productType := d_productType d;
                   source := d_source d;
                   addedAt := d_addedAt d;
                   notes := d_notes d;
                   createdAt := now;
                   updatedAt := now |}
      else None
  | _, _, _, _ => None
  end.

(** [favoriteSchema.index({ userId: 1, productId: 1 }, { unique: true })] *)
Definition same_key (a b : doc) : bool :=
  (userId a =? userId b) && String.eqb (productId a) (productId b).

(** [doc.save()] of a new document.  [_id] comes from the generator, so
    only the compound index can reject the insert (E11000). *)
Definition save (d : draft) : M doc :=
  now <- Date_now ;;
  match validate d now with
  | None => throw (ValidationError "Favorite validation failed")
  | Some f =>
      fun w =>
        if existsb (same_key f) (favorites w)
        then (Throw (MongoServerError 11000 "E11000 duplicate key error collection: favorites index: userId_1_productId_1"), w)
        else (Ok f, with_favorites (favorites w ++ [f]) w)
  end.

(** Query filters. *)

(** [{ userId: uid, productName: name }]: the filter value goes through
    the path's [trim] setter; [undefined] matches no stored name. *)
Definition by_user_and_name (uid : ObjectId) (name : option string) (f : doc) : bool :=
  (userId f =? uid)
  && match name with
     | Some n => String.eqb (productName f) (Js.trim n)
     | None => false
     end.

(** [{ userId: uid, productId: pid }] *)
Definition by_user_and_product (uid : ObjectId) (pid : option string) (f : doc) : bool :=
  (userId f =? uid)
  && match pid with
     | Some p => String.eqb (productId f) p
     | None => false
     end.

(** [{ userId: uid }] *)
Definition by_user (uid : ObjectId) (f : doc) : bool := userId f =? uid.

(** [Favorite.findOne(filter)] *)
Definition findOne (filter : doc -> bool) : M (option doc) :=
  fun w => (Ok (List.find filter (favorites w)), w).

(** [Favorite.find(filter)] *)
Definition find (filter : doc -> bool) : M (list doc) :=
  fun w => (Ok (List.filter filter (favorites w)), w).

(** [.sort({ key: -1 })]: descending; documents with equal keys keep
    their stored order. *)
Fixpoint insert_desc (key : doc -> N) (x : doc) (l : list doc) : list doc :=
  match l with
  | [] => [x]
  | y :: r => if key y <=? key x then x :: l else y :: insert_desc key x r
  end.

Fixpoint sort_desc (key : doc -> N) (l : list doc) : list doc :=
  match l with
  | [] => []
  | x :: r => insert_desc key x (sort_desc key r)
  end.

(** [Favorite.findById(id)]: a string that is no ObjectId is a CastError. *)
Definition findById (id : string) : M (option doc) :=
  match castObjectId id with
  | None => throw (CastError "Cast to ObjectId failed")
  | Some oid => findOne (fun f => _id f =? oid)
  end.

(** [favorite.deleteOne()] *)
Definition deleteOne (f : doc) : M unit :=
  fun w => (Ok tt, with_favorites (List.filter (fun g => negb (_id g =? _id f)) (favorites w)) w).

Fixpoint remove_first (filter : doc -> bool) (l : list doc) : list doc :=
  match l with
  | [] => []
  | x :: r => if filter x then r else x :: remove_first filter r
  end.

(** [Favorite.findOneAndDelete(filter)] *)
Definition findOneAndDelete (filter : doc -> bool) : M (option doc) :=
  fun w => (Ok (List.find filter (favorites w)),
            with_favorites (remove_first filter (favorites w)) w).

End Favorite.

(** ** models/User.js queries used by the middleware *)

(** [User.findById(id).select('-password')] *)
Definition User_findById (id : ObjectId) : M (option User.safe) :=
  fun w => (Ok (option_map User.select_without_password
                  (List.find (fun u => User._id u =? id) (users w))), w).

(** ** services/nlpService.js *)

Module nlpService.

Import Engine.

(** [await axios.post(...)] inside a [try]: a rejection is handed to the
    catch block as the axios error. *)
Definition post (c : Call) : M (json + AxiosError) :=
  fun w =>
    match axios c w with
    | (Resolved data, w') => (Ok (inl data), w')
    | (Rejected e, w') => (Ok (inr e), w')
    end.

Definition opt_eqb (x : option string) (s : string) : bool :=
  match x with Some y => String.eqb y s | None => false end.

(** What the [catch] blocks see of a TypeError thrown inside the [try]
    by reading a property of a [null] reply: no [code], no [response],
    only the message. *)
Definition null_reply (property : string) : AxiosError :=
  mkAxiosError None None None
    ("Cannot read properties of null (reading '" ++ property ++ "')").

(** The [try] block after the [await]: the log line reads
    [response.data.<property>], which throws on a [null] reply; any other
    reply is returned. *)
Definition read_reply (property : string) (r : json + AxiosError) : json + AxiosError :=
  match r with
  | inl JNull => inr (null_reply property)
  | other => other
  end.

(** [findDupes(ingredients, brand = null, type = null, price = 0, category = "All")];
    the payload's price is [parseFloat(price) || 100]. *)
Definition findDupes (ingredients : string) (brand type : option string)
    (price : option Q) (category : option string) : M json :=
  r <- post (PostFindDupes
               {| dp_ingredients := ingredients;
                  dp_brand_name := brand;
                  dp_target_product_type := type;
                  dp_price := Js.or_num price 100;
                  dp_category := match category with Some c => c | None => "All" end |}) ;;
  match read_reply "count" r with
  | inl data => ret data
  | inr error =>
      if opt_eqb (code error) "ECONNREFUSED" then
        throw (Error "Le service d'analyse IA n'est pas disponible. Vérifiez que le serveur Python est en cours d'exécution.")
      else if match response_status error with Some s => s =? 503 | None => false end then
        throw (Error "Le service d'analyse est en cours de chargement, veuillez réessayer dans quelques instants.")
      else
        throw (Error ("Erreur d'analyse: " ++
                      Js.or_str (response_detail error) (message error)))
  end.

(** The value [analyzeReview] returns from its [catch]. *)
Definition degraded (error : AxiosError) : json :=
  JObj [("sentiment", JStr "Indisponible");
        ("confidence", JNum 0);
        ("error", JStr (message error))].

(** [analyzeReview(text, skinType = "All")] *)
Definition analyzeReview (text : string) (skinType : option string) : M json :=
  r <- post (PostReview text (match skinType with Some s => s | None => "All" end)) ;;
  match r with
  | inl data => ret data
  | inr error => ret (degraded error)
  end.

(** [scanImage(fileBuffer, fileName, originalname)] *)
Definition scanImage (fileBuffer : list Byte.byte) (fileName : option string)
    (originalname : option string) : M json :=
  r <- post (PostScanImage fileBuffer
               (Js.or_str fileName (Js.or_str originalname "image.jpg"))
               "image/jpeg") ;;
  match read_reply "scan_summary" r with
  | inl data => ret data
  | inr error =>
      if Js.truthy_str (response_detail error) then
        throw (Error (Js.or_str (response_detail error) ""))   (* the detail itself *)
      else if opt_eqb (code error) "ECONNREFUSED" then
        throw (Error "Service OCR non disponible")
      else
        throw (Error ("Erreur de traitement d'image: " ++ message error))
  end.

(** [analyzeQuality(data)]: no catch, the axios error propagates. *)
Definition analyzeQuality (product_name : string) (brand_name ingredients : option string)
    : M json :=
  r <- post (PostQuality product_name brand_name ingredients) ;;
  match r with
  | inl data => ret data
  | inr error => throw (Error (message error))
  end.

End nlpService.

(** ** Express requests and responses *)

Module Http.

(** [req.body] after [express.json()], for payloads whose text fields are
    strings and whose numeric fields are numbers; [None] is an absent
    property. *)
Record Body : Type := mkBody {
  product_name : option string;
  brand_name : option string;
  price : option Q;
  ingredients : option string;
  category : option string;
  similarity : option Q;
  product_id : option string;
  productId : option string;
  productName : option string;
  brandName : option string;
  brand : option string;
  type : option string;
  text : option string;
  skinType : option string
}.

Definition empty_body : Body :=
  mkBody None None None None None None None None None None None None None None.

(** [req.file] as multer's memory storage leaves it; [size] is the byte
    length multer counted for [buffer]. *)
Record File : Type := mkFile {
  originalname : string;
  filename : option string;
  buffer : list Byte.byte;
  size : N
}.

Record Req : Type := mkReq {
  authorization : option string;      (* req.headers.authorization *)
  body : Body;
  multipart : option File;            (* the part named "file" of a multipart body *)
  param : option string;              (* req.params.id / req.params.productId *)
  file : option File;                 (* req.file, set by multer *)
  user : option User.safe;            (* req.user, set by protect *)
  userId : option ObjectId            (* req.userId *)
}.

Definition with_user (u : option User.safe) (r : Req) : Req :=
  mkReq (authorization r) (body r) (multipart r) (param r) (file r) u (userId r).

Definition with_file (f : option File) (r : Req) : Req :=
  mkReq (authorization r) (body r) (multipart r) (param r) f (user r) (userId r).

Definition with_param (x : option string) (r : Req) : Req :=
  mkReq (authorization r) (body r) (multipart r) x (file r) (user r) (userId r).

Inductive Payload : Type :=
| JsonBody (j : json)
| TextBody (s : string)
| ErrorPage (e : Thrown).

Record Response : Type := mkResponse {
  status : N;
  payload : Payload
}.

(** [res.status(code).json(j)] *)
Definition respond (code : N) (j : json) : Response := mkResponse code (JsonBody j).

(** [res.json(j)] *)
Definition respond_ok (j : json) : Response := respond 200 j.

End Http.

Import Http.

(** [req.user.id]: a TypeError when [req.user] is null or undefined. *)
Definition req_user_id (req : Req) : M ObjectId :=
  match user req with
  | Some u => ret (User.id u)
  | None => throw (TypeError "Cannot read properties of null (reading 'id')")
  end.

(** ** controllers/favoriteController.js *)

Module favoriteController.

Definition msg (s : string) : json := JObj [("msg", JStr s)].

(** The pre-check of [addFavorite]:
    [await Favorite.findOne({ userId: req.user.id, productName: product_name })]. *)
Definition addFavorite_lookup (req : Req) : M (option FavoriteDoc.doc) :=
  uid <- req_user_id req ;;
  Favorite.findOne (Favorite.by_user_and_name uid (product_name (body req))).

Definition already_favorite : Response :=
  respond 400 (msg "Ce produit est déjà dans vos favoris !").

(** The rest of the [try] block once the pre-check found nothing. *)
Definition addFavorite_insert (req : Req) : M Response :=
  let b := body req in
  uid <- req_user_id req ;;
  pid <- (if Js.truthy_str (product_id b)
          then ret (Js.or_str (product_id b) "")
          else (o <- new_ObjectId ;; ret (oid_toString o))) ;;
  newFavorite <- Favorite.new_Favorite
    {| FavoriteDoc.i_userId := uid;
       FavoriteDoc.i_productId := Some pid;
       FavoriteDoc.i_productName := Some (Js.or_str (product_name b) "Nom inconnu");
       FavoriteDoc.i_brandName := Some (Js.or_str (brand_name b) "Marque inconnue");
       FavoriteDoc.i_price := Some (Js.or_num (price b) 0);
       FavoriteDoc.i_ingredients := Some (Js.or_str (ingredients b) "");
       FavoriteDoc.i_category := Some (Js.or_str (category b) "Skincare");
       FavoriteDoc.i_similarity := Some (Js.or_num (similarity b) 0);
       FavoriteDoc.i_addedAt := None;
       FavoriteDoc.i_source := Some FavoriteDoc.dupe_finder |} ;;
  savedFavorite <- Favorite.save newFavorite ;;
  ret (respond 201 (FavoriteDoc.toJSON savedFavorite)).

Definition duplicate_key : Response := respond 400 (msg "Produit déjà en favoris").

Definition server_error : Response := respond 500 (msg "Erreur serveur").

(** The [catch (err)] block of [addFavorite]: [err.code === 11000] is the
    unique index refusing the insert. *)
Definition addFavorite_catch (err : Thrown) : M Response :=
  if match err_code err with Some c => c =? 11000 | None => false end
  then ret duplicate_key
  else ret server_error.

(** [POST /api/favorites] *)
Definition addFavorite (req : Req) : M Response :=
  try (existingFavorite <- addFavorite_lookup req ;;
       match existingFavorite with
       | Some _ => ret already_favorite
       | None => addFavorite_insert req
       end)
  catch addFavorite_catch.

(** [GET /api/favorites] *)
Definition getMyFavorites (req : Req) : M Response :=
  try (uid <- req_user_id req ;;
       found <- Favorite.find (Favorite.by_user uid) ;;
       let favorites := Favorite.sort_desc FavoriteDoc.createdAt found in
       ret (respond_ok (JArr (map FavoriteDoc.toJSON favorites))))
  catch (fun _ => ret (respond 500 (msg "Erreur serveur lors du chargement des favoris"))).

Definition favorite_not_found : Response := respond 404 (msg "Favori non trouvé").

Definition not_the_owner : Response := respond 401 (msg "Non autorisé").

Definition favorite_removed : Response := respond_ok (msg "Favori supprimé").

(** [DELETE /api/favorites/:id] *)
Definition deleteFavorite (req : Req) : M Response :=
  try (favorite <- match param req with
                   | Some id => Favorite.findById id
                   | None => ret None
                   end ;;
       match favorite with
       | None => ret favorite_not_found
       | Some f =>
           uid <- req_user_id req ;;
           if negb (FavoriteDoc.userId f =? uid)
           then ret not_the_owner
           else (Favorite.deleteOne f ;;;
                 ret favorite_removed)
       end)
  catch (fun _ => ret server_error).

End favoriteController.

(** ** controllers/analysisController.js *)

Module analysisController.

Definition message (s : string) : json := JObj [("message", JStr s)].

Definition failure (s : string) : json :=
  JObj [("success", JBool false); ("message", JStr s)].

(** [10 * 1024 * 1024] *)
Definition max_image_size : N := 10 * 1024 * 1024.

Definition image_too_large : Response :=
  respond 400 (failure "L'image est trop volumineuse (max 10MB)").

(** [POST /api/analysis/scan] *)
Definition scanImage (req : Req) : M Response :=
  try (match file req with
       | None => ret (respond 400 (failure "Aucune image fournie."))
       | Some f =>
           if max_image_size <? size f
           then ret image_too_large
           else (result <- nlpService.scanImage (buffer f) (filename f) (Some (originalname f)) ;;
                 ret (respond_ok (JObj [("success", JBool true); ("data", result)])))
       end)
  catch (fun error =>
           ret (respond 500 (JObj [("success", JBool false);
                                   ("message", JStr (err_message error));
                                   ("suggestion", JStr "Essayez une image plus nette")]))).

(** [POST /api/analysis/quality] *)
Definition getQualityAnalysis (req : Req) : M Response :=
  let b := body req in
  try (if negb (Js.truthy_str (product_name b))
       then ret (respond 400 (failure "Le nom du produit est requis pour trouver sa note."))
       else (result <- nlpService.analyzeQuality (Js.or_str (product_name b) "")
                         (brand_name b) (ingredients b) ;;
             ret (respond 200 (JObj [("success", JBool true); ("data", result)]))))
  catch (fun _ => ret (respond 500 (failure "Erreur lors de la récupération de la note."))).

(** [o.k] on an engine reply: reading a property of [null] throws. *)
Definition prop (k : string) (o : json) : M (option json) :=
  match o with
  | JNull => throw (TypeError "Cannot read properties of null")
  | _ => ret (Js.get k o)
  end.

(** The own enumerable properties [{...p}] copies. *)
Fixpoint index_fields (i : N) (items : list json) : list (string * json) :=
  match items with
  | [] => []
  | x :: r => (DecimalString.NilZero.string_of_uint (N.to_uint i), x) :: index_fields (i + 1) r
  end.

Fixpoint chars (s : string) : list json :=
  match s with
  | EmptyString => []
  | String c r => JStr (String c EmptyString) :: chars r
  end.

Definition own_fields (p : json) : list (string * json) :=
  match p with
  | JObj fields => fields
  | JArr items => index_fields 0 items
  | JStr s => index_fields 0 (chars s)
  | _ => []
  end.

(** [p => ({ ...p, isFavorite: favIds.includes(p.product_id) })] *)
Definition annotate (favIds : list string) (p : json) : M json :=
  product_id <- prop "product_id" p ;;
  let isFavorite :=
    match product_id with
    | Some (JStr s) => existsb (String.eqb s) favIds
    | _ => false
    end in
  ret (Js.spread_with (JObj (own_fields p)) "isFavorite" (JBool isFavorite)).

Fixpoint map_annotate (favIds : list string) (items : list json) : M (list json) :=
  match items with
  | [] => ret []
  | p :: r =>
      p' <- annotate favIds p ;;
      r' <- map_annotate favIds r ;;
      ret (p' :: r')
  end.

(** The favourites cross-reference of [getDupes]; any failure inside it
    is swallowed and leaves the results as they were. *)
Definition mark_favorites (req : Req) (results : json) : M json :=
  match userId req with
  | None => ret results
  | Some uid =>
      found <- prop "results" results ;;
      if negb (Js.truthy found) then ret results
      else
        try (userFavorites <- Favorite.find (Favorite.by_user uid) ;;
             let favIds := map FavoriteDoc.productId userFavorites in
             match found with
             | Some (JArr items) =>
                 items' <- map_annotate favIds items ;;
                 ret (Js.spread_with results "results" (JArr items'))
             | _ => throw (TypeError "results.results.map is not a function")
             end)
        catch (fun _ => ret results)
  end.

Definition ingredients_required : Response :=
  respond 400 (failure "Ingrédients requis pour trouver des dupes.").

(** [POST /api/analysis/dupes] *)
Definition getDupes (req : Req) : M Response :=
  let b := body req in
  try (match ingredients b with
       | Some ingr =>
           if String.eqb ingr "" || (Js.length (Js.trim ingr) <? 5)
           then ret ingredients_required
           else (fetched <- nlpService.findDupes ingr (brand b) (type b) (price b) (category b) ;;
                 results <- mark_favorites req fetched ;;
                 count <- prop "count" results ;;
                 data <- prop "results" results ;;
                 ret (respond 200
                        (JObj [("success", JBool true);
                               ("count", match count with
                                         | Some c => if Js.truthy count then c else JNum 0
                                         | None => JNum 0
                                         end);
                               ("data", match data with
                                        | Some d => if Js.truthy data then d else JArr []
                                        | None => JArr []
                                        end)])))
       | None => ret ingredients_required
       end)
  catch (fun error => ret (respond 500 (failure (err_message error)))).

(** [POST /api/analysis/sentiment] *)
Definition getSentiment (req : Req) : M Response :=
  let b := body req in
  try (if negb (Js.truthy_str (text b))
       then ret (respond 400 (message "Texte requis"))
       else (analysis <- nlpService.analyzeReview (Js.or_str (text b) "") (skinType b) ;;
             ret (respond 200 (JObj [("success", JBool true); ("data", analysis)]))))
  catch (fun error => ret (respond 500 (failure (err_message error)))).

(** [POST /api/analysis/favorites] *)
Definition addToFavorites (req : Req) : M Response :=
  let b := body req in
  try (match userId req with
       | None => ret (respond 401 (message "Connectez-vous"))
       | Some uid =>
           existing <- Favorite.findOne (Favorite.by_user_and_product uid (productId b)) ;;
           match existing with
           | Some _ =>
               ret (respond 200 (JObj [("message", JStr "Déjà favori");
                                       ("alreadyExists", JBool true)]))
           | None =>
               now <- Date_now ;;
               favorite <- Favorite.new_Favorite
                 {| FavoriteDoc.i_userId := uid;
                    FavoriteDoc.i_productId := productId b;
                    FavoriteDoc.i_productName := productName b;
                    FavoriteDoc.i_brandName := brandName b;
                    FavoriteDoc.i_price := Some (Js.or_num (price b) 0);
                    FavoriteDoc.i_ingredients := ingredients b;
                    FavoriteDoc.i_category := None;
                    FavoriteDoc.i_similarity := similarity b;
                    FavoriteDoc.i_addedAt := Some now;
                    FavoriteDoc.i_source := Some FavoriteDoc.dupe_finder |} ;;
               saved <- Favorite.save favorite ;;
               ret (respond 201 (JObj [("success", JBool true);
                                       ("message", JStr "Ajouté aux favoris");
                                       ("data", FavoriteDoc.toJSON saved)]))
           end
       end)
  catch (fun _ => ret (respond 500 (failure "Erreur favoris"))).

(** [DELETE /api/analysis/favorites/:productId] *)
Definition removeFromFavorites (req : Req) : M Response :=
  try (match userId req with
       | None => ret (respond 401 (message "Non autorisé"))
       | Some uid =>
           Favorite.findOneAndDelete (Favorite.by_user_and_product uid (param req)) ;;;
           ret (respond 200 (JObj [("success", JBool true);
                                   ("message", JStr "Retiré des favoris")]))
       end)
  catch (fun error => ret (respond 500 (failure (err_message error)))).

(** [GET /api/analysis/favorites] *)
Definition getFavorites (req : Req) : M Response :=
  try (match userId req with
       | None => ret (respond 401 (message "Connectez-vous"))
       | Some uid =>
           found <- Favorite.find (Favorite.by_user uid) ;;
           let favorites := Favorite.sort_desc FavoriteDoc.addedAt found in
           ret (respond 200 (JObj [("success", JBool true);
                                   ("data", JArr (map FavoriteDoc.toJSON favorites))]))
       end)
  catch (fun error => ret (respond 500 (failure (err_message error)))).

End analysisController.

(** ** middleware/authMiddleware.js *)

Module authMiddleware.

Definition invalid_token : Response :=
  respond 401 (analysisController.message "Non autorisé, token invalide").

Definition no_token : Response :=
  respond 401 (analysisController.message "Non autorisé, aucun token").

(** The [try] block of [protect] up to [next()]: the bearer token is the
    second piece of the header split on spaces, [jwt.verify] throws on a
    missing, forged or expired token, and the user is looked up without
    the password. *)
Definition resolve (header : string) : M (option User.safe) :=
  let token := nth_error (Js.split_space header) 1 in
  if negb (Js.truthy_str token) then throw (JsonWebTokenError "jwt must be provided")
  else
    w <- get_world ;;
    match jwt_verify w (Js.or_str token "") with
    | None => throw (JsonWebTokenError "invalid token")
    | Some id => User_findById id
    end.

(** [protect(req, res, next)].  [next] runs the downstream handler; it is
    called from inside the [try], but the handler is asynchronous, so
    nothing it throws reaches this [catch].  When the header starts with
    [Bearer] and carries no token, the [catch] has already answered 401
    and the final [if (!token)] cannot send a second response. *)
Definition protect (next : Req -> M Response) (req : Req) : M Response :=
  match authorization req with
  | Some header =>
      if Js.startsWith "Bearer" header then
        r <- (try (u <- resolve header ;; ret (inl (with_user u req)))
              catch (fun _ => ret (inr invalid_token))) ;;
        match r with
        | inl req' => next req'
        | inr response => ret response
        end
      else ret no_token
  | None => ret no_token
  end.

End authMiddleware.

(** ** controllers/userController.js and controllers/authController.js *)

Module userController.

Definition with_users (us : list User.doc) (w : World) : World :=
  mkWorld (favorites w) us (clock w) (upcoming w) (oid_counter w) (jwt_verify w) (engine w)
    (outbox w).

(** [DELETE /api/users/profile]: the account goes, its favorites stay. *)
Definition deleteUser (req : Req) : M Response :=
  try (uid <- req_user_id req ;;
       w <- get_world ;;
       match List.find (fun u => User._id u =? uid) (users w) with
       | Some u =>
           (fun w' => (Ok tt, with_users
                                (List.filter (fun v => negb (User._id v =? User._id u)) (users w'))
                                w')) ;;;
           ret (respond_ok (analysisController.message "Utilisateur supprimé avec succès"))
       | None => ret (respond 404 (analysisController.message "Utilisateur non trouvé"))
       end)
  catch (fun _ => ret (respond 500 (analysisController.message "Erreur serveur"))).

End userController.

Module authController.

(** [GET /api/auth/me]: [res.status(200).json(req.user)], with no [try]. *)
Definition getMe (req : Req) : M Response :=
  ret (respond 200 (match user req with
                    | Some u => User.toJSON u
                    | None => JNull
                    end)).

End authController.

(** ** routes and server.js *)

Module server.

Inductive Method : Type := GET | POST | PUT | DELETE.

Definition method_eqb (a b : Method) : bool :=
  match a, b with
  | GET, GET | POST, POST | PUT, PUT | DELETE, DELETE => true
  | _, _ => false
  end.

(** An incoming request: method, path segments, the Authorization header,
    the JSON body and, for a multipart request, the part named [file]. *)
Record HttpRequest : Type := mkHttp {
  method : Method;
  path : list string;
  header_authorization : option string;
  json_body : Body;
  file_part : option File
}.

(** The [req] object the first handler of a route receives: nothing in
    [server.js] ([cors()], [express.json()]) sets [req.user] or
    [req.userId]. *)
Definition incoming (h : HttpRequest) : Req :=
  mkReq (header_authorization h) (json_body h) (file_part h) None None None None.

(** A route pattern: literal segments and at most one [:param]. *)
Inductive Segment : Type :=
| Lit (s : string)
| Param.

Fixpoint match_pattern (pattern : list Segment) (segments : list string)
    (captured : option string) : option (option string) :=
  match pattern, segments with
  | [], [] => Some captured
  | Lit s :: pattern', x :: segments' =>
      if String.eqb s x then match_pattern pattern' segments' captured else None
  | Param :: pattern', x :: segments' => match_pattern pattern' segments' (Some x)
  | _, _ => None
  end.

Record Route : Type := mkRoute {
  route_method : Method;
  route_pattern : list Segment;
  route_handler : Req -> M Response
}.

(** A router answers with its first matching route; [None] hands the
    request on. *)
Fixpoint dispatch (routes : list Route) (h : HttpRequest) (segments : list string)
    : option (M Response) :=
  match routes with
  | [] => None
  | r :: rest =>
      if method_eqb (route_method r) (method h) then
        match match_pattern (route_pattern r) segments None with
        | Some captured => Some (route_handler r (with_param captured (incoming h)))
        | None => dispatch rest h segments
        end
      else dispatch rest h segments
  end.

(** [multer({ storage: multer.memoryStorage(), limits: { fileSize: 10 * 1024 * 1024 } })] *)
Definition fileSize_limit : N := 10 * 1024 * 1024.

(** [upload.single('file')]: a part larger than the limit makes multer
    pass a [LIMIT_FILE_SIZE] error on; otherwise [req.file] holds the
    part, without a [filename] under memory storage. *)
Definition upload_single (next : Req -> M Response) (req : Req) : M Response :=
  match multipart req with
  | None => next req
  | Some f =>
      if fileSize_limit <? size f
      then throw (MulterError "LIMIT_FILE_SIZE" "File too large")
      else next (with_file (Some (mkFile (originalname f) None (buffer f) (size f))) req)
  end.

(** [routes/analysisRoute.js] *)
Definition analysisRoute : list Route :=
  [ mkRoute POST [Lit "dupes"] analysisController.getDupes;
    mkRoute POST [Lit "sentiment"] analysisController.getSentiment;
    mkRoute POST [Lit "scan"] (upload_single analysisController.scanImage);
    mkRoute POST [Lit "quality"] analysisController.getQualityAnalysis;
    mkRoute POST [Lit "favorites"] analysisController.addToFavorites;
    mkRoute GET [Lit "favorites"] analysisController.getFavorites;
    mkRoute DELETE [Lit "favorites"; Param] analysisController.removeFromFavorites;
    mkRoute GET [Lit "test"]
      (fun _ => ret (respond_ok (JObj [("success", JBool true);
                                       ("message", JStr "API Analysis OK")]))) ].

(** [routes/favoriteRoutes.js] *)
Definition favoriteRoutes : list Route :=
  [ mkRoute POST [] (authMiddleware.protect favoriteController.addFavorite);
    mkRoute GET [] (authMiddleware.protect favoriteController.getMyFavorites);
    mkRoute DELETE [Param] (authMiddleware.protect favoriteController.deleteFavorite) ].

(** The route of [routes/userRoutes.js] whose handler is modelled. *)
Definition userRoutes : list Route :=
  [ mkRoute DELETE [Lit "profile"] (authMiddleware.protect userController.deleteUser) ].

(** [app.use(prefix, router)] *)
Fixpoint strip_prefix (prefix segments : list string) : option (list string) :=
  match prefix, segments with
  | [], _ => Some segments
  | p :: prefix', x :: segments' =>
      if String.eqb p x then strip_prefix prefix' segments' else None
  | _ :: _, [] => None
  end.

Definition mounted : list (list string * list Route) :=
  [ (["api"; "analysis"], analysisRoute);
    (["api"; "favorites"], favoriteRoutes);
    (["api"; "users"], userRoutes) ].

Fixpoint through (mounts : list (list string * list Route)) (h : HttpRequest)
    : option (M Response) :=
  match mounts with
  | [] => None
  | (prefix, routes) :: rest =>
      match strip_prefix prefix (path h) with
      | Some segments =>
          match dispatch routes h segments with
          | Some handler => Some handler
          | None => through rest h
          end
      | None => through rest h
      end
  end.

(** Express's default error handler and its final 404. *)
Definition default_error_handler (e : Thrown) : Response :=
  mkResponse 500 (ErrorPage e).

Definition not_found : Response := mkResponse 404 (TextBody "Cannot find route").

(** [server.js]: the mounted routers.  An error that reaches Express ends
    in the default error handler. *)
Definition app (h : HttpRequest) (w : World) : Response * World :=
  match through mounted h with
  | Some handler =>
      match handler w with
      | (Ok response, w') => (response, w')
      | (Throw e, w') => (default_error_handler e, w')
      end
  | None =>
      match method h, path h with
      | GET, [] => (mkResponse 200 (TextBody "PureSkin Backend API is running..."), w)
      | _, _ => (not_found, w)
      end
  end.

(** A request served when the clock shows [t]. *)
Definition serve_at (t : N) (h : HttpRequest) (w : World) : Response * World :=
  app h (with_clock t w).

End server.

(** ** Two [addFavorite] requests in flight *)

(** A request suspends at each [await]: the pre-check query, then the
    insert.  Between them other requests run. *)
Module race.

Inductive InFlight : Type :=
| Pending (req : Req)            (* about to run the pre-check *)
| Looked (req : Req)             (* the pre-check found nothing *)
| Finished (response : Response).

Definition settle (r : Result Response * World) : InFlight * World :=
  match r with
  | (Ok response, w) => (Finished response, w)
  | (Throw e, w) =>
      match favoriteController.addFavorite_catch e w with
      | (Ok response, w') => (Finished response, w')
      | (Throw e', w') => (Finished (server.default_error_handler e'), w')
      end
  end.

(** One atomic step of a request. *)
Definition step (t : InFlight) (w : World) : InFlight * World :=
  match t with
  | Pending req =>
      match favoriteController.addFavorite_lookup req w with
      | (Ok (Some _), w') => (Finished favoriteController.already_favorite, w')
      | (Ok None, w') => (Looked req, w')
      | (Throw e, w') => settle (Throw e, w')
      end
  | Looked req => settle (favoriteController.addFavorite_insert req w)
  | Finished _ => (t, w)
  end.

Inductive Turn : Type := A | B.

(** Runs a schedule over the two requests. *)
Fixpoint run (schedule : list Turn) (a b : InFlight) (w : World) : InFlight * InFlight * World :=
  match schedule with
  | [] => (a, b, w)
  | A :: rest => let (a', w') := step a w in run rest a' b w'
  | B :: rest => let (b', w') := step b w in run rest a b' w'
  end.

Definition turns (who : Turn) (schedule : list Turn) : nat :=
  List.length (List.filter (fun t => match t, who with A, A | B, B => true | _, _ => false end)
                 schedule).

End race.

(** ** Histories of the store *)

(** The worlds the server can be in: it starts with an empty favorites
    collection; between requests anything but the favorites may change
    (time passes, accounts come and go, the engine goes up or down); and
    each request is served by [server.app]. *)
Inductive reachable : World -> Prop :=
| reach_start : forall w, favorites w = [] -> reachable w
| reach_env : forall w w', reachable w -> favorites w' = favorites w -> reachable w'
| reach_serve : forall w h, reachable w -> reachable (snd (server.app h w)).

(** Invariant I1: the compound index [(userId, productId)] holds no key twice. *)
Definition index_key (f : FavoriteDoc.doc) : ObjectId * string :=
  (FavoriteDoc.userId f, FavoriteDoc.productId f).

Definition I1 (fs : list FavoriteDoc.doc) : Prop := NoDup (map index_key fs).

(** The favorites stored for an owner under a product key. *)
Definition stored_under (uid : ObjectId) (key : string) (fs : list FavoriteDoc.doc)
    : list FavoriteDoc.doc :=
  List.filter (Favorite.by_user_and_product uid (Some key)) fs.

(** ** Sample data *)

Module sample.

Definition refused : Engine.AxiosError :=
  Engine.mkAxiosError (Some "ECONNREFUSED") None None "connect ECONNREFUSED 127.0.0.1:8000".

(** An engine that is down. *)
Definition engine_down (c : Engine.Call) : Engine.Outcome := Engine.Rejected refused.

(** An engine that answers every call with an empty result set. *)
Definition engine_up (c : Engine.Call) : Engine.Outcome :=
  Engine.Resolved (JObj [("count", JNum 0); ("results", JArr [])]).

Definition alice : User.doc := User.mk 1 "Alice" "alice@example.org" "$2a$10$hash-of-alice".
Definition bob : User.doc := User.mk 2 "Bob" "bob@example.org" "$2a$10$hash-of-bob".

(** Tokens [tok-alice], [tok-bob] and [tok-carol] verify; Carol's account
    (id 3) has been deleted. *)
Definition verify (token : string) : option ObjectId :=
  if String.eqb token "tok-alice" then Some 1
  else if String.eqb token "tok-bob" then Some 2
  else if String.eqb token "tok-carol" then Some 3
  else None.

Definition world (eng : Engine.Call -> Engine.Outcome) : World :=
  mkWorld [] [alice; bob] 1000 [] 100 verify eng [].

Definition as_user (u : User.doc) (b : Body) (param : option string) : Req :=
  mkReq None b None param None (Some (User.select_without_password u)) None.

Definition product (name : string) (pid : option string) : Body :=
  mkBody (Some name) (Some "Acme") (Some (20 # 1)) None None (Some (1 # 2)) pid
         None None None None None None None.

Definition serum : FavoriteDoc.doc :=
  FavoriteDoc.mk 7 1 "p-serum" "Serum" "Acme" (20 # 1) None "" (1 # 2) "Skincare"
    "unknown" FavoriteDoc.dupe_finder 500 "" 500 500.

Definition toner : FavoriteDoc.doc :=
  FavoriteDoc.mk 8 2 "p-toner" "Toner" "Acme" (9 # 1) None "" 0 "Skincare"
    "unknown" FavoriteDoc.dupe_finder 600 "" 600 600.

Definition stocked : World := with_favorites [serum; toner] (world engine_down).

Definition oid_7 : string := "000000000000000000000007".

Definition with_text (t s : string) : Body :=
  mkBody None None None None None None None None None None None None (Some t) (Some s).

Definition with_ingredients (i : string) : Body :=
  mkBody None None None (Some i) None None None None None None None None None None.

Definition anonymous (b : Body) : Req := mkReq None b None None None None None.

Definition post_favorite (token name : string) (pid : option string) : server.HttpRequest :=
  server.mkHttp server.POST ["api"; "favorites"] (Some ("Bearer " ++ token))
    (product name pid) None.

Definition get_favorites (token : string) : server.HttpRequest :=
  server.mkHttp server.GET ["api"; "favorites"] (Some ("Bearer " ++ token))
    empty_body None.

Definition delete_favorite (token id : string) : server.HttpRequest :=
  server.mkHttp server.DELETE ["api"; "favorites"; id] (Some ("Bearer " ++ token))
    empty_body None.

Definition carol : User.doc := User.mk 3 "Carol" "carol@example.org" "$2a$10$hash-of-carol".

(** Carol still has her account. *)
Definition with_carol : World :=
  mkWorld [serum; toner] [alice; bob; carol] 1000 [] 100 verify engine_down [].

Definition delete_profile (token : string) : server.HttpRequest :=
  server.mkHttp server.DELETE ["api"; "users"; "profile"] (Some ("Bearer " ++ token))
    empty_body None.

Definition bearer (token : string) : Req :=
  mkReq (Some ("Bearer " ++ token)) empty_body None None None None None.

(** Alice adds three products at times 2000 < 3000 < 4000. *)
Definition three_adds : World :=
  snd (server.serve_at 4000 (post_favorite "tok-alice" "Cream" (Some "p-cream"))
    (snd (server.serve_at 3000 (post_favorite "tok-alice" "Balm" (Some "p-balm"))
      (snd (server.serve_at 2000 (post_favorite "tok-alice" "Mist" (Some "p-mist"))
        (world engine_down)))))).

(** Alice adds three products one after the other.  The clock shows
    1000 when the first is constructed and 1001 when it is saved, still
    1001 when the second is constructed and saved, and 1002 for the
    third. *)
Definition hurried_adds : World :=
  snd (server.app (post_favorite "tok-alice" "Cream" (Some "p-cream"))
    (snd (server.app (post_favorite "tok-alice" "Balm" (Some "p-balm"))
      (snd (server.app (post_favorite "tok-alice" "Mist" (Some "p-mist"))
        (mkWorld [] [alice; bob] 1000 [1001; 1001; 1001; 1002; 1002] 100 verify
           engine_down [])))))).

(** A 10 MiB + 1 byte upload and a small one. *)
Definition oversized : File :=
  mkFile "label.jpg" None (List.repeat Byte.x00 (N.to_nat (10 * 1024 * 1024 + 1)))
    (10 * 1024 * 1024 + 1).

Definition small : File := mkFile "label.jpg" None [Byte.xff; Byte.xd8; Byte.xff] 3.

Definition upload (f : File) : Req := mkReq None empty_body (Some f) None None None None.

Definition uploaded (f : File) : Req := mkReq None empty_body None None (Some f) None None.

End sample.

(** * The rest of the backend and its client *)

(** ** models/Favorite.js: the virtuals *)

Module FavoriteVirtuals.

(** [favoriteSchema.virtual('savings')]: the difference when
    [originalPrice] is set, non-zero and above [price], 0 otherwise. *)
Definition savings (f : FavoriteDoc.doc) : Q :=
  match FavoriteDoc.originalPrice f with
  | Some o =>
      if negb (Qeq_bool o 0) && negb (Qle_bool o (FavoriteDoc.price f))
      then o - FavoriteDoc.price f
      else 0
  | None => 0
  end.

End FavoriteVirtuals.

(** ** controllers/authController.js and userController.updateUserProfile *)

Module account.

(** [req.body] of the auth and profile routes. *)
Record Body : Type := mkBody {
  name : option string;
  email : option string;
  password : option string
}.

Definition message (s : string) : json := JObj [("message", JStr s)].

(** [User.findOne({ email })]; [undefined] matches no stored email. *)
Definition User_findOne (email : option string) : M (option User.doc) :=
  fun w => (Ok (match email with
                | Some e => List.find (fun u => String.eqb (User.email u) e) (users w)
                | None => None
                end), w).

(** [User.findById(id)], the whole document. *)
Definition User_findById_doc (id : ObjectId) : M (option User.doc) :=
  fun w => (Ok (List.find (fun u => User._id u =? id) (users w)), w).

(** [User.create({ name, email, password })]: a fresh [_id]; the unique
    index on [email] refuses a second document with the same email. *)
Definition User_create (name email password : string) : M User.doc :=
  oid <- new_ObjectId ;;
  fun w =>
    if existsb (fun u => String.eqb (User.email u) email) (users w)
    then (Throw (MongoServerError 11000 "E11000 duplicate key error collection: users index: email_1"), w)
    else let u := User.mk oid name email password in
         (Ok u, userController.with_users (users w ++ [u]) w).

(** [user.save()] of a loaded document: it replaces the stored one with
    the same [_id], unless another document holds its email. *)
Definition User_save (u : User.doc) : M User.doc :=
  fun w =>
    if existsb (fun v => negb (User._id v =? User._id u) && String.eqb (User.email v) (User.email u))
         (users w)
    then (Throw (MongoServerError 11000 "E11000 duplicate key error collection: users index: email_1"), w)
    else (Ok u, userController.with_users
                  (map (fun v => if User._id v =? User._id u then u else v) (users w)) w).

Section Capabilities.

(** [bcrypt.hash(password, salt)], [bcrypt.compare(password, hash)] and
    [jwt.sign({ id }, JWT_SECRET, { expiresIn: '30d' })] at a given time. *)
Variable bcrypt_hash : string -> string -> string.
Variable bcrypt_compare : string -> string -> bool.
Variable jwt_sign : ObjectId -> N -> string.

(** [generateToken(id)] *)
Definition generateToken (id : ObjectId) : M string :=
  now <- Date_now ;;
  ret (jwt_sign id now).

Definition session (u : User.doc) (token : json) : json :=
  JObj [("_id", JStr (oid_toString (User._id u)));
        ("name", JStr (User.name u));
        ("email", JStr (User.email u));
        ("token", token)].

Definition fill_all_fields : Response :=
  respond 400 (message "Veuillez remplir tous les champs").

Definition email_in_use : Response :=
  respond 400 (message "Cet email est déjà utilisé").

Definition bad_credentials : Response :=
  respond 400 (message "Email ou mot de passe incorrect").

(** [POST /api/auth/register]; [salt] is what [bcrypt.genSalt(10)]
    returns for this request.  [User.create] returns the document or
    throws, so the source's final [else] (400, "Données invalides") is
    never taken. *)
Definition register (salt : string) (b : Body) : M Response :=
  try (if negb (Js.truthy_str (name b)) || negb (Js.truthy_str (email b))
          || negb (Js.truthy_str (password b))
       then ret fill_all_fields
       else
         (userExists <- User_findOne (email b) ;;
          match userExists with
          | Some _ => ret email_in_use
          | None =>
              let hashedPassword := bcrypt_hash (Js.or_str (password b) "") salt in
              user <- User_create (Js.or_str (name b) "") (Js.or_str (email b) "")
                        hashedPassword ;;
              token <- generateToken (User._id user) ;;
              ret (respond 201 (session user (JStr token)))
          end))
  catch (fun _ => ret (respond 500 (message "Erreur Serveur"))).

(** [bcrypt.compare(password, hash)]: bcryptjs rejects a password that is
    not a string. *)
Definition compare (password : option string) (hash : string) : M bool :=
  match password with
  | Some p => ret (bcrypt_compare p hash)
  | None => throw (Error "Illegal arguments: undefined, string")
  end.

(** [POST /api/auth/login] *)
Definition login (b : Body) : M Response :=
  try (user <- User_findOne (email b) ;;
       match user with
       | Some u =>
           matches <- compare (password b) (User.password u) ;;
           if matches
           then (token <- generateToken (User._id u) ;;
                 ret (respond_ok (session u (JStr token))))
           else ret bad_credentials
       | None => ret bad_credentials
       end)
  catch (fun _ => ret (respond 500 (message "Erreur Serveur"))).

(** [req.headers.authorization.split(' ')[1]]: a TypeError without the
    header; [undefined] without a second piece. *)
Definition echoed_token (req : Req) : M (option string) :=
  match authorization req with
  | Some header => ret (nth_error (Js.split_space header) 1)
  | None => throw (TypeError "Cannot read properties of undefined (reading 'split')")
  end.

(** The body of the profile's answer; a [token] that is [undefined]
    drops out of the JSON. *)
Definition profile (u : User.doc) (token : option string) : json :=
  match token with
  | Some t => session u (JStr t)
  | None => JObj [("_id", JStr (oid_toString (User._id u)));
                  ("name", JStr (User.name u));
                  ("email", JStr (User.email u))]
  end.

(** [PUT /api/users/profile]; [salt] as in [register]. *)
Definition updateUserProfile (salt : string) (b : Body) (req : Req) : M Response :=
  try (uid <- req_user_id req ;;
       found <- User_findById_doc uid ;;
       match found with
       | Some user =>
           let renamed :=
             User.mk (User._id user)
               (Js.or_str (name b) (User.name user))
               (Js.or_str (email b) (User.email user))
               (if Js.truthy_str (password b)
                then bcrypt_hash (Js.or_str (password b) "") salt
                else User.password user) in
           updatedUser <- User_save renamed ;;
           token <- echoed_token req ;;
           ret (respond_ok (profile updatedUser token))
       | None => ret (respond 404 (message "Utilisateur non trouvé"))
       end)
  catch (fun _ => ret (respond 500 (message "Erreur serveur"))).

End Capabilities.

End account.

(** ** services/axiosClient.js: the client's request interceptor *)

Module axiosClient.

(** [api.interceptors.request.use]: with a token in [localStorage] the
    request carries [Authorization: Bearer <token>]; without one the
    headers stay as they were. *)
Definition request_interceptor (token : option string) (authorization : option string)
    : option string :=
  if Js.truthy_str token
  then Some ("Bearer " ++ Js.or_str token "")
  else authorization.

End axiosClient.

(** * Vocabulary of the further properties *)

(** The request presents [token] as its bearer token: the second piece of
    an Authorization header that starts with [Bearer]. *)
Definition presents (req : Req) (token : string) : Prop :=
  exists header,
    authorization req = Some header
    /\ Js.startsWith "Bearer" header = true
    /\ nth_error (Js.split_space header) 1 = Some token
    /\ token <> "".

(** [req.user] as [protect] sets it for a verified id. *)
Definition identity (w : World) (id : ObjectId) : option User.safe :=
  option_map User.select_without_password
    (List.find (fun u => User._id u =? id) (users w)).

Fixpoint has_space (s : string) : bool :=
  match s with
  | EmptyString => false
  | String c r => Ascii.eqb c " "%char || has_space r
  end.

(** ObjectIds are 12 bytes. *)
Definition oid_bound : N := 16 ^ 24.

(** Every stored [_id] was drawn from the generator before. *)
Definition ids_drawn (w : World) : Prop :=
  Forall (fun g => FavoriteDoc._id g < oid_counter w) (favorites w).

(** The favorites a computation leaves are those it found or satisfy [P]. *)
Definition admits (P : FavoriteDoc.doc -> Prop) {A} (m : M A) : Prop :=
  forall w f, In f (favorites (snd (m w))) -> In f (favorites w) \/ P f.

(** A document that passed the schema, built by [new Favorite] the way
    the handlers call it: no [originalPrice], source [dupe_finder]. *)
Definition made (f : FavoriteDoc.doc) : Prop :=
  exists d now,
    Favorite.validate d now = Some f
    /\ FavoriteDoc.d_originalPrice d = None
    /\ FavoriteDoc.d_source d = FavoriteDoc.dupe_finder.

(** The schema's constraints on a stored favorite. *)
Definition schema_ok (f : FavoriteDoc.doc) : Prop :=
  FavoriteDoc.productId f <> ""
  /\ FavoriteDoc.productName f <> ""
  /\ FavoriteDoc.brandName f <> ""
  /\ (0 <= FavoriteDoc.price f)%Q
  /\ (0 <= FavoriteDoc.similarity f)%Q
  /\ (FavoriteDoc.similarity f <= 1)%Q.

(** A draft as [new Favorite] would leave it for a product with both
    prices set. *)
Definition priced_draft (p o : Q) : FavoriteDoc.draft :=
  FavoriteDoc.mkDraft 9 1 (Some "p-oil") (Some "Oil") (Some "Acme") (Some p) (Some o)
    "" 0 "Skincare" "unknown" FavoriteDoc.manual 700 "".


(** [x || d] on a property of an engine reply. *)
Definition or_json (x : option json) (d : json) : json :=
  match x with
  | Some v => if Js.truthy x then v else d
  | None => d
  end.

(** Whether the product [p] of a result list is among the favorites of
    [uid]: its [product_id] is a string and the product id of one of them. *)
Definition is_favorite_of (uid : ObjectId) (w : World) (p : json) : bool :=
  match Js.get "product_id" p with
  | Some (JStr s) =>
      existsb (fun g => Favorite.by_user uid g && String.eqb s (FavoriteDoc.productId g))
        (favorites w)
  | _ => false
  end.

(** The body of a successful duplicate search. *)
Definition dupes_found (count data : json) : json :=
  JObj [("success", JBool true); ("count", count); ("data", data)].

(** The message [findDupes] throws for a rejected call. *)
Definition dupes_failure (error : Engine.AxiosError) : string :=
  if nlpService.opt_eqb (Engine.code error) "ECONNREFUSED"
  then "Le service d'analyse IA n'est pas disponible. Vérifiez que le serveur Python est en cours d'exécution."
  else if match Engine.response_status error with Some s => s =? 503 | None => false end
  then "Le service d'analyse est en cours de chargement, veuillez réessayer dans quelques instants."
  else "Erreur d'analyse: " ++ Js.or_str (Engine.response_detail error) (Engine.message error).


(** No stored account has this email. *)
Definition email_free (w : World) (e : string) : Prop :=
  forall u, In u (users w) -> User.email u <> e.

(** The stored account with this id, as [findById] finds it. *)
Definition account_of (w : World) (id : ObjectId) : option User.doc :=
  List.find (fun u => User._id u =? id) (users w).

(** The same request with another Authorization header. *)
Definition with_header (a : option string) (h : server.HttpRequest) : server.HttpRequest :=
  server.mkHttp (server.method h) (server.path h) a (server.json_body h) (server.file_part h).

(** The same world with other stored favorites and accounts. *)
Definition with_store (fs : list FavoriteDoc.doc) (us : list User.doc) (w : World) : World :=
  with_favorites fs (userController.with_users us w).

(** The request is for the analysis router. *)
Definition for_analysis (h : server.HttpRequest) : bool :=
  match server.strip_prefix ["api"; "analysis"] (server.path h) with
  | Some _ => true
  | None => false
  end.

(** [m'] at a world with another store does what [m] does: the same
    result, the same effects on everything but the store, and the other
    store left as it was. *)
Definition blind {A : Type} (m m' : M A) : Prop :=
  forall fs us w,
    m' (with_store fs us w) = (fst (m w), with_store fs us (snd (m w))).

(** ** Further sample data *)

Module fixtures.

(** A request on which some middleware would have set [req.userId]. *)
Definition with_userId (uid : ObjectId) (b : Http.Body) : Req :=
  mkReq None b None None None None (Some uid).

Definition serum_hit : json :=
  JObj [("product_id", JStr "p-serum"); ("product_name", JStr "Serum")].

Definition other_hit : json :=
  JObj [("product_id", JStr "p-other"); ("product_name", JStr "Other")].

Definition reply (items : list json) : list (string * json) :=
  [("count", JNum (2 # 1)); ("results", JArr items)].

(** Stand-ins for bcrypt and jsonwebtoken. *)
Definition hash (password salt : string) : string := salt ++ "$" ++ password.

Definition compare (password hash : string) : bool :=
  String.eqb hash ("salt$" ++ password).

Definition sign (id : ObjectId) (now : N) : string := "jwt." ++ oid_toString id.

Definition verify (token : string) : option ObjectId :=
  if String.eqb token (sign 100 1000) then Some 100%N else sample.verify token.

(** Alice and Bob, and a verifier that knows the token of the next account. *)
Definition world : World :=
  mkWorld [] [sample.alice; sample.bob] 1000 [] 100 verify sample.engine_up [].

Definition dana : account.Body :=
  account.mkBody (Some "Dana") (Some "dana@example.org") (Some "s3cret").

End fixtures.


(** * Vocabulary of the properties *)

(** A computation that leaves the world as it found it. *)
Definition reads_only {A} (m : M A) : Prop := forall w, snd (m w) = w.

(** The payload [getDupes] has [findDupes] post for body [b]. *)
Definition dupes_payload (b : Body) (ingr : string) : Engine.DupesPayload :=
  {| Engine.dp_ingredients := ingr;
     Engine.dp_brand_name := brand b;
     Engine.dp_target_product_type := type b;
     Engine.dp_price := Js.or_num (price b) 100;
     Engine.dp_category := match category b with Some c => c | None => "All" end |}.

(** [{ _id: oid }] and its complement. *)
Definition has_id (oid : ObjectId) (f : FavoriteDoc.doc) : bool := FavoriteDoc._id f =? oid.

Definition without_id (oid : ObjectId) (fs : list FavoriteDoc.doc) : list FavoriteDoc.doc :=
  List.filter (fun g => negb (FavoriteDoc._id g =? oid)) fs.

(** The favorites whose identifier, as the API shows it, is [id]. *)
Definition named (id : string) (fs : list FavoriteDoc.doc) : list FavoriteDoc.doc :=
  List.filter (fun f => String.eqb (oid_toString (FavoriteDoc._id f)) id) fs.

(** The product key [addFavorite] stores: the supplied [product_id], or a
    fresh ObjectId in text. *)
Definition product_key (b : Body) (fresh : ObjectId) : string :=
  if Js.truthy_str (product_id b) then Js.or_str (product_id b) "" else oid_toString fresh.

(** The payloads that pass the schema once [addFavorite] has filled in its
    defaults. *)
Definition acceptable (b : Body) : bool :=
  negb (String.eqb (Js.trim (Js.or_str (product_name b) "Nom inconnu")) "")
  && negb (String.eqb (Js.trim (Js.or_str (brand_name b) "Marque inconnue")) "")
  && Favorite.min0 (Js.or_num (price b) 0)
  && Favorite.min0 (Js.or_num (similarity b) 0)
  && Qle_bool (Js.or_num (similarity b) 0) 1.

(** The document [addFavorite] stores for owner [uid] and payload [b],
    under key [pid], with identifier [oid], constructed at time [added]
    and saved at time [saved]. *)
Definition stored_favorite (uid : ObjectId) (b : Body) (pid : string) (oid : ObjectId)
    (added saved : N) : FavoriteDoc.doc :=
  {| FavoriteDoc._id := oid;
     FavoriteDoc.userId := uid;
     FavoriteDoc.productId := pid;
     FavoriteDoc.productName := Js.trim (Js.or_str (product_name b) "Nom inconnu");
     FavoriteDoc.brandName := Js.trim (Js.or_str (brand_name b) "Marque inconnue");
     FavoriteDoc.price := Js.or_num (price b) 0;
     FavoriteDoc.originalPrice := None;
     FavoriteDoc.ingredients := Js.or_str (ingredients b) "";
     FavoriteDoc.similarity := Js.or_num (similarity b) 0;
     FavoriteDoc.category := Js.or_str (category b) "Skincare";
     FavoriteDoc.productType := "unknown";
     FavoriteDoc.source := FavoriteDoc.dupe_finder;
     FavoriteDoc.addedAt := added;
     FavoriteDoc.notes := "";
     FavoriteDoc.createdAt := saved;
     FavoriteDoc.updatedAt := saved |}.

(** The world after one ObjectId has been drawn. *)
Definition bump (w : World) : World := with_oid_counter (oid_counter w + 1) w.

(** The world after the insert step has drawn its identifiers and read
    the clock twice, in [new Favorite(...)] and in [save()]. *)
Definition after_ids (b : Body) (w : World) : World :=
  tick (tick (bump (if Js.truthy_str (product_id b) then w else bump w))).

(** The document the insert step builds in world [w]: [addedAt] is the
    first reading of the clock, [createdAt] the second. *)
Definition candidate (uid : ObjectId) (b : Body) (w : World) : FavoriteDoc.doc :=
  stored_favorite uid b (product_key b (oid_counter w))
    (if Js.truthy_str (product_id b) then oid_counter w else oid_counter w + 1)
    (clock w) (clock (tick w)).

(** The two answers by which [addFavorite] says the product is already a
    favorite: the pre-check's and the unique index's. *)
Definition already_exists (r : Response) : Prop :=
  r = favoriteController.already_favorite \/ r = favoriteController.duplicate_key.

(** Steps a request still has to take. *)
Definition remaining (t : race.InFlight) : nat :=
  match t with
  | race.Pending _ => 2
  | race.Looked _ => 1
  | race.Finished _ => 0
  end.

(** The request has not been answered yet. *)
Definition open (req : Req) (t : race.InFlight) : Prop :=
  t = race.Pending req \/ t = race.Looked req.

(** Racing adds for owner [uid] and key [k], over an initial collection
    [fs0]. *)
Definition keyed (uid : ObjectId) (k : string) (f : FavoriteDoc.doc) : Prop :=
  FavoriteDoc.userId f = uid /\ FavoriteDoc.productId f = k.

(** One side has stored [f]; the other is still running or has been told
    the product exists. *)
Definition won (uid : ObjectId) (k : string) (fs0 : list FavoriteDoc.doc)
    (req : Req) (winner loser : race.InFlight) (w : World) : Prop :=
  exists f,
    favorites w = (fs0 ++ [f])%list /\ keyed uid k f
    /\ winner = race.Finished (respond 201 (FavoriteDoc.toJSON f))
    /\ (open req loser \/ exists r, loser = race.Finished r /\ already_exists r).

(** Nothing stored yet and both sides running, or one side has won. *)
Definition race_invariant (uid : ObjectId) (k : string) (fs0 : list FavoriteDoc.doc)
    (reqA reqB : Req) (a b : race.InFlight) (w : World) : Prop :=
  (favorites w = fs0 /\ open reqA a /\ open reqB b)
  \/ won uid k fs0 reqB a b w
  \/ won uid k fs0 reqA b a w.

(** The ways one request changes the collection. *)
Inductive store_step (fs : list FavoriteDoc.doc) : list FavoriteDoc.doc -> Prop :=
| store_same : store_step fs fs
| store_filter : forall p, store_step fs (List.filter p fs)
| store_remove_first : forall p, store_step fs (Favorite.remove_first p fs)
| store_insert : forall f,
    existsb (Favorite.same_key f) fs = false -> store_step fs (fs ++ [f]).

Definition tame {A} (m : M A) : Prop :=
  forall w, store_step (favorites w) (favorites (snd (m w))).

Definition keeps_store {A} (m : M A) : Prop :=
  forall w, favorites (snd (m w)) = favorites w.

(** Descending order on a timestamp. *)
Definition newest_first (key : FavoriteDoc.doc -> N) (a b : FavoriteDoc.doc) : Prop :=
  key b <= key a.

(** The two stamps order the documents alike: none was saved no later
    than another and constructed after it. *)
Definition saved_in_order (fs : list FavoriteDoc.doc) : bool :=
  forallb (fun f =>
             forallb (fun g =>
                        implb (FavoriteDoc.createdAt g <=? FavoriteDoc.createdAt f)
                              (FavoriteDoc.addedAt g <=? FavoriteDoc.addedAt f))
               fs)
    fs.

(** * Properties *)

(** ** The favorites routes of the analysis router *)

(** No middleware of the analysis router touches [req.userId]. *)
Lemma incoming_has_no_userId : forall h, userId (server.incoming h) = None.
Proof. reflexivity. Qed.

(** C10: whatever credential, body or upload comes with it, a request to
    [POST /api/analysis/favorites], [GET /api/analysis/favorites] or
    [DELETE /api/analysis/favorites/:productId] is answered 401 and leaves
    the world (the store included) as it was. *)
Theorem analysis_favorites_always_401 :
  forall (auth : option string) (b : Body) (part : option File)
         (productId : string) (w : World),
    server.app (server.mkHttp server.POST ["api"; "analysis"; "favorites"] auth b part) w
      = (respond 401 (analysisController.message "Connectez-vous"), w)
    /\ server.app (server.mkHttp server.GET ["api"; "analysis"; "favorites"] auth b part) w
      = (respond 401 (analysisController.message "Connectez-vous"), w)
    /\ server.app (server.mkHttp server.DELETE ["api"; "analysis"; "favorites"; productId]
                     auth b part) w
      = (respond 401 (analysisController.message "Non autorisé"), w).
Proof. intros; repeat split; reflexivity. Qed.

(** ** The size limit of the image scan *)

Lemma post_outbox : forall c w r w',
    nlpService.post c w = (r, w') ->
    w' = with_outbox (outbox w ++ [c]) w /\ exists x, r = Ok x.
Proof.
  unfold nlpService.post, axios; intros c w r w' H.
  destruct (engine w c); inversion H; subst; eauto.
Qed.

Lemma nlp_scanImage_outbox : forall buf fn on w r w',
    nlpService.scanImage buf fn on w = (r, w') ->
    w' = with_outbox
           (outbox w ++ [Engine.PostScanImage buf (Js.or_str fn (Js.or_str on "image.jpg"))
                           "image/jpeg"]) w.
Proof.
  unfold nlpService.scanImage, bind; intros buf fn on w r w' H.
  destruct (nlpService.post _ w) as [r0 w0] eqn:E.
  apply post_outbox in E as [-> [x ->]].
  destruct (nlpService.read_reply "scan_summary" x) as [data | error]; cbn in H.
  - inversion H; reflexivity.
  - destruct (Js.truthy_str _); [|destruct (nlpService.opt_eqb _ _)];
      inversion H; reflexivity.
Qed.

(** C9: a file larger than 10 MiB is refused and nothing is sent to the
    engine, both by the controller (400, "trop volumineuse") and, in front
    of it, by multer on the route (LIMIT_FILE_SIZE); a file of at most
    10 MiB is sent to the engine, whole, in exactly one call. *)
Theorem scanImage_size_limit :
  forall (req : Req) (f : File) (w : World),
    (file req = Some f ->
     analysisController.max_image_size < size f ->
     analysisController.scanImage req w
       = (Ok analysisController.image_too_large, w)
     /\ status analysisController.image_too_large = 400)
    /\ (multipart req = Some f ->
        analysisController.max_image_size < size f ->
        server.upload_single analysisController.scanImage req w
          = (Throw (MulterError "LIMIT_FILE_SIZE" "File too large"), w))
    /\ (file req = Some f ->
        size f <= analysisController.max_image_size ->
        exists response,
          analysisController.scanImage req w
            = (Ok response,
               with_outbox
                 (outbox w ++
                  [Engine.PostScanImage (buffer f)
                     (Js.or_str (filename f) (Js.or_str (Some (originalname f)) "image.jpg"))
                     "image/jpeg"]) w))
    /\ (multipart req = Some f ->
        size f <= analysisController.max_image_size ->
        exists response,
          server.upload_single analysisController.scanImage req w
            = (Ok response,
               with_outbox
                 (outbox w ++
                  [Engine.PostScanImage (buffer f) (Js.or_str (Some (originalname f)) "image.jpg")
                     "image/jpeg"]) w)).
Proof.
  intros req f w.
  assert (Hctl : forall req' g,
             file req' = Some g ->
             size g <= analysisController.max_image_size ->
             exists response,
               analysisController.scanImage req' w
               = (Ok response,
                  with_outbox
                    (outbox w ++
                     [Engine.PostScanImage (buffer g)
                        (Js.or_str (filename g) (Js.or_str (Some (originalname g)) "image.jpg"))
                        "image/jpeg"]) w)).
  { intros req' g Hf Hle.
    unfold analysisController.scanImage, try_catch, bind. rewrite Hf.
    apply N.ltb_ge in Hle. rewrite Hle.
    destruct (nlpService.scanImage _ _ _ w) as [r w'] eqn:E.
    pose proof (nlp_scanImage_outbox _ _ _ _ _ _ E) as ->.
    destruct r; cbn; eexists; reflexivity. }
  split; [|split; [|split]].
  - intros Hf Hgt. unfold analysisController.scanImage, try_catch. rewrite Hf.
    apply N.ltb_lt in Hgt. rewrite Hgt. split; reflexivity.
  - intros Hf Hgt. unfold server.upload_single. rewrite Hf.
    unfold server.fileSize_limit. apply N.ltb_lt in Hgt.
    unfold analysisController.max_image_size in Hgt. rewrite Hgt. reflexivity.
  - intros Hf Hle. now apply Hctl.
  - intros Hf Hle. unfold server.upload_single. rewrite Hf.
    unfold server.fileSize_limit.
    pose proof Hle as Hle'. apply N.ltb_ge in Hle'.
    unfold analysisController.max_image_size in Hle'. rewrite Hle'.
    destruct (Hctl (with_file (Some (mkFile (originalname f) None (buffer f) (size f))) req)
                (mkFile (originalname f) None (buffer f) (size f)) eq_refl Hle)
      as [response Hr].
    exists response. exact Hr.
Qed.

(** ** Computations that only read the world *)

Lemma reads_only_ret : forall A (a : A), reads_only (ret a).
Proof. now intros A a w. Qed.

Lemma reads_only_throw : forall A e, reads_only (@throw A e).
Proof. now intros A e w. Qed.

Lemma reads_only_bind : forall A B (m : M A) (k : A -> M B),
    reads_only m -> (forall a, reads_only (k a)) -> reads_only (bind m k).
Proof.
  intros A B m k Hm Hk w. unfold bind.
  specialize (Hm w). destruct (m w) as [[a | e] w']; cbn in Hm; subst; [apply Hk | reflexivity].
Qed.

Lemma reads_only_try : forall A (m : M A) h,
    reads_only m -> (forall e, reads_only (h e)) -> reads_only (try_catch m h).
Proof.
  intros A m h Hm Hh w. unfold try_catch.
  specialize (Hm w). destruct (m w) as [[a | e] w']; cbn in Hm; subst; [reflexivity | apply Hh].
Qed.

Lemma reads_only_prop : forall k o, reads_only (analysisController.prop k o).
Proof. intros k []; cbn; auto using reads_only_ret, reads_only_throw. Qed.

Lemma reads_only_find : forall p, reads_only (Favorite.find p).
Proof. now intros p w. Qed.

Lemma reads_only_findOne : forall p, reads_only (Favorite.findOne p).
Proof. now intros p w. Qed.

Lemma reads_only_map_annotate : forall ids items,
    reads_only (analysisController.map_annotate ids items).
Proof.
  induction items as [| p r IH]; cbn.
  - apply reads_only_ret.
  - apply reads_only_bind.
    + unfold analysisController.annotate. apply reads_only_bind.
      * apply reads_only_prop.
      * intros; apply reads_only_ret.
    + intros; apply reads_only_bind; [exact IH | intros; apply reads_only_ret].
Qed.

Lemma reads_only_mark_favorites : forall req results,
    reads_only (analysisController.mark_favorites req results).
Proof.
  intros req results. unfold analysisController.mark_favorites.
  destruct (userId req); [| apply reads_only_ret].
  apply reads_only_bind; [apply reads_only_prop |].
  intros found. destruct (negb _); [apply reads_only_ret |].
  apply reads_only_try; [| intros; apply reads_only_ret].
  apply reads_only_bind; [apply reads_only_find |].
  intros favs. destruct found as [[]|]; try apply reads_only_throw.
  apply reads_only_bind; [apply reads_only_map_annotate | intros; apply reads_only_ret].
Qed.

(** ** Validation of the duplicate search *)

Lemma nlp_findDupes_outbox : forall ingr br ty pr cat w r w',
    nlpService.findDupes ingr br ty pr cat w = (r, w') ->
    w' = with_outbox
           (outbox w ++
            [Engine.PostFindDupes
               {| Engine.dp_ingredients := ingr;
                  Engine.dp_brand_name := br;
                  Engine.dp_target_product_type := ty;
                  Engine.dp_price := Js.or_num pr 100;
                  Engine.dp_category := match cat with Some c => c | None => "All" end |}]) w.
Proof.
  unfold nlpService.findDupes, bind; intros ingr br ty pr cat w r w' H.
  destruct (nlpService.post _ w) as [r0 w0] eqn:E.
  apply post_outbox in E as [-> [x ->]].
  destruct (nlpService.read_reply "count" x) as [data | error]; cbn in H.
  - inversion H; reflexivity.
  - destruct (nlpService.opt_eqb _ _); [| destruct (match Engine.response_status error with
                                                    | Some s => s =? 503 | None => false end)];
      inversion H; reflexivity.
Qed.

(** The claim of C8 fails on padded text: ["abc  "] has five characters,
    yet it is rejected with 400 and the engine is not called. *)
Lemma getDupes_rejects_five_padded_characters :
  Js.length "abc  " = 5
  /\ analysisController.getDupes (sample.anonymous (sample.with_ingredients "abc  "))
       (sample.world sample.engine_up)
     = (Ok analysisController.ingredients_required, sample.world sample.engine_up).
Proof. split; reflexivity. Qed.

(** C8, amended: [getDupes] answers 400 without calling the engine exactly
    when the ingredients text is missing or has fewer than 5 characters
    once leading and trailing white space is trimmed; otherwise it sends
    the untrimmed text to the engine in one call and answers 200 or 500. *)
Theorem getDupes_validation :
  forall (req : Req) (w : World),
    ((ingredients (body req) = None
      \/ exists ingr, ingredients (body req) = Some ingr /\ Js.length (Js.trim ingr) < 5) ->
     analysisController.getDupes req w = (Ok analysisController.ingredients_required, w))
    /\ (forall ingr,
           ingredients (body req) = Some ingr ->
           5 <= Js.length (Js.trim ingr) ->
           exists response,
             analysisController.getDupes req w
               = (Ok response,
                  with_outbox (outbox w ++ [Engine.PostFindDupes (dupes_payload (body req) ingr)]) w)
             /\ (status response = 200 \/ status response = 500)).
Proof.
  intros req w. split.
  - intros [Hnone | [ingr [Hsome Hshort]]];
      unfold analysisController.getDupes, try_catch; [rewrite Hnone | rewrite Hsome].
    + reflexivity.
    + apply N.ltb_lt in Hshort. rewrite Hshort, orb_true_r. reflexivity.
  - intros ingr Hsome Hlong.
    unfold analysisController.getDupes, try_catch. rewrite Hsome.
    assert (Hne : String.eqb ingr "" = false).
    { destruct ingr; [| reflexivity]. cbn in Hlong. lia. }
    apply N.ltb_ge in Hlong. rewrite Hne, Hlong. cbn [orb].
    unfold bind at 1.
    destruct (nlpService.findDupes _ _ _ _ _ w) as [r w1] eqn:E.
    pose proof (nlp_findDupes_outbox _ _ _ _ _ _ _ _ E) as Hw1.
    fold (dupes_payload (body req) ingr) in Hw1. rewrite <- Hw1.
    destruct r as [fetched | e]; [| eexists; split; [reflexivity | now right]].
    unfold bind at 1.
    pose proof (reads_only_mark_favorites req fetched w1) as Hm.
    destruct (analysisController.mark_favorites req fetched w1) as [[results | e] w2];
      cbn in Hm; subst w2; [| eexists; split; [reflexivity | now right]].
    unfold bind at 1.
    pose proof (reads_only_prop "count" results w1) as Hc.
    destruct (analysisController.prop "count" results w1) as [[count | e] w2];
      cbn in Hc; subst w2; [| eexists; split; [reflexivity | now right]].
    unfold bind at 1.
    pose proof (reads_only_prop "results" results w1) as Hd.
    destruct (analysisController.prop "results" results w1) as [[data | e] w2];
      cbn in Hd; subst w2; [| eexists; split; [reflexivity | now right]].
    eexists; split; [reflexivity | now left].
Qed.

Lemma getDupes_validation_witness :
  analysisController.getDupes (sample.anonymous (sample.with_ingredients "abcd"))
    (sample.world sample.engine_up)
  = (Ok analysisController.ingredients_required, sample.world sample.engine_up)
  /\ exists response,
      analysisController.getDupes (sample.anonymous (sample.with_ingredients "abcde"))
        (sample.world sample.engine_up)
      = (Ok response,
         with_outbox
           [Engine.PostFindDupes (dupes_payload (sample.with_ingredients "abcde") "abcde")]
           (sample.world sample.engine_up))
      /\ (status response = 200 \/ status response = 500).
Proof.
  split.
  - apply (proj1 (getDupes_validation _ _)).
    right; exists "abcd"; split; reflexivity.
  - apply (proj2 (getDupes_validation
                    (sample.anonymous (sample.with_ingredients "abcde"))
                    (sample.world sample.engine_up)) "abcde");
      [reflexivity | vm_compute; discriminate].
Defined.

(** ** Degraded sentiment *)

(** The claim of C7 fails on the reply's content: with the engine down,
    ["great product"] for skin type ["oily"] is answered 200 with sentiment
    ["Indisponible"] and an [error] field, not
    [{sentiment: "unavailable", confidence: 0}]. *)
Lemma degraded_sentiment_is_not_unavailable :
  exists data w',
    analysisController.getSentiment
      (sample.anonymous (sample.with_text "great product" "oily"))
      (sample.world sample.engine_down)
    = (Ok (respond 200 (JObj [("success", JBool true); ("data", data)])), w')
    /\ Js.get "sentiment" data = Some (JStr "Indisponible")
    /\ Js.get "error" data = Some (JStr "connect ECONNREFUSED 127.0.0.1:8000")
    /\ data <> JObj [("sentiment", JStr "unavailable"); ("confidence", JNum 0)].
Proof.
  eexists; eexists. split; [reflexivity |].
  split; [reflexivity |]. split; [reflexivity | discriminate].
Qed.

(** C7, amended: for a request with a non-empty text, when the engine
    rejects the review call, [getSentiment] answers 200 with
    [{success: true, data: {sentiment: "Indisponible", confidence: 0,
    error: <the transport error's message>}}]; the one call made is the
    review call. *)
Theorem getSentiment_degraded :
  forall (req : Req) (w : World) (t : string) (error : Engine.AxiosError),
    text (body req) = Some t ->
    t <> "" ->
    engine w (Engine.PostReview t (match skinType (body req) with
                                   | Some s => s
                                   | None => "All"
                                   end)) = Engine.Rejected error ->
    analysisController.getSentiment req w
    = (Ok (respond 200 (JObj [("success", JBool true); ("data", nlpService.degraded error)])),
       with_outbox
         (outbox w ++ [Engine.PostReview t (match skinType (body req) with
                                            | Some s => s
                                            | None => "All"
                                            end)]) w).
Proof.
  intros req w t error Ht Hne Hdown.
  unfold analysisController.getSentiment, try_catch, bind.
  rewrite Ht. cbn [Js.truthy_str Js.or_str].
  apply String.eqb_neq in Hne. rewrite Hne. cbn [negb].
  unfold nlpService.analyzeReview, bind, nlpService.post, axios.
  rewrite Hdown. reflexivity.
Qed.

Lemma getSentiment_degraded_witness :
  analysisController.getSentiment
    (sample.anonymous (sample.with_text "great product" "oily"))
    (sample.world sample.engine_down)
  = (Ok (respond 200 (JObj [("success", JBool true); ("data", nlpService.degraded sample.refused)])),
     with_outbox [Engine.PostReview "great product" "oily"] (sample.world sample.engine_down)).
Proof.
  apply (getSentiment_degraded
           (sample.anonymous (sample.with_text "great product" "oily"))
           (sample.world sample.engine_down) "great product" sample.refused);
    [reflexivity | discriminate | reflexivity].
Defined.

(** ** Removing a favorite *)

(** What [deleteFavorite] does, by the outcome of the lookup. *)
Lemma deleteFavorite_cases :
  forall req w id oid,
    param req = Some id ->
    Favorite.castObjectId id = Some oid ->
    favoriteController.deleteFavorite req w
    = match List.find (has_id oid) (favorites w) with
      | None => (Ok favoriteController.favorite_not_found, w)
      | Some f =>
          match user req with
          | None => (Ok (respond 500 (favoriteController.msg "Erreur serveur")), w)
          | Some u =>
              if FavoriteDoc.userId f =? User.id u
              then (Ok favoriteController.favorite_removed,
                    with_favorites (without_id (FavoriteDoc._id f) (favorites w)) w)
              else (Ok favoriteController.not_the_owner, w)
          end
      end.
Proof.
  intros req w id oid Hp Hc.
  unfold favoriteController.deleteFavorite, try_catch, bind, Favorite.findById.
  rewrite Hp, Hc. unfold Favorite.findOne. fold (has_id oid).
  destruct (List.find (has_id oid) (favorites w)) as [f |]; [| reflexivity].
  unfold req_user_id. destruct (user req) as [u |]; [| reflexivity].
  cbn. destruct (FavoriteDoc.userId f =? User.id u); reflexivity.
Qed.

Lemma find_has_id : forall oid fs f,
    List.find (has_id oid) fs = Some f -> FavoriteDoc._id f = oid.
Proof.
  intros oid fs f H. apply find_some in H as [_ H]. now apply N.eqb_eq in H.
Qed.

Lemma find_without_id : forall oid fs, List.find (has_id oid) (without_id oid fs) = None.
Proof.
  intros oid fs. induction fs as [| g r IH]; cbn; [reflexivity |].
  destruct (FavoriteDoc._id g =? oid) eqn:E; cbn; [exact IH |].
  unfold has_id at 1. rewrite E. exact IH.
Qed.

(** *** Identifiers that are no ObjectId *)

Lemma hex_digits_length : forall n x acc,
    String.length (hex_digits n x acc) = (n + String.length acc)%nat.
Proof.
  induction n as [| n IH]; intros x acc; cbn [hex_digits]; [reflexivity |].
  rewrite IH. cbn. lia.
Qed.

Lemma hex_val_hex_char : forall d, d < 16 -> Favorite.hex_val (hex_char d) = Some d.
Proof.
  intros d H. destruct d as [| p]; [reflexivity |].
  do 4 (destruct p as [p | p |]; try reflexivity); exfalso; lia.
Qed.

Lemma parse_hex_digits : forall n x acc a,
    Favorite.parse_hex (hex_digits n x acc) a
    = Favorite.parse_hex acc (a * 16 ^ N.of_nat n + x mod 16 ^ N.of_nat n).
Proof.
  induction n as [| n IH]; intros x acc a.
  - cbn [hex_digits]. change (N.of_nat 0) with 0. rewrite N.pow_0_r, N.mod_1_r.
    f_equal. lia.
  - cbn [hex_digits]. rewrite IH. cbn [Favorite.parse_hex].
    rewrite hex_val_hex_char by (apply N.mod_upper_bound; lia).
    f_equal. rewrite Nat2N.inj_succ, N.pow_succ_r'.
    rewrite (N.Div0.mod_mul_r x 16 (16 ^ N.of_nat n)). ring.
Qed.

(** The text of any ObjectId is one the cast accepts. *)
Lemma castObjectId_of_text : forall o,
    Favorite.castObjectId (oid_toString o) = Some (o mod oid_bound).
Proof.
  intros o. unfold Favorite.castObjectId, Js.length, oid_toString.
  rewrite hex_digits_length. cbn [String.length Nat.add N.of_nat].
  change (N.of_nat (24 + 0)) with 24. rewrite N.eqb_refl.
  rewrite parse_hex_digits. cbn [Favorite.parse_hex].
  change (N.of_nat 24) with 24. fold oid_bound. f_equal.
Qed.

(** A string the cast refuses is the identifier of no document. *)
Lemma malformed_names_nothing : forall id fs,
    Favorite.castObjectId id = None -> named id fs = [].
Proof.
  intros id fs H. unfold named. induction fs as [| f r IH]; cbn [List.filter]; [reflexivity |].
  destruct (String.eqb (oid_toString (FavoriteDoc._id f)) id) eqn:E; [| exact IH].
  apply String.eqb_eq in E. rewrite <- E, castObjectId_of_text in H. discriminate.
Qed.

(** The claim of C3 fails for an identifier that is no ObjectId: no
    favorite is stored under ["zz"], yet Alice's request to remove it is
    answered 500, not 404, by the handler and through the server alike;
    [findById] throws a CastError, which the handler's [catch] reports
    as a server error. *)
Lemma remove_with_malformed_id_is_500 :
  named "zz" (favorites sample.stocked) = []
  /\ favoriteController.deleteFavorite
       (sample.as_user sample.alice empty_body (Some "zz")) sample.stocked
     = (Ok (respond 500 (favoriteController.msg "Erreur serveur")), sample.stocked)
  /\ server.app (sample.delete_favorite "tok-alice" "zz") sample.stocked
     = (respond 500 (favoriteController.msg "Erreur serveur"), sample.stocked)
  /\ 500 <> 404.
Proof. split; [reflexivity | split; [reflexivity | split; [reflexivity | discriminate]]]. Qed.

(** C3, amended: for a verified caller, removing by an identifier that
    is a well-formed ObjectId answers 404 when no favorite has it and 401
    when the favorite belongs to somebody else; removing by an identifier
    that is no ObjectId, which no favorite can have, answers 500.  In all
    three cases the world, every stored record with it, is left as it
    was. *)
Theorem deleteFavorite_not_found_or_forbidden :
  forall (req : Req) (w : World) (id : string) (u : User.safe),
    param req = Some id ->
    user req = Some u ->
    (Favorite.castObjectId id = None ->
     named id (favorites w) = []
     /\ favoriteController.deleteFavorite req w = (Ok favoriteController.server_error, w)
     /\ status favoriteController.server_error = 500)
    /\ (forall oid,
           Favorite.castObjectId id = Some oid ->
           (List.find (has_id oid) (favorites w) = None ->
            favoriteController.deleteFavorite req w
            = (Ok favoriteController.favorite_not_found, w)
            /\ status favoriteController.favorite_not_found = 404)
           /\ (forall f,
                  List.find (has_id oid) (favorites w) = Some f ->
                  FavoriteDoc.userId f <> User.id u ->
                  favoriteController.deleteFavorite req w
                  = (Ok favoriteController.not_the_owner, w)
                  /\ status favoriteController.not_the_owner = 401
                  /\ In f (favorites w))).
Proof.
  intros req w id u Hp Hu. split.
  - intros Hc. split; [now apply malformed_names_nothing |].
    unfold favoriteController.deleteFavorite, try_catch, bind, Favorite.findById.
    rewrite Hp, Hc. split; reflexivity.
  - intros oid Hc. rewrite (deleteFavorite_cases req w id oid Hp Hc), Hu. split.
    + intros ->. split; reflexivity.
    + intros f Hf Hother. rewrite Hf.
      apply N.eqb_neq in Hother. rewrite Hother.
      split; [reflexivity | split; [reflexivity |]].
      now apply find_some in Hf.
Qed.

Lemma deleteFavorite_not_found_or_forbidden_witness :
  (named "zz" (favorites sample.stocked) = []
   /\ favoriteController.deleteFavorite
        (sample.as_user sample.alice empty_body (Some "zz")) sample.stocked
      = (Ok favoriteController.server_error, sample.stocked)
   /\ status favoriteController.server_error = 500)
  /\ (favoriteController.deleteFavorite
        (sample.as_user sample.alice empty_body (Some "000000000000000000000009"))
        sample.stocked
      = (Ok favoriteController.favorite_not_found, sample.stocked)
      /\ status favoriteController.favorite_not_found = 404)
  /\ (favoriteController.deleteFavorite
        (sample.as_user sample.bob empty_body (Some sample.oid_7)) sample.stocked
      = (Ok favoriteController.not_the_owner, sample.stocked)
      /\ status favoriteController.not_the_owner = 401
      /\ In sample.serum (favorites sample.stocked)).
Proof.
  split; [| split].
  - apply (proj1 (deleteFavorite_not_found_or_forbidden
                    (sample.as_user sample.alice empty_body (Some "zz"))
                    sample.stocked "zz" (User.select_without_password sample.alice)
                    eq_refl eq_refl)).
    reflexivity.
  - apply (proj1 (proj2 (deleteFavorite_not_found_or_forbidden
                           (sample.as_user sample.alice empty_body
                              (Some "000000000000000000000009"))
                           sample.stocked "000000000000000000000009"
                           (User.select_without_password sample.alice)
                           eq_refl eq_refl) 9 eq_refl)).
    reflexivity.
  - apply (proj2 (proj2 (deleteFavorite_not_found_or_forbidden
                           (sample.as_user sample.bob empty_body (Some sample.oid_7))
                           sample.stocked sample.oid_7
                           (User.select_without_password sample.bob)
                           eq_refl eq_refl) 7 eq_refl) sample.serum).
    + reflexivity.
    + discriminate.
Defined.

(** The claim of C4 fails on the second call: once Alice has removed her
    favorite, removing it again is answered 404, not success. *)
Lemma second_remove_is_not_found :
  exists w1,
    favoriteController.deleteFavorite
      (sample.as_user sample.alice empty_body (Some sample.oid_7)) sample.stocked
    = (Ok favoriteController.favorite_removed, w1)
    /\ favoriteController.deleteFavorite
         (sample.as_user sample.alice empty_body (Some sample.oid_7)) w1
       = (Ok favoriteController.favorite_not_found, w1)
    /\ status favoriteController.favorite_not_found = 404.
Proof. eexists. split; [reflexivity | split; reflexivity]. Qed.

(** C4, amended: when the owner removes a favorite the call succeeds and
    every stored record with another identifier stays; removing the same
    favorite again is answered 404 NotFound and changes nothing. *)
Theorem deleteFavorite_twice :
  forall (req : Req) (w : World) (id : string) (oid : ObjectId) (u : User.safe)
         (f : FavoriteDoc.doc),
    param req = Some id ->
    Favorite.castObjectId id = Some oid ->
    user req = Some u ->
    List.find (has_id oid) (favorites w) = Some f ->
    FavoriteDoc.userId f = User.id u ->
    favoriteController.deleteFavorite req w
    = (Ok favoriteController.favorite_removed, with_favorites (without_id oid (favorites w)) w)
    /\ (forall g, In g (favorites w) -> FavoriteDoc._id g <> oid ->
                  In g (without_id oid (favorites w)))
    /\ favoriteController.deleteFavorite req (with_favorites (without_id oid (favorites w)) w)
       = (Ok favoriteController.favorite_not_found, with_favorites (without_id oid (favorites w)) w).
Proof.
  intros req w id oid u f Hp Hc Hu Hf Hown.
  pose proof (find_has_id _ _ _ Hf) as Hid.
  split; [| split].
  - rewrite (deleteFavorite_cases req w id oid Hp Hc), Hf, Hu, Hown, N.eqb_refl, Hid.
    reflexivity.
  - intros g Hg Hne. apply filter_In. split; [exact Hg |].
    apply N.eqb_neq in Hne. now rewrite Hne.
  - rewrite (deleteFavorite_cases req _ id oid Hp Hc). cbn [favorites with_favorites].
    now rewrite find_without_id.
Qed.

Lemma deleteFavorite_twice_witness :
  favoriteController.deleteFavorite
    (sample.as_user sample.alice empty_body (Some sample.oid_7)) sample.stocked
  = (Ok favoriteController.favorite_removed, with_favorites (without_id 7 (favorites sample.stocked)) sample.stocked)
  /\ (forall g, In g (favorites sample.stocked) -> FavoriteDoc._id g <> 7 ->
                In g (without_id 7 (favorites sample.stocked)))
  /\ favoriteController.deleteFavorite
       (sample.as_user sample.alice empty_body (Some sample.oid_7))
       (with_favorites (without_id 7 (favorites sample.stocked)) sample.stocked)
     = (Ok favoriteController.favorite_not_found,
        with_favorites (without_id 7 (favorites sample.stocked)) sample.stocked).
Proof.
  apply (deleteFavorite_twice
           (sample.as_user sample.alice empty_body (Some sample.oid_7))
           sample.stocked sample.oid_7 7
           (User.select_without_password sample.alice) sample.serum);
    reflexivity.
Defined.

(** ** Adding a favorite *)

Lemma oid_toString_not_empty : forall o, String.eqb (oid_toString o) "" = false.
Proof.
  intros o. apply String.eqb_neq. intros H.
  pose proof (hex_digits_length 24 o EmptyString) as L.
  unfold oid_toString in H. rewrite H in L. cbn in L. lia.
Qed.

Lemma product_key_not_empty : forall b fresh, String.eqb (product_key b fresh) "" = false.
Proof.
  intros b fresh. unfold product_key, Js.truthy_str, Js.or_str.
  destruct (product_id b) as [s |]; [| apply oid_toString_not_empty].
  destruct (String.eqb s "") eqn:E; cbn [negb]; [apply oid_toString_not_empty | exact E].
Qed.

(** The pre-check, for a verified caller. *)
Lemma addFavorite_lookup_spec : forall req w u,
    user req = Some u ->
    favoriteController.addFavorite_lookup req w
    = (Ok (List.find (Favorite.by_user_and_name (User.id u) (product_name (body req)))
             (favorites w)), w).
Proof.
  intros req w u Hu. unfold favoriteController.addFavorite_lookup, bind, req_user_id.
  rewrite Hu. reflexivity.
Qed.

(** The insert, for a verified caller and an acceptable payload: E11000
    when the index already holds the key, the stored document otherwise. *)
Lemma addFavorite_insert_spec : forall req w u,
    user req = Some u ->
    acceptable (body req) = true ->
    favoriteController.addFavorite_insert req w
    = if existsb (Favorite.same_key (candidate (User.id u) (body req) w)) (favorites w)
      then (Throw (MongoServerError 11000
                     "E11000 duplicate key error collection: favorites index: userId_1_productId_1"),
            after_ids (body req) w)
      else (Ok (respond 201 (FavoriteDoc.toJSON (candidate (User.id u) (body req) w))),
            with_favorites (favorites w ++ [candidate (User.id u) (body req) w])
              (after_ids (body req) w)).
Proof.
  intros req w u Hu Hok.
  unfold acceptable in Hok.
  apply andb_prop in Hok as [Hok Hsim1]. apply andb_prop in Hok as [Hok Hsim0].
  apply andb_prop in Hok as [Hok Hprice]. apply andb_prop in Hok as [Hname Hbrand].
  apply negb_true_iff in Hname, Hbrand.
  pose proof (product_key_not_empty (body req) (oid_counter w)) as Hkey.
  unfold favoriteController.addFavorite_insert, bind, req_user_id, candidate, after_ids,
    product_key in *.
  rewrite Hu. cbn [ret].
  destruct (Js.truthy_str (product_id (body req))); cbn [ret bind new_ObjectId];
    unfold Favorite.new_Favorite, Favorite.save, bind, new_ObjectId, Date_now, ret, throw;
    cbn [clock with_oid_counter oid_counter favorites FavoriteDoc.i_addedAt];
    unfold Favorite.validate; cbn [FavoriteDoc.d_productId FavoriteDoc.d_productName
      FavoriteDoc.d_brandName FavoriteDoc.d_price FavoriteDoc.d_originalPrice
      FavoriteDoc.d_similarity FavoriteDoc.i_productId FavoriteDoc.i_productName
      FavoriteDoc.i_brandName FavoriteDoc.i_price FavoriteDoc.i_similarity option_map
      Favorite.required_str];
    rewrite Hkey, Hname, Hbrand, Hprice, Hsim0, Hsim1; cbn [andb];
    unfold stored_favorite, bump; cbn;
    match goal with |- context [existsb ?p ?l] => destruct (existsb p l) end;
    reflexivity.
Qed.

Lemma favorites_after_ids : forall b w, favorites (after_ids b w) = favorites w.
Proof. intros b w. unfold after_ids. now destruct (Js.truthy_str _). Qed.

Lemma same_key_candidate : forall uid b w g,
    Favorite.same_key (candidate uid b w) g
    = (uid =? FavoriteDoc.userId g)
      && String.eqb (product_key b (oid_counter w)) (FavoriteDoc.productId g).
Proof. reflexivity. Qed.

Lemma index_holds_key : forall uid b w,
    existsb (Favorite.same_key (candidate uid b w)) (favorites w) = true
    <-> exists g, In g (favorites w)
                  /\ FavoriteDoc.userId g = uid
                  /\ FavoriteDoc.productId g = product_key b (oid_counter w).
Proof.
  intros uid b w. rewrite existsb_exists. split.
  - intros [g [Hin Hk]]. rewrite same_key_candidate in Hk.
    apply andb_prop in Hk as [Hu Hp].
    apply N.eqb_eq in Hu. apply String.eqb_eq in Hp. eauto.
  - intros [g [Hin [Hu Hp]]]. exists g. split; [exact Hin |].
    rewrite same_key_candidate, Hu, Hp, N.eqb_refl, String.eqb_refl. reflexivity.
Qed.

(** The claim of C1 fails on the status: Alice already has "Serum" under
    key [p-serum]; adding it again is answered 400, and so is adding
    another name under the same key, which the unique index rejects. *)
Lemma addFavorite_again_is_400 :
  favoriteController.addFavorite
    (sample.as_user sample.alice (sample.product "Serum" (Some "p-serum")) None) sample.stocked
  = (Ok (respond 400 (favoriteController.msg "Ce produit est déjà dans vos favoris !")),
     sample.stocked)
  /\ fst (favoriteController.addFavorite
            (sample.as_user sample.alice (sample.product "Serum 50ml" (Some "p-serum")) None)
            sample.stocked)
     = Ok (respond 400 (favoriteController.msg "Produit déjà en favoris"))
  /\ 400 <> 200.
Proof. split; [reflexivity | split; [reflexivity | discriminate]]. Qed.

(** C1, amended: for a verified owner, an add whose product name matches
    a stored favorite of that owner is answered 400 with the message that
    the product is already in the favorites, and the world is unchanged;
    an acceptable add that passes the name check but whose (owner, product
    key) is already in the unique index is answered 400 with the same kind
    of message, and the collection is unchanged. *)
Theorem addFavorite_already_exists_is_400 :
  forall (req : Req) (w : World) (u : User.safe),
    user req = Some u ->
    (forall f,
        List.find (Favorite.by_user_and_name (User.id u) (product_name (body req)))
          (favorites w) = Some f ->
        favoriteController.addFavorite req w = (Ok favoriteController.already_favorite, w)
        /\ status favoriteController.already_favorite = 400)
    /\ (List.find (Favorite.by_user_and_name (User.id u) (product_name (body req)))
          (favorites w) = None ->
        acceptable (body req) = true ->
        (exists g, In g (favorites w)
                   /\ FavoriteDoc.userId g = User.id u
                   /\ FavoriteDoc.productId g = product_key (body req) (oid_counter w)) ->
        favoriteController.addFavorite req w = (Ok favoriteController.duplicate_key, after_ids (body req) w)
        /\ status favoriteController.duplicate_key = 400
        /\ favorites (after_ids (body req) w) = favorites w).
Proof.
  intros req w u Hu. split.
  - intros f Hf. unfold favoriteController.addFavorite, try_catch, bind.
    rewrite (addFavorite_lookup_spec req w u Hu), Hf. split; reflexivity.
  - intros Hnone Hok Hdup. apply index_holds_key in Hdup.
    unfold favoriteController.addFavorite, try_catch, bind.
    rewrite (addFavorite_lookup_spec req w u Hu), Hnone.
    rewrite (addFavorite_insert_spec req w u Hu Hok), Hdup.
    split; [reflexivity | split; [reflexivity | apply favorites_after_ids]].
Qed.

Lemma addFavorite_already_exists_is_400_witness :
  (favoriteController.addFavorite
     (sample.as_user sample.alice (sample.product "Serum" (Some "p-serum")) None) sample.stocked
   = (Ok favoriteController.already_favorite, sample.stocked)
   /\ status favoriteController.already_favorite = 400)
  /\ (favoriteController.addFavorite
        (sample.as_user sample.alice (sample.product "Serum 50ml" (Some "p-serum")) None)
        sample.stocked
      = (Ok favoriteController.duplicate_key, after_ids (sample.product "Serum 50ml" (Some "p-serum")) sample.stocked)
      /\ status favoriteController.duplicate_key = 400
      /\ favorites (after_ids (sample.product "Serum 50ml" (Some "p-serum")) sample.stocked)
         = favorites sample.stocked).
Proof.
  split.
  - apply (proj1 (addFavorite_already_exists_is_400
                    (sample.as_user sample.alice (sample.product "Serum" (Some "p-serum")) None)
                    sample.stocked (User.select_without_password sample.alice) eq_refl)
             sample.serum).
    reflexivity.
  - apply (proj2 (addFavorite_already_exists_is_400
                    (sample.as_user sample.alice
                       (sample.product "Serum 50ml" (Some "p-serum")) None)
                    sample.stocked (User.select_without_password sample.alice) eq_refl)).
    + reflexivity.
    + reflexivity.
    + exists sample.serum. split; [now left | split; reflexivity].
Defined.

(** ** Two adds for the same owner and product key *)

Lemma find_app_last : forall (p : FavoriteDoc.doc -> bool) l x,
    List.find p (l ++ [x])
    = match List.find p l with
      | Some y => Some y
      | None => if p x then Some x else None
      end.
Proof.
  intros p l x. induction l as [| y r IH]; cbn; [reflexivity |].
  destruct (p y); [reflexivity | exact IH].
Qed.

Lemma stored_under_nil_not_indexed : forall uid k fs,
    stored_under uid k fs = [] -> ~ In (uid, k) (map index_key fs).
Proof.
  intros uid k fs Hnil Hin. apply in_map_iff in Hin as [g [Hg Hin]].
  assert (In g (stored_under uid k fs)) as H.
  { apply filter_In. split; [exact Hin |].
    unfold index_key in Hg. inversion Hg; subst.
    unfold Favorite.by_user_and_product. now rewrite N.eqb_refl, String.eqb_refl. }
  rewrite Hnil in H. exact H.
Qed.

Lemma I1_insert : forall fs f,
    I1 fs -> ~ In (index_key f) (map index_key fs) -> I1 (fs ++ [f]).
Proof.
  unfold I1. intros fs f Hnd Hnew. rewrite map_app. cbn.
  apply (Permutation_NoDup (l := index_key f :: map index_key fs)).
  - apply Permutation_cons_append.
  - now constructor.
Qed.

Lemma step_progress : forall t w, (remaining (fst (race.step t w)) <= pred (remaining t))%nat.
Proof.
  intros [req | req | r] w; cbn [race.step remaining pred].
  - destruct (favoriteController.addFavorite_lookup req w) as [[[f |] | e] w']; cbn;
      try lia.
    unfold race.settle. destruct (favoriteController.addFavorite_catch e w') as [[] ?];
      cbn; lia.
  - unfold race.settle.
    destruct (favoriteController.addFavorite_insert req w) as [[r | e] w']; cbn; [lia |].
    destruct (favoriteController.addFavorite_catch e w') as [[] ?]; cbn; lia.
  - cbn. lia.
Qed.

Section TwoAdds.

Variables (reqA reqB : Req) (uA uB : User.safe) (k : string) (fs0 : list FavoriteDoc.doc).

Hypothesis verifiedA : user reqA = Some uA.
Hypothesis verifiedB : user reqB = Some uB.
Hypothesis same_owner : User.id uB = User.id uA.
Hypothesis keyA : product_id (body reqA) = Some k.
Hypothesis keyB : product_id (body reqB) = Some k.
Hypothesis key_given : k <> "".
Hypothesis acceptableA : acceptable (body reqA) = true.
Hypothesis acceptableB : acceptable (body reqB) = true.
Hypothesis unique0 : I1 fs0.
Hypothesis absent0 : stored_under (User.id uA) k fs0 = [].
Hypothesis unnamedA :
  List.find (Favorite.by_user_and_name (User.id uA) (product_name (body reqA))) fs0 = None.
Hypothesis unnamedB :
  List.find (Favorite.by_user_and_name (User.id uA) (product_name (body reqB))) fs0 = None.

Local Abbreviation uid := (User.id uA).

Lemma key_truthy : forall req, product_id (body req) = Some k ->
    Js.truthy_str (product_id (body req)) = true
    /\ forall n, product_key (body req) n = k.
Proof.
  intros req Hk. apply String.eqb_neq in key_given.
  unfold product_key, Js.truthy_str, Js.or_str. rewrite Hk, key_given. now split.
Qed.

Lemma step_pending : forall req u w,
    user req = Some u -> User.id u = uid ->
    race.step (race.Pending req) w
    = match List.find (Favorite.by_user_and_name uid (product_name (body req))) (favorites w) with
      | Some _ => (race.Finished favoriteController.already_favorite, w)
      | None => (race.Looked req, w)
      end.
Proof.
  intros req u w Hu Hid. cbn [race.step].
  rewrite (addFavorite_lookup_spec req w u Hu), Hid.
  now destruct (List.find _ _).
Qed.

Lemma step_looked : forall req u w,
    user req = Some u -> User.id u = uid ->
    product_id (body req) = Some k ->
    acceptable (body req) = true ->
    race.step (race.Looked req) w
    = if existsb (Favorite.same_key (candidate uid (body req) w)) (favorites w)
      then (race.Finished favoriteController.duplicate_key, tick (tick (bump w)))
      else (race.Finished (respond 201 (FavoriteDoc.toJSON (candidate uid (body req) w))),
            with_favorites (favorites w ++ [candidate uid (body req) w])
              (tick (tick (bump w)))).
Proof.
  intros req u w Hu Hid Hk Hok. cbn [race.step].
  rewrite (addFavorite_insert_spec req w u Hu Hok), Hid.
  unfold after_ids. rewrite (proj1 (key_truthy req Hk)).
  now destruct (existsb _ _).
Qed.

Lemma candidate_keyed : forall req w,
    product_id (body req) = Some k -> keyed uid k (candidate uid (body req) w).
Proof.
  intros req w Hk. split; [reflexivity |].
  cbn. apply (proj2 (key_truthy req Hk)).
Qed.

Lemma fresh_key_not_indexed : forall req w,
    product_id (body req) = Some k ->
    favorites w = fs0 ->
    existsb (Favorite.same_key (candidate uid (body req) w)) (favorites w) = false.
Proof.
  intros req w Hk Hfs. apply not_true_is_false. intros H.
  apply index_holds_key in H as [g [Hin [Hu Hp]]].
  rewrite (proj2 (key_truthy req Hk)) in Hp. rewrite Hfs in Hin.
  apply (stored_under_nil_not_indexed uid k fs0 absent0).
  apply in_map_iff. exists g. split; [| exact Hin].
  unfold index_key. now rewrite Hu, Hp.
Qed.

Lemma taken_key_indexed : forall req w f,
    product_id (body req) = Some k ->
    favorites w = (fs0 ++ [f])%list -> keyed uid k f ->
    existsb (Favorite.same_key (candidate uid (body req) w)) (favorites w) = true.
Proof.
  intros req w f Hk Hfs [Hu Hp]. apply index_holds_key.
  exists f. rewrite Hfs. split; [apply in_or_app; right; now left |].
  split; [exact Hu |]. now rewrite (proj2 (key_truthy req Hk)).
Qed.

(** A step of the side that has not stored anything, before any insert. *)
Lemma step_before_insert : forall req u t w,
    user req = Some u -> User.id u = uid ->
    product_id (body req) = Some k -> acceptable (body req) = true ->
    List.find (Favorite.by_user_and_name uid (product_name (body req))) fs0 = None ->
    favorites w = fs0 -> open req t ->
    (favorites (snd (race.step t w)) = fs0 /\ open req (fst (race.step t w)))
    \/ exists f, favorites (snd (race.step t w)) = (fs0 ++ [f])%list /\ keyed uid k f
                 /\ fst (race.step t w) = race.Finished (respond 201 (FavoriteDoc.toJSON f)).
Proof.
  intros req u t w Hu Hid Hk Hok Hname Hfs [-> | ->].
  - left. rewrite (step_pending req u w Hu Hid), Hfs, Hname. cbn. split; [exact Hfs | now right].
  - right. rewrite (step_looked req u w Hu Hid Hk Hok), (fresh_key_not_indexed req w Hk Hfs).
    exists (candidate uid (body req) w). cbn. rewrite Hfs.
    split; [reflexivity | split; [now apply candidate_keyed | reflexivity]].
Qed.

(** A step of the losing side once the other has stored [f]. *)
Lemma step_after_insert : forall req u t w f,
    user req = Some u -> User.id u = uid ->
    product_id (body req) = Some k -> acceptable (body req) = true ->
    favorites w = (fs0 ++ [f])%list -> keyed uid k f ->
    (open req t \/ exists r, t = race.Finished r /\ already_exists r) ->
    favorites (snd (race.step t w)) = (fs0 ++ [f])%list
    /\ (open req (fst (race.step t w))
        \/ exists r, fst (race.step t w) = race.Finished r /\ already_exists r).
Proof.
  intros req u t w f Hu Hid Hk Hok Hfs Hf [[-> | ->] | [r [-> Hr]]].
  - rewrite (step_pending req u w Hu Hid).
    destruct (List.find _ (favorites w)); cbn.
    + split; [exact Hfs | right; eexists; split; [reflexivity | now left]].
    + split; [exact Hfs | left; now right].
  - rewrite (step_looked req u w Hu Hid Hk Hok), (taken_key_indexed req w f Hk Hfs Hf).
    cbn. split; [exact Hfs | right; eexists; split; [reflexivity | now right]].
  - cbn. split; [exact Hfs | right; eauto].
Qed.

Lemma step_finished : forall r w, race.step (race.Finished r) w = (race.Finished r, w).
Proof. reflexivity. Qed.

Lemma invariant_step_A : forall a b w,
    race_invariant uid k fs0 reqA reqB a b w ->
    race_invariant uid k fs0 reqA reqB (fst (race.step a w)) b (snd (race.step a w)).
Proof.
  intros a b w [[Hfs [Ha Hb]] | [[f [Hfs [Hf [-> Hb]]]] | [f [Hfs [Hf [-> Ha]]]]]].
  - destruct (step_before_insert reqA uA a w verifiedA eq_refl keyA acceptableA unnamedA Hfs Ha)
      as [[Hfs' Ha'] | [f [Hfs' [Hf Ha']]]].
    + left. auto.
    + right; left. exists f. auto.
  - right; left. rewrite step_finished. exists f. cbn. auto.
  - right; right.
    destruct (step_after_insert reqA uA a w f verifiedA eq_refl keyA acceptableA Hfs Hf Ha)
      as [Hfs' Ha'].
    exists f. auto.
Qed.

Lemma invariant_step_B : forall a b w,
    race_invariant uid k fs0 reqA reqB a b w ->
    race_invariant uid k fs0 reqA reqB a (fst (race.step b w)) (snd (race.step b w)).
Proof.
  intros a b w [[Hfs [Ha Hb]] | [[f [Hfs [Hf [-> Hb]]]] | [f [Hfs [Hf [-> Ha]]]]]].
  - destruct (step_before_insert reqB uB b w verifiedB same_owner keyB acceptableB unnamedB Hfs Hb)
      as [[Hfs' Hb'] | [f [Hfs' [Hf Hb']]]].
    + left. auto.
    + right; right. exists f. auto.
  - right; left.
    destruct (step_after_insert reqB uB b w f verifiedB same_owner keyB acceptableB Hfs Hf Hb)
      as [Hfs' Hb'].
    exists f. auto.
  - right; right. rewrite step_finished. exists f. cbn. auto.
Qed.

Lemma invariant_run : forall schedule a b w,
    race_invariant uid k fs0 reqA reqB a b w ->
    exists a' b' w',
      race.run schedule a b w = (a', b', w')
      /\ race_invariant uid k fs0 reqA reqB a' b' w'
      /\ (remaining a' <= remaining a - race.turns race.A schedule)%nat
      /\ (remaining b' <= remaining b - race.turns race.B schedule)%nat.
Proof.
  induction schedule as [| turn rest IH]; intros a b w Hinv.
  - exists a, b, w. cbn. repeat split; auto; lia.
  - destruct turn; cbn [race.run].
    + pose proof (invariant_step_A a b w Hinv) as Hstep.
      pose proof (step_progress a w) as Hp.
      destruct (race.step a w) as [a1 w1]. cbn [fst snd] in *.
      destruct (IH a1 b w1 Hstep) as [a' [b' [w' [Hrun [Hinv' [Ha Hb]]]]]].
      exists a', b', w'. split; [exact Hrun | split; [exact Hinv' |]].
      unfold race.turns in *. cbn [List.filter List.length]. split; lia.
    + pose proof (invariant_step_B a b w Hinv) as Hstep.
      pose proof (step_progress b w) as Hp.
      destruct (race.step b w) as [b1 w1]. cbn [fst snd] in *.
      destruct (IH a b1 w1 Hstep) as [a' [b' [w' [Hrun [Hinv' [Ha Hb]]]]]].
      exists a', b', w'. split; [exact Hrun | split; [exact Hinv' |]].
      unfold race.turns in *. cbn [List.filter List.length]. split; lia.
Qed.

Lemma keyed_alone : forall f, keyed uid k f -> I1 (fs0 ++ [f]) /\ stored_under uid k (fs0 ++ [f]) = [f].
Proof.
  intros f [Hu Hp]. split.
  - apply I1_insert; [exact unique0 |].
    unfold index_key at 1. rewrite Hu, Hp.
    apply (stored_under_nil_not_indexed uid k fs0 absent0).
  - pose proof absent0 as Habs. unfold stored_under in Habs |- *.
    rewrite filter_app. fold uid in Habs. rewrite Habs. cbn.
    unfold Favorite.by_user_and_product.
    now rewrite Hu, Hp, N.eqb_refl, String.eqb_refl.
Qed.

End TwoAdds.

(** ** How a request can change the collection *)

Lemma keeps_store_tame : forall A (m : M A), keeps_store m -> tame m.
Proof. intros A m H w. rewrite H. constructor. Qed.

Lemma reads_only_keeps : forall A (m : M A), reads_only m -> keeps_store m.
Proof. intros A m H w. now rewrite H. Qed.

Lemma keeps_ret : forall A (a : A), keeps_store (ret a).
Proof. now intros A a w. Qed.

Lemma keeps_throw : forall A e, keeps_store (@throw A e).
Proof. now intros A e w. Qed.

Lemma keeps_bind : forall A B (m : M A) (k : A -> M B),
    keeps_store m -> (forall a, keeps_store (k a)) -> keeps_store (bind m k).
Proof.
  intros A B m k Hm Hk w. unfold bind.
  specialize (Hm w). destruct (m w) as [[a | e] w']; cbn in *; [| exact Hm].
  now rewrite Hk.
Qed.

Lemma keeps_try : forall A (m : M A) h,
    keeps_store m -> (forall e, keeps_store (h e)) -> keeps_store (try_catch m h).
Proof.
  intros A m h Hm Hh w. unfold try_catch.
  specialize (Hm w). destruct (m w) as [[a | e] w']; cbn in *; [exact Hm |].
  now rewrite Hh.
Qed.

Lemma keeps_post : forall c, keeps_store (nlpService.post c).
Proof. intros c w. unfold nlpService.post, axios. now destruct (engine w c). Qed.

Create HintDb keeps.

#[local] Hint Resolve keeps_ret keeps_throw keeps_post reads_only_keeps reads_only_prop
  reads_only_find reads_only_findOne reads_only_mark_favorites : keeps.

Ltac keeps :=
  repeat first
    [ apply keeps_try; [| intros]
    | apply keeps_bind; [| intros]
    | solve [auto with keeps]
    | match goal with
      | |- keeps_store (match ?x with _ => _ end) => destruct x
      | |- keeps_store (if ?b then _ else _) => destruct b
      end ].

Lemma keeps_findDupes : forall i b t p c, keeps_store (nlpService.findDupes i b t p c).
Proof. intros. unfold nlpService.findDupes. keeps. Qed.

Lemma keeps_analyzeReview : forall t s, keeps_store (nlpService.analyzeReview t s).
Proof. intros. unfold nlpService.analyzeReview. keeps. Qed.

Lemma keeps_nlp_scanImage : forall b f o, keeps_store (nlpService.scanImage b f o).
Proof. intros. unfold nlpService.scanImage. keeps. Qed.

Lemma keeps_analyzeQuality : forall p b i, keeps_store (nlpService.analyzeQuality p b i).
Proof. intros. unfold nlpService.analyzeQuality. keeps. Qed.

#[local] Hint Resolve keeps_findDupes keeps_analyzeReview keeps_nlp_scanImage
  keeps_analyzeQuality : keeps.

Lemma keeps_getDupes : forall req, keeps_store (analysisController.getDupes req).
Proof. intros. unfold analysisController.getDupes. keeps. Qed.

Lemma keeps_getSentiment : forall req, keeps_store (analysisController.getSentiment req).
Proof. intros. unfold analysisController.getSentiment. keeps. Qed.

Lemma keeps_scanImage : forall req, keeps_store (analysisController.scanImage req).
Proof. intros. unfold analysisController.scanImage. keeps. Qed.

Lemma keeps_getQualityAnalysis : forall req,
    keeps_store (analysisController.getQualityAnalysis req).
Proof. intros. unfold analysisController.getQualityAnalysis. keeps. Qed.

Lemma keeps_getFavorites : forall req, keeps_store (analysisController.getFavorites req).
Proof. intros. unfold analysisController.getFavorites. keeps. Qed.

Lemma keeps_req_user_id : forall req, keeps_store (req_user_id req).
Proof. intros. unfold req_user_id. keeps. Qed.

#[local] Hint Resolve keeps_req_user_id : keeps.

Lemma keeps_getMyFavorites : forall req, keeps_store (favoriteController.getMyFavorites req).
Proof. intros. unfold favoriteController.getMyFavorites. keeps. Qed.

Lemma keeps_deleteUser : forall req, keeps_store (userController.deleteUser req).
Proof.
  intros. unfold userController.deleteUser. keeps.
  - now intros w.
  - now intros w.
Qed.

(** [save] inserts a validated document whose key is new, or leaves the
    collection alone. *)
Lemma save_step : forall d w,
    store_step (favorites w) (favorites (snd (Favorite.save d w))).
Proof.
  intros d w. unfold Favorite.save, bind, Date_now, throw.
  destruct (Favorite.validate d (clock w)) as [f |]; [| constructor].
  cbn [tick favorites].
  destruct (existsb (Favorite.same_key f) (favorites w)) eqn:E; cbn; [constructor |].
  now apply store_insert.
Qed.

Lemma tame_addFavorite_insert : forall req, tame (favoriteController.addFavorite_insert req).
Proof.
  intros req w. unfold favoriteController.addFavorite_insert, bind, req_user_id.
  destruct (user req) as [u |]; [| constructor]. cbn [ret].
  destruct (Js.truthy_str (product_id (body req))); cbn [ret bind new_ObjectId];
    unfold Favorite.new_Favorite, bind, new_ObjectId, Date_now, ret;
    cbn [FavoriteDoc.i_addedAt];
    match goal with
    | |- context [Favorite.save ?d ?w'] =>
        pose proof (save_step d w') as Hs;
        destruct (Favorite.save d w') as [[saved | e] w2]; exact Hs
    end.
Qed.

Lemma keeps_addFavorite_catch : forall e, keeps_store (favoriteController.addFavorite_catch e).
Proof. intros e. unfold favoriteController.addFavorite_catch. keeps. Qed.

Lemma tame_try : forall A (m : M A) h,
    tame m -> (forall e, keeps_store (h e)) -> tame (try_catch m h).
Proof.
  intros A m h Hm Hh w. unfold try_catch.
  specialize (Hm w). destruct (m w) as [[a | e] w']; cbn [snd] in *; [exact Hm |].
  now rewrite Hh.
Qed.

Lemma tame_after : forall A B (m : M A) (k : A -> M B),
    keeps_store m -> (forall a, tame (k a)) -> tame (bind m k).
Proof.
  intros A B m k Hm Hk w. unfold bind.
  specialize (Hm w). destruct (m w) as [[a | e] w']; cbn [snd] in *.
  - rewrite <- Hm. apply Hk.
  - rewrite Hm. constructor.
Qed.

Lemma tame_addFavorite : forall req, tame (favoriteController.addFavorite req).
Proof.
  intros req. unfold favoriteController.addFavorite.
  apply tame_try; [| apply keeps_addFavorite_catch].
  apply tame_after.
  - unfold favoriteController.addFavorite_lookup. keeps.
  - intros [f |]; [apply keeps_store_tame; keeps | apply tame_addFavorite_insert].
Qed.

Lemma tame_addToFavorites : forall req, tame (analysisController.addToFavorites req).
Proof.
  intros req. unfold analysisController.addToFavorites.
  apply tame_try; [| intros; keeps].
  destruct (userId req) as [uid |]; [| apply keeps_store_tame; keeps].
  apply tame_after; [keeps |].
  intros [f |]; [apply keeps_store_tame; keeps |].
  intros w. unfold Favorite.new_Favorite, bind, Date_now, new_ObjectId, ret.
  cbn [FavoriteDoc.i_addedAt].
  match goal with
  | |- context [Favorite.save ?d ?w'] =>
      pose proof (save_step d w') as Hs;
      destruct (Favorite.save d w') as [[saved | e] w2]; exact Hs
  end.
Qed.

Lemma tame_deleteFavorite : forall req, tame (favoriteController.deleteFavorite req).
Proof.
  intros req. unfold favoriteController.deleteFavorite.
  apply tame_try; [| intros; keeps].
  apply tame_after.
  - destruct (param req) as [id |]; [| keeps].
    unfold Favorite.findById. keeps.
  - intros [f |]; [| apply keeps_store_tame; keeps].
    apply tame_after; [keeps |].
    intros uid. destruct (negb _); [apply keeps_store_tame; keeps |].
    intros w. unfold bind, Favorite.deleteOne, ret. cbn. apply store_filter.
Qed.

Lemma tame_removeFromFavorites : forall req, tame (analysisController.removeFromFavorites req).
Proof.
  intros req. unfold analysisController.removeFromFavorites.
  apply tame_try; [| intros; keeps].
  destruct (userId req) as [uid |]; [| apply keeps_store_tame; keeps].
  intros w. unfold bind, Favorite.findOneAndDelete, ret. cbn. apply store_remove_first.
Qed.

Lemma tame_protect : forall next req,
    (forall r, tame (next r)) -> tame (authMiddleware.protect next req).
Proof.
  intros next req Hnext. unfold authMiddleware.protect.
  destruct (authorization req) as [header |]; [| apply keeps_store_tame; keeps].
  destruct (Js.startsWith "Bearer" header); [| apply keeps_store_tame; keeps].
  apply tame_after.
  - apply keeps_try; [| intros; keeps].
    apply keeps_bind; [| intros; keeps].
    unfold authMiddleware.resolve.
    destruct (negb _); [keeps |].
    apply keeps_bind; [now intros w |].
    intros w0. destruct (jwt_verify w0 _); [now intros w | keeps].
  - intros [req' | response]; [apply Hnext | apply keeps_store_tame; keeps].
Qed.

Lemma tame_upload_single : forall next req,
    (forall r, tame (next r)) -> tame (server.upload_single next req).
Proof.
  intros next req Hnext. unfold server.upload_single.
  destruct (multipart req) as [f |]; [| apply Hnext].
  destruct (_ <? _); [apply keeps_store_tame; keeps | apply Hnext].
Qed.

(** Every route of every mounted router is tame. *)
Lemma tame_routes : forall routes r req,
    In routes (map snd server.mounted) -> In r routes -> tame (server.route_handler r req).
Proof.
  intros routes r req Hm Hr. cbn in Hm.
  destruct Hm as [<- | [<- | [<- | []]]]; cbn in Hr;
    repeat (destruct Hr as [<- | Hr]; [cbn [server.route_handler] |]);
    try contradiction;
    auto using keeps_store_tame, keeps_getDupes, keeps_getSentiment, keeps_scanImage,
      keeps_getQualityAnalysis, keeps_getFavorites, keeps_getMyFavorites, keeps_deleteUser,
      tame_addToFavorites, tame_removeFromFavorites, tame_upload_single, tame_protect,
      tame_addFavorite, tame_deleteFavorite, keeps_ret.
Qed.

Lemma dispatch_route : forall routes h segments handler,
    server.dispatch routes h segments = Some handler ->
    exists r req, In r routes /\ handler = server.route_handler r req.
Proof.
  induction routes as [| r rest IH]; intros h segments handler H; cbn in H; [discriminate |].
  destruct (server.method_eqb _ _).
  - destruct (server.match_pattern _ _ _) as [captured |].
    + inversion H; subst. exists r. eexists. split; [now left | reflexivity].
    + destruct (IH _ _ _ H) as [r' [req [Hin ->]]]. exists r', req. split; [now right | reflexivity].
  - destruct (IH _ _ _ H) as [r' [req [Hin ->]]]. exists r', req. split; [now right | reflexivity].
Qed.

Lemma through_route : forall mounts h handler,
    server.through mounts h = Some handler ->
    exists routes r req,
      In routes (map snd mounts) /\ In r routes /\ handler = server.route_handler r req.
Proof.
  induction mounts as [| [prefix routes] rest IH]; intros h handler H; cbn in H; [discriminate |].
  assert (Hrest : server.through rest h = Some handler ->
                  exists routes0 r req,
                    In routes0 (map snd ((prefix, routes) :: rest))
                    /\ In r routes0 /\ handler = server.route_handler r req).
  { intros H'. destruct (IH _ _ H') as [routes0 [r [req [Hm [Hr ->]]]]].
    exists routes0, r, req. split; [now right | now split]. }
  destruct (server.strip_prefix prefix (server.path h)) as [segments |]; [| now apply Hrest].
  destruct (server.dispatch routes h segments) as [m |] eqn:D; [| now apply Hrest].
  inversion H; subst. destruct (dispatch_route _ _ _ _ D) as [r [req [Hr ->]]].
  exists routes, r, req. split; [now left | now split].
Qed.

(** Whatever the request, the server changes the collection by at most
    one insert of a fresh key or one removal. *)
Lemma app_store_step : forall h w,
    store_step (favorites w) (favorites (snd (server.app h w))).
Proof.
  intros h w. unfold server.app.
  destruct (server.through server.mounted h) as [handler |] eqn:T.
  - destruct (through_route _ _ _ T) as [routes [r [req [Hm [Hr ->]]]]].
    pose proof (tame_routes routes r req Hm Hr w) as Ht.
    destruct (server.route_handler r req w) as [[response | e] w']; exact Ht.
  - destruct (server.method h), (server.path h); constructor.
Qed.

(** ** What every reachable store satisfies *)

Lemma in_remove_first : forall p (l : list FavoriteDoc.doc) x,
    In x (Favorite.remove_first p l) -> In x l.
Proof.
  induction l as [| y r IH]; intros x H; cbn in *; [exact H |].
  destruct (p y); [now right |].
  destruct H as [-> | H]; [now left | right; now apply IH].
Qed.

Lemma I1_filter : forall p fs, I1 fs -> I1 (List.filter p fs).
Proof.
  unfold I1. intros p fs. induction fs as [| f r IH]; cbn; intros H; [exact H |].
  apply NoDup_cons_iff in H as [Hnew Hr].
  destruct (p f); cbn; [| now apply IH].
  constructor; [| now apply IH].
  intros Hin. apply Hnew. apply in_map_iff in Hin as [g [Hg Hin]].
  apply filter_In in Hin as [Hin _]. apply in_map_iff. eauto.
Qed.

Lemma I1_remove_first : forall p fs, I1 fs -> I1 (Favorite.remove_first p fs).
Proof.
  unfold I1. intros p fs. induction fs as [| f r IH]; cbn; intros H; [exact H |].
  apply NoDup_cons_iff in H as [Hnew Hr].
  destruct (p f); cbn; [exact Hr |].
  constructor; [| now apply IH].
  intros Hin. apply Hnew. apply in_map_iff in Hin as [g [Hg Hin]].
  apply in_remove_first in Hin. apply in_map_iff. eauto.
Qed.

Lemma not_indexed : forall f fs,
    existsb (Favorite.same_key f) fs = false -> ~ In (index_key f) (map index_key fs).
Proof.
  intros f fs H Hin. apply in_map_iff in Hin as [g [Hg Hin]].
  assert (existsb (Favorite.same_key f) fs = true) as E; [| congruence].
  apply existsb_exists. exists g. split; [exact Hin |].
  unfold index_key in Hg. inversion Hg as [[Hu Hp]].
  unfold Favorite.same_key. now rewrite Hu, Hp, N.eqb_refl, String.eqb_refl.
Qed.

Lemma store_step_I1 : forall fs fs', store_step fs fs' -> I1 fs -> I1 fs'.
Proof.
  intros fs fs' Hstep Hu. destruct Hstep as [| p | p | f Hnew].
  - exact Hu.
  - now apply I1_filter.
  - now apply I1_remove_first.
  - apply I1_insert; [exact Hu | now apply not_indexed].
Qed.

Lemma reachable_I1 : forall w, reachable w -> I1 (favorites w).
Proof.
  induction 1 as [w H0 | w w' _ IH Hsame | w h _ IH].
  - rewrite H0. constructor.
  - now rewrite Hsame.
  - exact (store_step_I1 _ _ (app_store_step h w) IH).
Qed.

(** At most one favorite per owner and key in a store that satisfies I1. *)
Lemma I1_at_most_one : forall uid key fs,
    I1 fs -> (List.length (stored_under uid key fs) <= 1)%nat.
Proof.
  unfold I1, stored_under. intros uid key fs. induction fs as [| f r IH]; cbn; intros H; [lia |].
  apply NoDup_cons_iff in H as [Hnew Hr]. specialize (IH Hr).
  destruct (Favorite.by_user_and_product uid (Some key) f) eqn:E; [| exact IH].
  cbn. destruct (List.filter _ r) as [| g rest] eqn:F; [cbn; lia |].
  exfalso. apply Hnew.
  assert (In g (List.filter (Favorite.by_user_and_product uid (Some key)) r)) as Hg
      by (rewrite F; now left).
  apply filter_In in Hg as [Hin Hk].
  apply in_map_iff. exists g. split; [| exact Hin].
  unfold Favorite.by_user_and_product in E, Hk.
  apply andb_prop in E as [E1 E2]. apply andb_prop in Hk as [K1 K2].
  apply N.eqb_eq in E1, K1. apply String.eqb_eq in E2, K2.
  unfold index_key. congruence.
Qed.

(** ** Sorting *)

Lemma insert_desc_perm : forall key x l,
    Permutation (Favorite.insert_desc key x l) (x :: l).
Proof.
  intros key x l. induction l as [| y r IH]; cbn; [reflexivity |].
  destruct (key y <=? key x); [reflexivity |].
  rewrite IH. apply perm_swap.
Qed.

Lemma sort_desc_perm : forall key l, Permutation (Favorite.sort_desc key l) l.
Proof.
  intros key l. induction l as [| x r IH]; cbn; [reflexivity |].
  rewrite insert_desc_perm. now constructor.
Qed.

Lemma insert_desc_sorted : forall key x l,
    StronglySorted (newest_first key) l ->
    StronglySorted (newest_first key) (Favorite.insert_desc key x l).
Proof.
  intros key x l. induction l as [| y r IH]; intros H; cbn.
  - constructor; constructor.
  - apply StronglySorted_inv in H as [Hr Hy].
    destruct (key y <=? key x) eqn:E.
    + apply N.leb_le in E. constructor; [constructor; assumption |].
      constructor; [exact E |].
      apply Forall_forall. intros z Hz. unfold newest_first.
      rewrite Forall_forall in Hy. specialize (Hy z Hz). unfold newest_first in Hy. lia.
    + apply N.leb_gt in E. constructor; [now apply IH |].
      apply (Permutation_Forall (x := x :: r)); [symmetry; apply insert_desc_perm |].
      constructor; [unfold newest_first; lia | exact Hy].
Qed.

Lemma sort_desc_sorted : forall key l,
    StronglySorted (newest_first key) (Favorite.sort_desc key l).
Proof.
  intros key l. induction l as [| x r IH]; cbn; [constructor |].
  now apply insert_desc_sorted.
Qed.

Lemma sorted_by_agreeing_keys : forall key key' l,
    (forall f g, In f l -> In g l -> key g <= key f -> key' g <= key' f) ->
    StronglySorted (newest_first key) l -> StronglySorted (newest_first key') l.
Proof.
  intros key key' l Hagree H. induction H as [| a l Hl IH Ha]; [constructor |].
  constructor.
  - apply IH. intros f g Hf Hg. apply Hagree; now right.
  - rewrite Forall_forall in *. intros z Hz. unfold newest_first in *.
    apply Hagree; [now left | now right | now apply Ha].
Qed.

Lemma saved_in_order_spec : forall fs,
    saved_in_order fs = true ->
    forall f g, In f fs -> In g fs ->
                FavoriteDoc.createdAt g <= FavoriteDoc.createdAt f ->
                FavoriteDoc.addedAt g <= FavoriteDoc.addedAt f.
Proof.
  intros fs H f g Hf Hg Hc. unfold saved_in_order in H.
  rewrite forallb_forall in H. specialize (H f Hf).
  rewrite forallb_forall in H. specialize (H g Hg).
  apply N.leb_le in Hc. rewrite Hc in H. cbn in H. now apply N.leb_le.
Qed.

(** ** Listing *)

(** The claim of C5 fails for adds served one after the other: "Mist"
    is constructed at 1000 and saved at 1001, "Balm" is constructed and
    saved within that same millisecond and "Cream" after it.  Added at
    1000 < 1001 < 1002, they are listed 1002, 1000, 1001: the listing
    sorts on [createdAt], which is 1001 for both "Mist" and "Balm". *)
Lemma listing_is_not_by_addedAt :
  reachable sample.hurried_adds
  /\ exists listed,
      fst (server.app (sample.get_favorites "tok-alice") sample.hurried_adds)
      = respond_ok (JArr (map FavoriteDoc.toJSON listed))
      /\ map FavoriteDoc.productName listed = ["Cream"; "Mist"; "Balm"]
      /\ map FavoriteDoc.addedAt listed = [1002; 1000; 1001]
      /\ map FavoriteDoc.createdAt listed = [1002; 1001; 1001].
Proof.
  split.
  - unfold sample.hurried_adds.
    repeat match goal with
           | |- reachable (snd (server.app _ _)) => apply reach_serve
           end.
    now apply reach_start.
  - exists (Favorite.sort_desc FavoriteDoc.createdAt
              (List.filter (Favorite.by_user 1) (favorites sample.hurried_adds))).
    vm_compute. repeat split.
Qed.

(** C5, amended: listing for a verified owner answers 200 with exactly
    that owner's favorites, ordered by [createdAt], the time of the save,
    descending.  The list is also [addedAt]-descending when the two
    stamps order the owner's favorites alike.  The analysis router's
    handler, whenever [req.userId] is set, sorts on [addedAt] itself. *)
Theorem list_is_most_recent_first :
  forall (w : World) (req : Req),
    (forall u, user req = Some u ->
       exists listed,
         favoriteController.getMyFavorites req w
         = (Ok (respond_ok (JArr (map FavoriteDoc.toJSON listed))), w)
         /\ Permutation listed (List.filter (Favorite.by_user (User.id u)) (favorites w))
         /\ StronglySorted (newest_first FavoriteDoc.createdAt) listed
         /\ (saved_in_order (List.filter (Favorite.by_user (User.id u)) (favorites w)) = true ->
             StronglySorted (newest_first FavoriteDoc.addedAt) listed))
    /\ (forall uid, userId req = Some uid ->
          exists listed,
            analysisController.getFavorites req w
            = (Ok (respond 200 (JObj [("success", JBool true);
                                      ("data", JArr (map FavoriteDoc.toJSON listed))])), w)
            /\ Permutation listed (List.filter (Favorite.by_user uid) (favorites w))
            /\ StronglySorted (newest_first FavoriteDoc.addedAt) listed).
Proof.
  intros w req. split.
  - intros u Hu.
    exists (Favorite.sort_desc FavoriteDoc.createdAt
              (List.filter (Favorite.by_user (User.id u)) (favorites w))).
    split; [| split; [| split]].
    + unfold favoriteController.getMyFavorites, try_catch, bind, req_user_id.
      rewrite Hu. reflexivity.
    + apply sort_desc_perm.
    + apply sort_desc_sorted.
    + intros Hord.
      apply (sorted_by_agreeing_keys FavoriteDoc.createdAt); [| apply sort_desc_sorted].
      intros f g Hf Hg.
      apply (Permutation_in _ (sort_desc_perm _ _)) in Hf, Hg.
      now apply (saved_in_order_spec _ Hord).
  - intros uid Hu.
    exists (Favorite.sort_desc FavoriteDoc.addedAt
              (List.filter (Favorite.by_user uid) (favorites w))).
    split; [| split].
    + unfold analysisController.getFavorites, try_catch, bind. rewrite Hu. reflexivity.
    + apply sort_desc_perm.
    + apply sort_desc_sorted.
Qed.

Lemma three_adds_reachable : reachable sample.three_adds.
Proof.
  unfold sample.three_adds, server.serve_at.
  repeat match goal with
         | |- reachable (snd (server.app _ _)) => apply reach_serve
         | |- reachable (with_clock _ ?w) => apply (reach_env w); [| reflexivity]
         end.
  now apply reach_start.
Qed.

Lemma list_is_most_recent_first_witness :
  exists listed,
    favoriteController.getMyFavorites (sample.as_user sample.alice empty_body None)
      sample.three_adds
    = (Ok (respond_ok (JArr (map FavoriteDoc.toJSON listed))), sample.three_adds)
    /\ Permutation listed (List.filter (Favorite.by_user 1) (favorites sample.three_adds))
    /\ StronglySorted (newest_first FavoriteDoc.createdAt) listed
    /\ StronglySorted (newest_first FavoriteDoc.addedAt) listed.
Proof.
  destruct (proj1 (list_is_most_recent_first sample.three_adds
                     (sample.as_user sample.alice empty_body None))
              (User.select_without_password sample.alice) eq_refl)
    as [listed [Hlist [Hperm [Hsaved Hadded]]]].
  exists listed. split; [exact Hlist | split; [exact Hperm | split; [exact Hsaved |]]].
  apply Hadded. vm_compute. reflexivity.
Defined.

(** Favorites added at 2000 < 3000 < 4000 are listed 4000, 3000, 2000. *)
Example three_adds_listed_newest_first :
  exists listed,
    fst (server.app (sample.get_favorites "tok-alice") sample.three_adds)
    = respond_ok (JArr (map FavoriteDoc.toJSON listed))
    /\ map FavoriteDoc.addedAt listed = [4000; 3000; 2000]
    /\ map FavoriteDoc.productName listed = ["Cream"; "Balm"; "Mist"].
Proof.
  exists (Favorite.sort_desc FavoriteDoc.createdAt
            (List.filter (Favorite.by_user 1) (favorites sample.three_adds))).
  vm_compute. repeat split.
Qed.

(** ** Uniqueness *)

(** Run one after the other, the two steps of a request are the handler. *)
Lemma addFavorite_is_two_steps : forall req w,
    exists response,
      race.run [race.A; race.A] (race.Pending req) (race.Pending req) w
      = (race.Finished response, race.Pending req,
         snd (favoriteController.addFavorite req w))
      /\ fst (favoriteController.addFavorite req w) = Ok response.
Proof.
  intros req w. cbn [race.run race.step].
  unfold favoriteController.addFavorite, try_catch, bind.
  destruct (favoriteController.addFavorite_lookup req w) as [[[f |] | e] w1]; cbn.
  - eexists; split; reflexivity.
  - unfold race.settle.
    destruct (favoriteController.addFavorite_insert req w1) as [[r | e] w2]; cbn.
    + eexists; split; reflexivity.
    + unfold favoriteController.addFavorite_catch.
      destruct (match err_code e with Some c => c =? 11000 | None => false end); cbn;
        eexists; split; reflexivity.
  - unfold favoriteController.addFavorite_catch.
    destruct (match err_code e with Some c => c =? 11000 | None => false end); cbn;
      eexists; split; reflexivity.
Qed.

(** Two adds whose product names the owner already has: each is refused
    at its first step, whatever the other does. *)
Lemma run_refused : forall reqA reqB uA uB gA gB w schedule a b,
    user reqA = Some uA ->
    user reqB = Some uB ->
    List.find (Favorite.by_user_and_name (User.id uA) (product_name (body reqA)))
      (favorites w) = Some gA ->
    List.find (Favorite.by_user_and_name (User.id uB) (product_name (body reqB)))
      (favorites w) = Some gB ->
    (a = race.Pending reqA \/ a = race.Finished favoriteController.already_favorite) ->
    (b = race.Pending reqB \/ b = race.Finished favoriteController.already_favorite) ->
    exists a' b',
      race.run schedule a b w = (a', b', w)
      /\ (a' = race.Pending reqA \/ a' = race.Finished favoriteController.already_favorite)
      /\ (b' = race.Pending reqB \/ b' = race.Finished favoriteController.already_favorite)
      /\ (remaining a' <= remaining a - 2 * race.turns race.A schedule)%nat
      /\ (remaining b' <= remaining b - 2 * race.turns race.B schedule)%nat.
Proof.
  intros reqA reqB uA uB gA gB w schedule a b HuA HuB HgA HgB.
  revert a b. induction schedule as [| turn rest IH]; intros a b Ha Hb.
  - exists a, b. cbn. repeat split; auto; lia.
  - assert (HstepA : race.step a w = (race.Finished favoriteController.already_favorite, w)).
    { destruct Ha as [-> | ->]; [| reflexivity].
      cbn [race.step]. now rewrite (addFavorite_lookup_spec reqA w uA HuA), HgA. }
    assert (HstepB : race.step b w = (race.Finished favoriteController.already_favorite, w)).
    { destruct Hb as [-> | ->]; [| reflexivity].
      cbn [race.step]. now rewrite (addFavorite_lookup_spec reqB w uB HuB), HgB. }
    destruct turn; cbn [race.run].
    + rewrite HstepA.
      destruct (IH (race.Finished favoriteController.already_favorite) b) as
        [a' [b' [Hrun [Ha' [Hb' [Hra Hrb]]]]]]; [now right | exact Hb |].
      exists a', b'. split; [exact Hrun | split; [exact Ha' | split; [exact Hb' |]]].
      unfold race.turns in *. cbn [List.filter List.length remaining] in *. split; lia.
    + rewrite HstepB.
      destruct (IH a (race.Finished favoriteController.already_favorite)) as
        [a' [b' [Hrun [Ha' [Hb' [Hra Hrb]]]]]]; [exact Ha | now right |].
      exists a', b'. split; [exact Hrun | split; [exact Ha' | split; [exact Hb' |]]].
      unfold race.turns in *. cbn [List.filter List.length remaining] in *. split; lia.
Qed.

(** The claim of C2 fails for a race on a key the owner does not hold
    while holding the product's name under another key: Alice has "Serum"
    under [p-serum]; two acceptable adds of "Serum" under [p-new] race,
    both are refused with 400 by the name pre-check, and nothing is
    stored under [p-new]. *)
Lemma racing_adds_can_both_be_refused :
  acceptable (sample.product "Serum" (Some "p-new")) = true
  /\ stored_under 1 "p-new" (favorites sample.stocked) = []
  /\ race.run [race.A; race.B; race.B; race.A]
       (race.Pending (sample.as_user sample.alice (sample.product "Serum" (Some "p-new")) None))
       (race.Pending (sample.as_user sample.alice (sample.product "Serum" (Some "p-new")) None))
       sample.stocked
     = (race.Finished favoriteController.already_favorite,
        race.Finished favoriteController.already_favorite, sample.stocked)
  /\ race.run [race.A; race.A; race.B; race.B]
       (race.Pending (sample.as_user sample.alice (sample.product "Serum" (Some "p-new")) None))
       (race.Pending (sample.as_user sample.alice (sample.product "Serum" (Some "p-new")) None))
       sample.stocked
     = (race.Finished favoriteController.already_favorite,
        race.Finished favoriteController.already_favorite, sample.stocked)
  /\ status favoriteController.already_favorite = 400.
Proof. repeat split. Qed.

(** C2, amended: every reachable store holds at most one favorite per
    owner and product key.  When two acceptable adds of one owner for one
    product key race, the owner holding neither the key nor either add's
    product name, then in any interleaving in which both complete exactly
    one favorite ends up stored under the key, the store still satisfies
    I1, one call is answered 201 with that favorite and the other is
    refused with one of the two 400 answers that say the product is
    already in the favorites.  When the owner already holds both adds'
    product names, both calls are refused with that 400 and the world is
    left as it was. *)
Theorem favorites_unique_under_race :
  (forall (w : World) (uid : ObjectId) (key : string),
      reachable w -> (List.length (stored_under uid key (favorites w)) <= 1)%nat)
  /\ (forall (reqA reqB : Req) (uA uB : User.safe) (k : string) (w : World)
             (schedule : list race.Turn),
         user reqA = Some uA ->
         user reqB = Some uB ->
         User.id uB = User.id uA ->
         product_id (body reqA) = Some k ->
         product_id (body reqB) = Some k ->
         k <> "" ->
         acceptable (body reqA) = true ->
         acceptable (body reqB) = true ->
         I1 (favorites w) ->
         stored_under (User.id uA) k (favorites w) = [] ->
         List.find (Favorite.by_user_and_name (User.id uA) (product_name (body reqA)))
           (favorites w) = None ->
         List.find (Favorite.by_user_and_name (User.id uA) (product_name (body reqB)))
           (favorites w) = None ->
         (2 <= race.turns race.A schedule)%nat ->
         (2 <= race.turns race.B schedule)%nat ->
         exists rA rB w' f,
           race.run schedule (race.Pending reqA) (race.Pending reqB) w
           = (race.Finished rA, race.Finished rB, w')
           /\ I1 (favorites w')
           /\ stored_under (User.id uA) k (favorites w') = [f]
           /\ ((rA = respond 201 (FavoriteDoc.toJSON f) /\ already_exists rB)
               \/ (already_exists rA /\ rB = respond 201 (FavoriteDoc.toJSON f))))
  /\ (forall (reqA reqB : Req) (uA uB : User.safe) (gA gB : FavoriteDoc.doc) (w : World)
             (schedule : list race.Turn),
         user reqA = Some uA ->
         user reqB = Some uB ->
         List.find (Favorite.by_user_and_name (User.id uA) (product_name (body reqA)))
           (favorites w) = Some gA ->
         List.find (Favorite.by_user_and_name (User.id uB) (product_name (body reqB)))
           (favorites w) = Some gB ->
         (1 <= race.turns race.A schedule)%nat ->
         (1 <= race.turns race.B schedule)%nat ->
         race.run schedule (race.Pending reqA) (race.Pending reqB) w
         = (race.Finished favoriteController.already_favorite,
            race.Finished favoriteController.already_favorite, w)
         /\ status favoriteController.already_favorite = 400).
Proof.
  split; [| split].
  - intros w uid key Hreach. apply I1_at_most_one. now apply reachable_I1.
  - intros reqA reqB uA uB k w schedule HuA HuB Hsame HkA HkB Hk HokA HokB Hu Habs HnA HnB HtA HtB.
    destruct (invariant_run reqA reqB uA uB k (favorites w)
                HuA HuB Hsame HkA HkB Hk HokA HokB Habs HnA HnB
                schedule (race.Pending reqA) (race.Pending reqB) w)
      as [a [b [w' [Hrun [Hinv [Ha Hb]]]]]].
    { left. split; [reflexivity | split; now left]. }
    cbn [remaining] in Ha, Hb.
    assert (Hdone : forall t req, (remaining t <= 0)%nat ->
                                  (exists r, t = race.Finished r) /\ ~ open req t).
    { intros [q | q | r] req Hr; cbn in Hr; try lia.
      split; [eauto | intros [H | H]; discriminate]. }
    destruct (Hdone a reqA ltac:(lia)) as [[rA ->] HnoA].
    destruct (Hdone b reqB ltac:(lia)) as [[rB ->] HnoB].
    destruct Hinv as [[_ [Hopen _]] | [[f [Hfs [Hf [Hwin Hlose]]]] | [f [Hfs [Hf [Hwin Hlose]]]]]].
    + contradiction.
    + destruct Hlose as [Hopen | [r [Hr Hdup]]]; [contradiction |].
      inversion Hwin; inversion Hr; subst.
      destruct (keyed_alone uA k (favorites w) Hu Habs f Hf) as [HI Hone].
      exists (respond 201 (FavoriteDoc.toJSON f)), r, w', f.
      rewrite Hfs. split; [exact Hrun | split; [exact HI | split; [exact Hone |]]].
      left. now split.
    + destruct Hlose as [Hopen | [r [Hr Hdup]]]; [contradiction |].
      inversion Hwin; inversion Hr; subst.
      destruct (keyed_alone uA k (favorites w) Hu Habs f Hf) as [HI Hone].
      exists r, (respond 201 (FavoriteDoc.toJSON f)), w', f.
      rewrite Hfs. split; [exact Hrun | split; [exact HI | split; [exact Hone |]]].
      right. now split.
  - intros reqA reqB uA uB gA gB w schedule HuA HuB HgA HgB HtA HtB.
    split; [| reflexivity].
    destruct (run_refused reqA reqB uA uB gA gB w schedule
                (race.Pending reqA) (race.Pending reqB) HuA HuB HgA HgB)
      as [a [b [Hrun [Ha [Hb [Hra Hrb]]]]]]; [now left | now left |].
    rewrite Hrun. cbn [remaining] in Hra, Hrb.
    destruct Ha as [-> | ->]; [cbn [remaining] in Hra; lia |].
    destruct Hb as [-> | ->]; [cbn [remaining] in Hrb; lia |].
    reflexivity.
Qed.

Lemma stocked_I1 : I1 (favorites sample.stocked).
Proof.
  unfold I1. cbn. repeat constructor; cbn; intuition discriminate.
Qed.

Lemma favorites_unique_under_race_witness :
  (List.length (stored_under 1%N "p-mist" (favorites sample.three_adds)) <= 1)%nat
  /\ (exists rA rB w' f,
         race.run [race.A; race.B; race.B; race.A]
           (race.Pending (sample.as_user sample.alice (sample.product "Mist" (Some "p-mist")) None))
           (race.Pending (sample.as_user sample.alice (sample.product "Mist" (Some "p-mist")) None))
           sample.stocked
         = (race.Finished rA, race.Finished rB, w')
         /\ I1 (favorites w')
         /\ stored_under 1 "p-mist" (favorites w') = [f]
         /\ ((rA = respond 201 (FavoriteDoc.toJSON f) /\ already_exists rB)
             \/ (already_exists rA /\ rB = respond 201 (FavoriteDoc.toJSON f))))
  /\ (race.run [race.A; race.B; race.B; race.A]
        (race.Pending (sample.as_user sample.alice (sample.product "Serum" (Some "p-new")) None))
        (race.Pending (sample.as_user sample.alice (sample.product "Serum" (Some "p-new")) None))
        sample.stocked
      = (race.Finished favoriteController.already_favorite,
         race.Finished favoriteController.already_favorite, sample.stocked)
      /\ status favoriteController.already_favorite = 400).
Proof.
  split; [| split].
  - apply (proj1 favorites_unique_under_race). exact three_adds_reachable.
  - apply (proj1 (proj2 favorites_unique_under_race)
             (sample.as_user sample.alice (sample.product "Mist" (Some "p-mist")) None)
             (sample.as_user sample.alice (sample.product "Mist" (Some "p-mist")) None)
             (User.select_without_password sample.alice)
             (User.select_without_password sample.alice)
             "p-mist" sample.stocked [race.A; race.B; race.B; race.A]);
      first [reflexivity | discriminate | exact stocked_I1 | cbn; lia].
  - apply (proj2 (proj2 favorites_unique_under_race)
             (sample.as_user sample.alice (sample.product "Serum" (Some "p-new")) None)
             (sample.as_user sample.alice (sample.product "Serum" (Some "p-new")) None)
             (User.select_without_password sample.alice)
             (User.select_without_password sample.alice)
             sample.serum sample.serum sample.stocked [race.A; race.B; race.B; race.A]);
      first [reflexivity | cbn; lia].
Defined.

(** In that race the second insert loses. *)
Example race_loser_gets_duplicate_key :
  exists f w',
    race.run [race.A; race.B; race.B; race.A]
      (race.Pending (sample.as_user sample.alice (sample.product "Mist" (Some "p-mist")) None))
      (race.Pending (sample.as_user sample.alice (sample.product "Mist" (Some "p-mist")) None))
      sample.stocked
    = (race.Finished favoriteController.duplicate_key,
       race.Finished (respond 201 (FavoriteDoc.toJSON f)), w')
    /\ favorites w' = [sample.serum; sample.toner; f].
Proof. eexists (candidate 1 (sample.product "Mist" (Some "p-mist")) sample.stocked). eexists. split; reflexivity. Qed.

(** ** The identity check *)

Lemma protect_without_bearer : forall next req w,
    (authorization req = None
     \/ exists header, authorization req = Some header
                       /\ Js.startsWith "Bearer" header = false) ->
    authMiddleware.protect next req w = (Ok authMiddleware.no_token, w).
Proof.
  intros next req w [Hnone | [header [Hsome Hno]]]; unfold authMiddleware.protect.
  - now rewrite Hnone.
  - now rewrite Hsome, Hno.
Qed.

Lemma protect_rejected_token : forall next req w header,
    authorization req = Some header ->
    Js.startsWith "Bearer" header = true ->
    (forall token, nth_error (Js.split_space header) 1 = Some token ->
                   token <> "" -> jwt_verify w token = None) ->
    authMiddleware.protect next req w = (Ok authMiddleware.invalid_token, w).
Proof.
  intros next req w header Hh Hb Hbad. unfold authMiddleware.protect.
  rewrite Hh, Hb. unfold bind, try_catch, authMiddleware.resolve, get_world.
  destruct (nth_error (Js.split_space header) 1) as [token |]; cbn; [| reflexivity].
  destruct (String.eqb token "") eqn:E; cbn; [reflexivity |].
  apply String.eqb_neq in E. now rewrite (Hbad token eq_refl E).
Qed.

(** A verified token runs the handler with whatever the user lookup
    returned, a missing user included. *)
Lemma protect_verified_token : forall next req w header token id,
    authorization req = Some header ->
    Js.startsWith "Bearer" header = true ->
    nth_error (Js.split_space header) 1 = Some token ->
    token <> "" ->
    jwt_verify w token = Some id ->
    authMiddleware.protect next req w
    = next (with_user (option_map User.select_without_password
                         (List.find (fun u => User._id u =? id) (users w))) req) w.
Proof.
  intros next req w header token id Hh Hb Ht Hne Hv. unfold authMiddleware.protect.
  rewrite Hh, Hb. unfold bind, try_catch, authMiddleware.resolve, get_world.
  rewrite Ht. apply String.eqb_neq in Hne. cbn. rewrite Hne. cbn. rewrite Hv.
  reflexivity.
Qed.

(** C6, at the failing input: Carol deletes her account and then presents
    her token, which still verifies.  [protect] does not answer 401: it
    runs the handler with [req.user = null]; [getMe] answers 200 with
    [null], and listing favorites ends in the handler's own 500. *)
Theorem protect_runs_handler_for_deleted_principal :
  server.app (sample.delete_profile "tok-carol") sample.with_carol
  = (respond_ok (analysisController.message "Utilisateur supprimé avec succès"),
     sample.stocked)
  /\ authMiddleware.protect authController.getMe (sample.bearer "tok-carol") sample.stocked
     = (Ok (respond 200 JNull), sample.stocked)
  /\ server.app (sample.get_favorites "tok-carol") sample.stocked
     = (respond 500 (favoriteController.msg "Erreur serveur lors du chargement des favoris"),
        sample.stocked).
Proof. split; [reflexivity | split; reflexivity]. Qed.

Lemma scanImage_size_limit_witness :
  (analysisController.scanImage (sample.uploaded sample.oversized) (sample.world sample.engine_up)
   = (Ok analysisController.image_too_large, sample.world sample.engine_up)
   /\ status analysisController.image_too_large = 400)
  /\ server.upload_single analysisController.scanImage (sample.upload sample.oversized)
       (sample.world sample.engine_up)
     = (Throw (MulterError "LIMIT_FILE_SIZE" "File too large"), sample.world sample.engine_up)
  /\ (exists response,
         analysisController.scanImage (sample.uploaded sample.small)
           (sample.world sample.engine_up)
         = (Ok response,
            with_outbox
              [Engine.PostScanImage (buffer sample.small) "label.jpg" "image/jpeg"]
              (sample.world sample.engine_up)))
  /\ (exists response,
         server.upload_single analysisController.scanImage (sample.upload sample.small)
           (sample.world sample.engine_up)
         = (Ok response,
            with_outbox
              [Engine.PostScanImage (buffer sample.small) "label.jpg" "image/jpeg"]
              (sample.world sample.engine_up))).
Proof.
  split; [| split; [| split]].
  - apply (proj1 (scanImage_size_limit (sample.uploaded sample.oversized) sample.oversized
                    (sample.world sample.engine_up))); reflexivity.
  - apply (proj1 (proj2 (scanImage_size_limit (sample.upload sample.oversized) sample.oversized
                           (sample.world sample.engine_up)))); reflexivity.
  - apply (proj1 (proj2 (proj2 (scanImage_size_limit (sample.uploaded sample.small) sample.small
                                  (sample.world sample.engine_up)))));
      [reflexivity | discriminate].
  - apply (proj2 (proj2 (proj2 (scanImage_size_limit (sample.upload sample.small) sample.small
                                  (sample.world sample.engine_up)))));
      [reflexivity | discriminate].
Defined.

(** * Further properties *)

(** ** The identity check, in general *)

Lemma protect_cases :
  forall (next : Req -> M Response) (req : Req) (w : World),
    authMiddleware.protect next req w = (Ok authMiddleware.no_token, w)
    \/ authMiddleware.protect next req w = (Ok authMiddleware.invalid_token, w)
    \/ exists token id,
        presents req token
        /\ jwt_verify w token = Some id
        /\ authMiddleware.protect next req w = next (with_user (identity w id) req) w.
Proof.
  intros next req w. unfold authMiddleware.protect.
  destruct (authorization req) as [header |] eqn:Hh; [| now left].
  destruct (Js.startsWith "Bearer" header) eqn:Hb; [| now left].
  unfold bind, try_catch, authMiddleware.resolve, get_world.
  destruct (nth_error (Js.split_space header) 1) as [token |] eqn:Ht; cbn;
    [| right; now left].
  destruct (String.eqb token "") eqn:E; cbn; [right; now left |].
  destruct (jwt_verify w token) as [id |] eqn:Hv; cbn; [| right; now left].
  right; right. exists token, id. split; [| split; [exact Hv | reflexivity]].
  exists header. apply String.eqb_neq in E. auto.
Qed.

(** X1: [protect] either answers 401 itself, leaving the world alone and
    the handler unrun, or the request presented a token that
    [jwt.verify] accepted, and then the result is the handler's, run on
    the request with [req.user] set from the user lookup. *)
Theorem protect_401_or_verified :
  forall (next : Req -> M Response) (req : Req) (w : World),
    authMiddleware.protect next req w = (Ok authMiddleware.no_token, w)
    \/ authMiddleware.protect next req w = (Ok authMiddleware.invalid_token, w)
    \/ exists token id,
        presents req token
        /\ jwt_verify w token = Some id
        /\ authMiddleware.protect next req w = next (with_user (identity w id) req) w.
Proof. exact protect_cases. Qed.

(** ** From the client's interceptor to the verifier *)

Lemma append_cons_assoc : forall (a : string) c r,
    ((a ++ String c EmptyString) ++ r)%string = (a ++ String c r)%string.
Proof.
  induction a as [| x a IH]; intros c r; cbn; [reflexivity |]. now rewrite IH.
Qed.

Lemma split_space_no_space : forall t cur,
    has_space t = false -> Js.split_space_aux cur t = [(cur ++ t)%string].
Proof.
  induction t as [| c r IH]; intros cur H; cbn in *.
  - clear H. induction cur as [| x cur IHc]; cbn; [reflexivity |].
    inversion IHc as [Heq]. now rewrite Heq at 1.
  - apply orb_false_iff in H as [Hc Hr]. rewrite Hc.
    rewrite (IH _ Hr). now rewrite append_cons_assoc.
Qed.

Lemma bearer_header_token : forall t,
    has_space t = false ->
    Js.startsWith "Bearer" ("Bearer " ++ t) = true
    /\ nth_error (Js.split_space ("Bearer " ++ t)) 1 = Some t.
Proof.
  intros t H. split.
  - cbn. repeat (rewrite Ascii.eqb_refl || cbn). reflexivity.
  - unfold Js.split_space. cbn. now rewrite (split_space_no_space t EmptyString H).
Qed.

(** X2: the header the client's interceptor builds from a stored token
    (non-empty, without spaces) is read back by [protect] as that very
    token: the request is answered 401 exactly when [jwt.verify] rejects
    the token, and otherwise the handler runs with the token's identity. *)
Theorem client_token_reaches_verifier :
  forall (token : string) (previous : option string) (next : Req -> M Response)
         (req : Req) (w : World),
    token <> "" ->
    has_space token = false ->
    authorization req = axiosClient.request_interceptor (Some token) previous ->
    authMiddleware.protect next req w
    = match jwt_verify w token with
      | Some id => next (with_user (identity w id) req) w
      | None => (Ok authMiddleware.invalid_token, w)
      end.
Proof.
  intros token previous next req w Hne Hsp Hauth.
  unfold axiosClient.request_interceptor in Hauth. cbn in Hauth.
  apply String.eqb_neq in Hne. rewrite Hne in Hauth. cbn in Hauth.
  destruct (bearer_header_token token Hsp) as [Hb Ht].
  unfold authMiddleware.protect. rewrite Hauth.
  change (String "B" (String "e" (String "a" (String "r" (String "e" (String "r"
            (String " " token)))))))
    with ("Bearer " ++ token)%string.
  rewrite Hb. unfold bind, try_catch, authMiddleware.resolve, get_world.
  rewrite Ht. cbn. rewrite Hne. cbn.
  destruct (jwt_verify w token); reflexivity.
Qed.

Lemma client_token_reaches_verifier_witness :
  authMiddleware.protect authController.getMe (sample.bearer "tok-alice") sample.stocked
  = match jwt_verify sample.stocked "tok-alice" with
    | Some id =>
        authController.getMe (with_user (identity sample.stocked id) (sample.bearer "tok-alice"))
          sample.stocked
    | None => (Ok authMiddleware.invalid_token, sample.stocked)
    end.
Proof.
  apply (client_token_reaches_verifier "tok-alice" None authController.getMe
           (sample.bearer "tok-alice") sample.stocked);
    [discriminate | reflexivity | reflexivity].
Defined.

(** ** ObjectIds in text and back *)

(** The text of an ObjectId casts back to it. *)
Lemma castObjectId_toString : forall o,
    o < oid_bound -> Favorite.castObjectId (oid_toString o) = Some o.
Proof.
  intros o H. rewrite castObjectId_of_text. now rewrite N.mod_small.
Qed.

(** ** What a successful add did *)

Lemma addFavorite_insert_rejects : forall req w u,
    user req = Some u ->
    acceptable (body req) = false ->
    favoriteController.addFavorite_insert req w
    = (Throw (ValidationError "Favorite validation failed"), after_ids (body req) w).
Proof.
  intros req w u Hu Hbad.
  pose proof (product_key_not_empty (body req) (oid_counter w)) as Hkey.
  unfold acceptable in Hbad.
  unfold favoriteController.addFavorite_insert, bind, req_user_id, after_ids, product_key in *.
  rewrite Hu. cbn [ret].
  destruct (Js.truthy_str (product_id (body req))); cbn [ret bind new_ObjectId];
    unfold Favorite.new_Favorite, Favorite.save, bind, new_ObjectId, Date_now, ret, throw;
    cbn [clock with_oid_counter oid_counter favorites FavoriteDoc.i_addedAt];
    unfold Favorite.validate; cbn [FavoriteDoc.d_productId FavoriteDoc.d_productName
      FavoriteDoc.d_brandName FavoriteDoc.d_price FavoriteDoc.d_originalPrice
      FavoriteDoc.d_similarity FavoriteDoc.i_productId FavoriteDoc.i_productName
      FavoriteDoc.i_brandName FavoriteDoc.i_price FavoriteDoc.i_similarity option_map
      Favorite.required_str];
    rewrite Hkey;
    destruct (String.eqb (Js.trim (Js.or_str (product_name (body req)) "Nom inconnu")) "");
    destruct (String.eqb (Js.trim (Js.or_str (brand_name (body req)) "Marque inconnue")) "");
    destruct (Favorite.min0 (Js.or_num (price (body req)) 0));
    destruct (Favorite.min0 (Js.or_num (similarity (body req)) 0));
    destruct (Qle_bool (Js.or_num (similarity (body req)) 0) 1);
    cbn in Hbad |- *; try discriminate; reflexivity.
Qed.

(** A 201 from [addFavorite] means: the name pre-check found nothing, the
    payload passed the schema, the key was new, and the candidate document
    was appended. *)
Lemma addFavorite_created : forall req w u r w',
    user req = Some u ->
    favoriteController.addFavorite req w = (Ok r, w') ->
    status r = 201 ->
    List.find (Favorite.by_user_and_name (User.id u) (product_name (body req)))
      (favorites w) = None
    /\ acceptable (body req) = true
    /\ existsb (Favorite.same_key (candidate (User.id u) (body req) w)) (favorites w) = false
    /\ r = respond 201 (FavoriteDoc.toJSON (candidate (User.id u) (body req) w))
    /\ w' = with_favorites (favorites w ++ [candidate (User.id u) (body req) w])
              (after_ids (body req) w).
Proof.
  intros req w u r w' Hu Hrun Hst.
  unfold favoriteController.addFavorite, try_catch, bind in Hrun.
  rewrite (addFavorite_lookup_spec req w u Hu) in Hrun.
  destruct (List.find _ (favorites w)) as [g |] eqn:Hfind.
  - inversion Hrun; subst. discriminate.
  - destruct (acceptable (body req)) eqn:Hok.
    + rewrite (addFavorite_insert_spec req w u Hu Hok) in Hrun.
      destruct (existsb _ (favorites w)) eqn:E.
      * inversion Hrun; subst. discriminate.
      * inversion Hrun; subst. auto.
    + rewrite (addFavorite_insert_rejects req w u Hu Hok) in Hrun.
      inversion Hrun; subst. discriminate.
Qed.

Lemma without_fresh_id : forall oid fs,
    Forall (fun g => FavoriteDoc._id g <> oid) fs -> without_id oid fs = fs.
Proof.
  intros oid fs H. unfold without_id.
  induction H as [| g r Hg _ IH]; cbn; [reflexivity |].
  apply N.eqb_neq in Hg. rewrite Hg. cbn. now rewrite IH.
Qed.

Lemma find_fresh_id : forall oid fs,
    Forall (fun g => FavoriteDoc._id g <> oid) fs -> List.find (has_id oid) fs = None.
Proof.
  intros oid fs H. induction H as [| g r Hg _ IH]; cbn; [reflexivity |].
  unfold has_id at 1. apply N.eqb_neq in Hg. now rewrite Hg.
Qed.

Lemma candidate_id : forall uid b w,
    oid_counter w <= FavoriteDoc._id (candidate uid b w)
    /\ FavoriteDoc._id (candidate uid b w) <= oid_counter w + 1.
Proof.
  intros uid b w. unfold candidate, stored_favorite. cbn.
  destruct (Js.truthy_str (product_id b)); lia.
Qed.

(** X3: the [_id] in the body of a 201 is the handle to remove that
    favorite: while ids are drawn from the generator and the generator is
    within the 12-byte range, [DELETE /api/favorites/<that _id>] by the
    same owner answers 200 and puts the collection back as it was before
    the add. *)
Theorem added_favorite_is_removed_by_its_id :
  forall (req : Req) (w w' : World) (u : User.safe) (r : Response),
    user req = Some u ->
    ids_drawn w ->
    oid_counter w + 1 < oid_bound ->
    favoriteController.addFavorite req w = (Ok r, w') ->
    status r = 201 ->
    exists f idstr,
      r = respond 201 (FavoriteDoc.toJSON f)
      /\ Js.get "_id" (FavoriteDoc.toJSON f) = Some (JStr idstr)
      /\ In f (favorites w')
      /\ favoriteController.deleteFavorite (with_param (Some idstr) req) w'
         = (Ok favoriteController.favorite_removed, with_favorites (favorites w) w').
Proof.
  intros req w w' u r Hu Hids Hbound Hrun Hst.
  destruct (addFavorite_created req w u r w' Hu Hrun Hst) as [_ [_ [_ [-> ->]]]].
  set (f := candidate (User.id u) (body req) w).
  destruct (candidate_id (User.id u) (body req) w) as [Hlo Hhi]. fold f in Hlo, Hhi.
  assert (Hfresh : Forall (fun g => FavoriteDoc._id g <> FavoriteDoc._id f) (favorites w)).
  { unfold ids_drawn in Hids. rewrite Forall_forall in *. intros g Hg.
    specialize (Hids g Hg). cbn beta in Hids. lia. }
  exists f, (oid_toString (FavoriteDoc._id f)).
  split; [reflexivity | split; [reflexivity | split]].
  - cbn [favorites with_favorites]. apply in_or_app. right. now left.
  - rewrite (deleteFavorite_cases _ _ (oid_toString (FavoriteDoc._id f)) (FavoriteDoc._id f));
      [| reflexivity | apply castObjectId_toString; lia].
    cbn [favorites with_favorites user with_param].
    rewrite find_app_last, (find_fresh_id _ _ Hfresh).
    unfold has_id at 1. rewrite N.eqb_refl, Hu.
    replace (FavoriteDoc.userId f =? User.id u) with true
      by (symmetry; apply N.eqb_refl).
    f_equal. unfold without_id. rewrite filter_app.
    fold (without_id (FavoriteDoc._id f) (favorites w)).
    rewrite (without_fresh_id _ _ Hfresh). cbn [List.filter].
    rewrite N.eqb_refl. cbn [negb]. rewrite app_nil_r.
    destruct w; reflexivity.
Qed.

Lemma stocked_ids_drawn : ids_drawn sample.stocked.
Proof. unfold ids_drawn. cbn. repeat constructor; cbn; lia. Qed.

Lemma added_favorite_is_removed_by_its_id_witness :
  exists f idstr,
    respond 201 (FavoriteDoc.toJSON
                   (candidate 1 (sample.product "Mist" (Some "p-mist")) sample.stocked))
    = respond 201 (FavoriteDoc.toJSON f)
    /\ Js.get "_id" (FavoriteDoc.toJSON f) = Some (JStr idstr)
    /\ In f (favorites (snd (favoriteController.addFavorite
                               (sample.as_user sample.alice
                                  (sample.product "Mist" (Some "p-mist")) None)
                               sample.stocked)))
    /\ favoriteController.deleteFavorite
         (with_param (Some idstr)
            (sample.as_user sample.alice (sample.product "Mist" (Some "p-mist")) None))
         (snd (favoriteController.addFavorite
                 (sample.as_user sample.alice (sample.product "Mist" (Some "p-mist")) None)
                 sample.stocked))
       = (Ok favoriteController.favorite_removed,
          with_favorites (favorites sample.stocked)
            (snd (favoriteController.addFavorite
                    (sample.as_user sample.alice (sample.product "Mist" (Some "p-mist")) None)
                    sample.stocked))).
Proof.
  apply (added_favorite_is_removed_by_its_id
           (sample.as_user sample.alice (sample.product "Mist" (Some "p-mist")) None)
           sample.stocked _ (User.select_without_password sample.alice));
    [reflexivity | exact stocked_ids_drawn | reflexivity | reflexivity | reflexivity].
Defined.

(** ** Adding the same name again *)




(** ** What the stored favorites look like *)

Lemma admits_keeps : forall P A (m : M A), keeps_store m -> admits P m.
Proof. intros P A m H w f Hin. rewrite H in Hin. now left. Qed.

Lemma admits_bind : forall P A B (m : M A) (k : A -> M B),
    admits P m -> (forall a, admits P (k a)) -> admits P (bind m k).
Proof.
  intros P A B m k Hm Hk w f. unfold bind.
  specialize (Hm w f). destruct (m w) as [[a | e] w1]; cbn [snd] in *; [| exact Hm].
  intros Hin. destruct (Hk a w1 f Hin) as [H | H]; [now apply Hm | now right].
Qed.

Lemma admits_try : forall P A (m : M A) h,
    admits P m -> (forall e, keeps_store (h e)) -> admits P (try_catch m h).
Proof.
  intros P A m h Hm Hh w f. unfold try_catch.
  specialize (Hm w f). destruct (m w) as [[a | e] w1]; cbn [snd] in *; [exact Hm |].
  rewrite Hh. exact Hm.
Qed.

Lemma required_str_some : forall x s, Favorite.required_str x = Some s -> x = Some s /\ s <> "".
Proof.
  intros [y |] s H; cbn in H; [| discriminate].
  destruct (String.eqb y "") eqn:E; [discriminate |].
  inversion H; subst. split; [reflexivity | now apply String.eqb_neq].
Qed.

Lemma validate_fields : forall d now f,
    Favorite.validate d now = Some f ->
    schema_ok f
    /\ FavoriteDoc.originalPrice f = FavoriteDoc.d_originalPrice d
    /\ FavoriteDoc.source f = FavoriteDoc.d_source d
    /\ FavoriteDoc.userId f = FavoriteDoc.d_userId d
    /\ match FavoriteDoc.originalPrice f with
       | Some o => (0 <= o)%Q
       | None => True
       end.
Proof.
  intros d now f H. unfold Favorite.validate in H.
  destruct (Favorite.required_str (FavoriteDoc.d_productId d)) as [pid |] eqn:E1; [| discriminate].
  destruct (Favorite.required_str (FavoriteDoc.d_productName d)) as [pn |] eqn:E2; [| discriminate].
  destruct (Favorite.required_str (FavoriteDoc.d_brandName d)) as [bn |] eqn:E3; [| discriminate].
  destruct (FavoriteDoc.d_price d) as [p |]; [| discriminate].
  destruct (Favorite.min0 p && _ && _ && _) eqn:E; [| discriminate].
  apply andb_prop in E as [E Hs1]. apply andb_prop in E as [E Hs0].
  apply andb_prop in E as [Hp Ho].
  apply required_str_some in E1 as [_ E1], E2 as [_ E2], E3 as [_ E3].
  unfold Favorite.min0 in *. apply Qle_bool_iff in Hp, Hs0, Hs1.
  inversion H; subst; cbn. unfold schema_ok; cbn.
  repeat split; auto.
  destruct (FavoriteDoc.d_originalPrice d); [now apply Qle_bool_iff in Ho | exact I].
Qed.

Lemma save_admits : forall d w f,
    In f (favorites (snd (Favorite.save d w))) ->
    In f (favorites w) \/ Favorite.validate d (clock w) = Some f.
Proof.
  intros d w f. unfold Favorite.save, bind, Date_now, throw.
  destruct (Favorite.validate d (clock w)) as [g |]; [| now left].
  destruct (existsb _ _); cbn; [now left |].
  intros Hin. apply in_app_or in Hin as [H | [<- | []]]; auto.
Qed.

Lemma admits_addFavorite_insert : forall req,
    admits made (favoriteController.addFavorite_insert req).
Proof.
  intros req w f. unfold favoriteController.addFavorite_insert, bind, req_user_id.
  destruct (user req) as [u |]; [| now left]. cbn [ret].
  destruct (Js.truthy_str (product_id (body req))); cbn [ret bind new_ObjectId];
    unfold Favorite.new_Favorite, bind, new_ObjectId, Date_now, ret;
    cbn [FavoriteDoc.i_addedAt];
    match goal with
    | |- context [Favorite.save ?d ?w'] =>
        pose proof (save_admits d w' f) as Hs;
        destruct (Favorite.save d w') as [[saved | e] w2]; cbn [fst snd] in *;
        intros Hin; destruct (Hs Hin) as [H | H]; [now left | right; exists d; eauto | now left
                                                   | right; exists d; eauto]
    end.
Qed.

Lemma admits_addFavorite : forall req, admits made (favoriteController.addFavorite req).
Proof.
  intros req. unfold favoriteController.addFavorite.
  apply admits_try; [| apply keeps_addFavorite_catch].
  apply admits_bind.
  - apply admits_keeps. unfold favoriteController.addFavorite_lookup. keeps.
  - intros [g |]; [apply admits_keeps; keeps | apply admits_addFavorite_insert].
Qed.

Lemma admits_addToFavorites : forall req, admits made (analysisController.addToFavorites req).
Proof.
  intros req. unfold analysisController.addToFavorites.
  apply admits_try; [| intros; keeps].
  destruct (userId req) as [uid |]; [| apply admits_keeps; keeps].
  apply admits_bind; [apply admits_keeps; keeps |].
  intros [g |]; [apply admits_keeps; keeps |].
  intros w f. unfold Favorite.new_Favorite, bind, Date_now, new_ObjectId, ret.
  cbn [FavoriteDoc.i_addedAt].
  match goal with
  | |- context [Favorite.save ?d ?w'] =>
      pose proof (save_admits d w' f) as Hs;
      destruct (Favorite.save d w') as [[saved | e] w2]; cbn [fst snd] in *;
      intros Hin; destruct (Hs Hin) as [H | H]; [now left | right; exists d; eauto | now left
                                                 | right; exists d; eauto]
  end.
Qed.

Lemma admits_tame_removal : forall P A (m : M A),
    (forall w, favorites (snd (m w)) = favorites w
               \/ (exists p, favorites (snd (m w)) = List.filter p (favorites w))
               \/ exists p, favorites (snd (m w)) = Favorite.remove_first p (favorites w)) ->
    admits P m.
Proof.
  intros P A m H w f Hin. left.
  destruct (H w) as [E | [[p E] | [p E]]]; rewrite E in Hin.
  - exact Hin.
  - now apply filter_In in Hin.
  - now apply in_remove_first in Hin.
Qed.

Lemma deleteFavorite_store : forall req w,
    favorites (snd (favoriteController.deleteFavorite req w)) = favorites w
    \/ exists g u,
        In g (favorites w) /\ user req = Some u /\ FavoriteDoc.userId g = User.id u
        /\ favorites (snd (favoriteController.deleteFavorite req w))
           = without_id (FavoriteDoc._id g) (favorites w).
Proof.
  intros req w. unfold favoriteController.deleteFavorite, try_catch, bind.
  destruct (param req) as [id |]; [| now left].
  unfold Favorite.findById. destruct (Favorite.castObjectId id) as [oid |]; [| now left].
  unfold Favorite.findOne. destruct (List.find _ (favorites w)) as [g |] eqn:Hf; [| now left].
  unfold req_user_id. destruct (user req) as [u |]; [| now left].
  cbn. destruct (FavoriteDoc.userId g =? User.id u) eqn:E; cbn; [| now left].
  right. exists g, u. apply find_some in Hf as [Hin _]. apply N.eqb_eq in E. auto.
Qed.

Lemma admits_deleteFavorite : forall P req, admits P (favoriteController.deleteFavorite req).
Proof.
  intros P req. apply admits_tame_removal. intros w.
  destruct (deleteFavorite_store req w) as [E | [g [u [_ [_ [_ E]]]]]]; [now left |].
  right; left. eexists. exact E.
Qed.

Lemma admits_removeFromFavorites : forall P req,
    admits P (analysisController.removeFromFavorites req).
Proof.
  intros P req. apply admits_tame_removal. intros w.
  unfold analysisController.removeFromFavorites, try_catch, bind.
  destruct (userId req) as [uid |]; [| now left].
  right; right. eexists. reflexivity.
Qed.

Lemma admits_protect : forall P next req,
    (forall r, admits P (next r)) -> admits P (authMiddleware.protect next req).
Proof.
  intros P next req Hnext w f.
  destruct (protect_cases next req w) as [E | [E | [token [id [_ [_ E]]]]]]; rewrite E.
  - now left.
  - now left.
  - apply Hnext.
Qed.

Lemma admits_upload_single : forall P next req,
    (forall r, admits P (next r)) -> admits P (server.upload_single next req).
Proof.
  intros P next req Hnext. unfold server.upload_single.
  destruct (multipart req) as [g |]; [| apply Hnext].
  destruct (_ <? _); [apply admits_keeps; keeps | apply Hnext].
Qed.

Lemma admits_routes : forall routes r req,
    In routes (map snd server.mounted) -> In r routes ->
    admits made (server.route_handler r req).
Proof.
  intros routes r req Hm Hr. cbn in Hm.
  destruct Hm as [<- | [<- | [<- | []]]]; cbn in Hr;
    repeat (destruct Hr as [<- | Hr]; [cbn [server.route_handler] |]);
    try contradiction;
    auto using admits_keeps, keeps_getDupes, keeps_getSentiment, keeps_scanImage,
      keeps_getQualityAnalysis, keeps_getFavorites, keeps_getMyFavorites, keeps_deleteUser,
      admits_addToFavorites, admits_removeFromFavorites, admits_upload_single, admits_protect,
      admits_addFavorite, admits_deleteFavorite, keeps_ret.
Qed.

Lemma app_admits : forall h w f,
    In f (favorites (snd (server.app h w))) -> In f (favorites w) \/ made f.
Proof.
  intros h w f. unfold server.app.
  destruct (server.through server.mounted h) as [handler |] eqn:T.
  - destruct (through_route _ _ _ T) as [routes [r [req [Hm [Hr ->]]]]].
    pose proof (admits_routes routes r req Hm Hr w f) as Ha.
    destruct (server.route_handler r req w) as [[response | e] w']; exact Ha.
  - destruct (server.method h), (server.path h); now left.
Qed.

Lemma reachable_made : forall w, reachable w -> Forall made (favorites w).
Proof.
  induction 1 as [w H0 | w w' _ IH Hsame | w h _ IH].
  - rewrite H0. constructor.
  - now rewrite Hsame.
  - apply Forall_forall. intros f Hin. rewrite Forall_forall in IH.
    destruct (app_admits h w f Hin) as [H | H]; [now apply IH | exact H].
Qed.

(** X5: in every reachable world, every stored favorite satisfies the
    schema's constraints: product id, product name and brand name are
    non-empty, the price is not negative and the similarity lies in
    [0, 1]. *)
Theorem reachable_favorites_satisfy_schema :
  forall (w : World) (f : FavoriteDoc.doc),
    reachable w -> In f (favorites w) -> schema_ok f.
Proof.
  intros w f Hreach Hin.
  pose proof (reachable_made w Hreach) as Hm. rewrite Forall_forall in Hm.
  destruct (Hm f Hin) as [d [now [Hv _]]].
  now apply validate_fields in Hv.
Qed.

Lemma reachable_favorites_satisfy_schema_witness :
  schema_ok (hd sample.serum (favorites sample.three_adds)).
Proof.
  apply (reachable_favorites_satisfy_schema sample.three_adds
           (hd sample.serum (favorites sample.three_adds)) three_adds_reachable).
  vm_compute. now left.
Defined.

(** X6: no favorite stored through the server has an [originalPrice]:
    in every reachable world every favorite has source [dupe_finder], no
    original price, and therefore reports savings 0. *)
Theorem reachable_favorites_report_no_savings :
  forall (w : World) (f : FavoriteDoc.doc),
    reachable w -> In f (favorites w) ->
    FavoriteDoc.originalPrice f = None
    /\ FavoriteDoc.source f = FavoriteDoc.dupe_finder
    /\ FavoriteVirtuals.savings f = 0%Q.
Proof.
  intros w f Hreach Hin.
  pose proof (reachable_made w Hreach) as Hm. rewrite Forall_forall in Hm.
  destruct (Hm f Hin) as [d [now [Hv [Ho Hs]]]].
  apply validate_fields in Hv as [_ [Ho' [Hs' _]]].
  rewrite Ho in Ho'. rewrite Hs in Hs'.
  split; [exact Ho' | split; [exact Hs' |]].
  unfold FavoriteVirtuals.savings. now rewrite Ho'.
Qed.

Lemma reachable_favorites_report_no_savings_witness :
  FavoriteDoc.originalPrice (hd sample.serum (favorites sample.three_adds)) = None
  /\ FavoriteDoc.source (hd sample.serum (favorites sample.three_adds)) = FavoriteDoc.dupe_finder
  /\ FavoriteVirtuals.savings (hd sample.serum (favorites sample.three_adds)) = 0%Q.
Proof.
  apply (reachable_favorites_report_no_savings sample.three_adds
           (hd sample.serum (favorites sample.three_adds)) three_adds_reachable).
  vm_compute. now left.
Defined.

(** X7: on a document that passed the schema, [savings] is never
    negative; with an original price it is at most that price and it is
    positive exactly when the original price exceeds the price; without
    one it is 0. *)
Theorem savings_bounds :
  forall (d : FavoriteDoc.draft) (now : N) (f : FavoriteDoc.doc),
    Favorite.validate d now = Some f ->
    (0 <= FavoriteVirtuals.savings f)%Q
    /\ match FavoriteDoc.originalPrice f with
       | Some o =>
           (FavoriteVirtuals.savings f <= o)%Q
           /\ ((0 < FavoriteVirtuals.savings f)%Q <-> (FavoriteDoc.price f < o)%Q)
       | None => FavoriteVirtuals.savings f = 0%Q
       end.
Proof.
  intros d now f Hv.
  apply validate_fields in Hv as [[_ [_ [_ [Hp _]]]] [_ [_ [_ Ho]]]].
  unfold FavoriteVirtuals.savings.
  destruct (FavoriteDoc.originalPrice f) as [o |]; [| split; [lra | reflexivity]].
  destruct (Qeq_bool o 0) eqn:Ez; cbn [negb andb].
  - apply Qeq_bool_iff in Ez. split; [lra | split; [lra | split; lra]].
  - destruct (Qle_bool o (FavoriteDoc.price f)) eqn:El; cbn [negb].
    + apply Qle_bool_iff in El. split; [lra | split; [lra | split; lra]].
    + assert (FavoriteDoc.price f < o)%Q as Hlt.
      { apply Qnot_le_lt. intros H. apply Qle_bool_iff in H. congruence. }
      split; [lra | split; [lra | split; [intros _; exact Hlt | intros _; lra]]].
Qed.

Lemma savings_bounds_witness :
  exists f,
    Favorite.validate (priced_draft (20 # 1) (40 # 1)) 700 = Some f
    /\ FavoriteVirtuals.savings f = ((40 # 1) - (20 # 1))%Q
    /\ (0 <= FavoriteVirtuals.savings f)%Q
    /\ match FavoriteDoc.originalPrice f with
       | Some o =>
           (FavoriteVirtuals.savings f <= o)%Q
           /\ ((0 < FavoriteVirtuals.savings f)%Q <-> (FavoriteDoc.price f < o)%Q)
       | None => FavoriteVirtuals.savings f = 0%Q
       end.
Proof.
  eexists. split; [reflexivity | split; [reflexivity |]].
  apply (savings_bounds (priced_draft (20 # 1) (40 # 1)) 700). reflexivity.
Defined.

(** ** Whose favorites a request can touch *)

Lemma dispatch_at : forall routes h segments handler,
    server.dispatch routes h segments = Some handler ->
    exists r captured,
      In r routes /\ handler = server.route_handler r (with_param captured (server.incoming h)).
Proof.
  induction routes as [| r rest IH]; intros h segments handler H; cbn in H; [discriminate |].
  destruct (server.method_eqb _ _).
  - destruct (server.match_pattern _ _ _) as [captured |].
    + inversion H; subst. exists r, captured. split; [now left | reflexivity].
    + destruct (IH _ _ _ H) as [r' [c [Hin ->]]]. exists r', c. split; [now right | reflexivity].
  - destruct (IH _ _ _ H) as [r' [c [Hin ->]]]. exists r', c. split; [now right | reflexivity].
Qed.

Lemma through_at : forall mounts h handler,
    server.through mounts h = Some handler ->
    exists routes r captured,
      In routes (map snd mounts) /\ In r routes
      /\ handler = server.route_handler r (with_param captured (server.incoming h)).
Proof.
  induction mounts as [| [prefix routes] rest IH]; intros h handler H; cbn in H; [discriminate |].
  assert (Hrest : server.through rest h = Some handler ->
                  exists routes0 r captured,
                    In routes0 (map snd ((prefix, routes) :: rest)) /\ In r routes0
                    /\ handler
                       = server.route_handler r (with_param captured (server.incoming h))).
  { intros H'. destruct (IH _ _ H') as [routes0 [r [c [Hm [Hr ->]]]]].
    exists routes0, r, c. split; [now right | now split]. }
  destruct (server.strip_prefix prefix (server.path h)) as [segments |]; [| now apply Hrest].
  destruct (server.dispatch routes h segments) as [m |] eqn:D; [| now apply Hrest].
  inversion H; subst. destruct (dispatch_at _ _ _ _ D) as [r [c [Hr ->]]].
  exists routes, r, c. split; [now left | now split].
Qed.

Lemma addFavorite_store : forall req w,
    favorites (snd (favoriteController.addFavorite req w)) = favorites w
    \/ exists u,
        user req = Some u
        /\ favorites (snd (favoriteController.addFavorite req w))
           = (favorites w ++ [candidate (User.id u) (body req) w])%list.
Proof.
  intros req w. destruct (user req) as [u |] eqn:Hu.
  - unfold favoriteController.addFavorite, try_catch, bind.
    rewrite (addFavorite_lookup_spec req w u Hu).
    destruct (List.find _ (favorites w)); [now left |].
    destruct (acceptable (body req)) eqn:Hok.
    + rewrite (addFavorite_insert_spec req w u Hu Hok).
      destruct (existsb _ _); cbn.
      * left. apply favorites_after_ids.
      * right. exists u. split; reflexivity.
    + rewrite (addFavorite_insert_rejects req w u Hu Hok). cbn.
      left. apply favorites_after_ids.
  - left. unfold favoriteController.addFavorite, try_catch, bind,
      favoriteController.addFavorite_lookup, req_user_id.
    rewrite Hu. reflexivity.
Qed.

Lemma same_id_same_doc : forall fs (f g : FavoriteDoc.doc),
    NoDup (map FavoriteDoc._id fs) -> In f fs -> In g fs ->
    FavoriteDoc._id f = FavoriteDoc._id g -> f = g.
Proof.
  induction fs as [| x r IH]; intros f g Hnd Hf Hg Hid; [contradiction |].
  cbn in Hnd. apply NoDup_cons_iff in Hnd as [Hnew Hr].
  destruct Hf as [<- | Hf], Hg as [<- | Hg]; auto.
  - exfalso. apply Hnew. rewrite Hid. now apply in_map.
  - exfalso. apply Hnew. rewrite <- Hid. now apply in_map.
Qed.

Lemma userId_with_param : forall c req, userId (with_param c req) = userId req.
Proof. reflexivity. Qed.

Lemma addToFavorites_anonymous : forall req w,
    userId req = None -> snd (analysisController.addToFavorites req w) = w.
Proof.
  intros req w H. unfold analysisController.addToFavorites, try_catch. now rewrite H.
Qed.

Lemma removeFromFavorites_anonymous : forall req w,
    userId req = None -> snd (analysisController.removeFromFavorites req w) = w.
Proof.
  intros req w H. unfold analysisController.removeFromFavorites, try_catch. now rewrite H.
Qed.

Lemma presents_with_param : forall c req token,
    presents (with_param c req) token -> presents req token.
Proof. intros c req token [header H]. exists header. exact H. Qed.

(** X8: a request changes the favorites of nobody but the identity its
    bearer token verifies to.  In a collection with distinct [_id]s, for
    every request and every favorite [f]: either [f] is stored after the
    request exactly if it was stored before, or the request presented a
    token that [jwt.verify] maps to the owner of [f]. *)
Theorem request_touches_only_the_callers_favorites :
  forall (h : server.HttpRequest) (w : World) (f : FavoriteDoc.doc),
    NoDup (map FavoriteDoc._id (favorites w)) ->
    (In f (favorites w) <-> In f (favorites (snd (server.app h w))))
    \/ exists token id,
        presents (server.incoming h) token
        /\ jwt_verify w token = Some id
        /\ FavoriteDoc.userId f = id.
Proof.
  intros h w f Hnd.
  assert (Hsame : forall w', favorites w' = favorites w ->
                             In f (favorites w) <-> In f (favorites w')).
  { intros w' E. now rewrite E. }
  unfold server.app.
  destruct (server.through server.mounted h) as [handler |] eqn:T;
    [| left; destruct (server.method h), (server.path h); reflexivity].
  destruct (through_at _ _ _ T) as [routes [r [c [Hm [Hr ->]]]]].
  set (req := with_param c (server.incoming h)).
  assert (Hanon : userId req = None) by reflexivity.
  assert (Hkeep : forall m : M Response,
             keeps_store m ->
             In f (favorites w)
             <-> In f (favorites (snd (let (res, w') := m w in
                                       match res with
                                       | Ok response => (response, w')
                                       | Throw e => (server.default_error_handler e, w')
                                       end)))).
  { intros m Hk. specialize (Hk w). destruct (m w) as [[response | e] w']; cbn [snd] in *;
      now rewrite Hk. }
  assert (Hprot : forall next : Req -> M Response,
             (forall r0, user r0 = None -> keeps_store (next r0)) ->
             (forall r0 u, user r0 = Some u -> body r0 = body req -> param r0 = param req ->
                           (In f (favorites w) <-> In f (favorites (snd (next r0 w))))
                           \/ FavoriteDoc.userId f = User.id u) ->
             (In f (favorites w)
              <-> In f (favorites (snd (let (res, w') := authMiddleware.protect next req w in
                                        match res with
                                        | Ok response => (response, w')
                                        | Throw e => (server.default_error_handler e, w')
                                        end))))
             \/ exists token id,
                 presents (server.incoming h) token
                 /\ jwt_verify w token = Some id /\ FavoriteDoc.userId f = id).
  { intros next Hnone Hsome.
    destruct (protect_cases next req w) as [E | [E | [token [id [Hp [Hv E]]]]]]; rewrite E.
    - left. reflexivity.
    - left. reflexivity.
    - destruct (identity w id) as [u |] eqn:Hi.
      + assert (User.id u = id) as Hid.
        { unfold identity in Hi. destruct (List.find _ (users w)) as [x |] eqn:Hx; [| discriminate].
          apply find_some in Hx as [_ Hx]. apply N.eqb_eq in Hx.
          inversion Hi as [Hsel]. rewrite <- Hx. reflexivity. }
        destruct (Hsome (with_user (Some u) req) u eq_refl eq_refl eq_refl) as [Hiff | Hown].
        * left. destruct (next (with_user (Some u) req) w) as [[response | e] w'];
            cbn [snd] in *; exact Hiff.
        * right. exists token, id. split; [now apply (presents_with_param c) |].
          split; [exact Hv | now rewrite Hown].
      + left. specialize (Hnone (with_user None req) eq_refl w).
        destruct (next (with_user None req) w) as [[response | e] w']; cbn [snd] in *;
          now rewrite Hnone. }
  cbn in Hm. destruct Hm as [<- | [<- | [<- | []]]]; cbn in Hr;
    repeat (destruct Hr as [<- | Hr]; [cbn [server.route_handler] |]); try contradiction.
  - left. apply Hkeep, keeps_getDupes.
  - left. apply Hkeep, keeps_getSentiment.
  - left. apply Hkeep. unfold server.upload_single.
    destruct (multipart req) as [g |]; [| apply keeps_scanImage].
    destruct (_ <? _); [keeps | apply keeps_scanImage].
  - left. apply Hkeep, keeps_getQualityAnalysis.
  - left. apply Hkeep. intros w0. now rewrite (addToFavorites_anonymous req w0 Hanon).
  - left. apply Hkeep, keeps_getFavorites.
  - left. apply Hkeep. intros w0. now rewrite (removeFromFavorites_anonymous req w0 Hanon).
  - left. apply Hkeep. keeps.
  - apply Hprot.
    + intros r0 H0 w0. destruct (addFavorite_store r0 w0) as [E | [u [Hu _]]]; [exact E |].
      congruence.
    + intros r0 u Hu _ _. destruct (addFavorite_store r0 w) as [E | [u' [Hu' E]]].
      * left. now rewrite E.
      * assert (u' = u) by congruence. subst u'.
        destruct (N.eq_dec (FavoriteDoc.userId f) (User.id u)) as [Hown | Hother];
          [now right | left].
        rewrite E. split; [intros; apply in_or_app; now left |].
        intros Hin. apply in_app_or in Hin as [Hin | [<- | []]]; [exact Hin |].
        exfalso. apply Hother. reflexivity.
  - apply Hprot.
    + intros r0 _. apply keeps_getMyFavorites.
    + intros r0 u _ _ _. left. now rewrite keeps_getMyFavorites.
  - apply Hprot.
    + intros r0 H0 w0. destruct (deleteFavorite_store r0 w0) as [E | [g [u [_ [Hu _]]]]];
        [exact E | congruence].
    + intros r0 u Hu _ _. destruct (deleteFavorite_store r0 w) as [E | [g [u' [Hg [Hu' [Hown E]]]]]].
      * left. now rewrite E.
      * assert (u' = u) by congruence. subst u'.
        destruct (N.eq_dec (FavoriteDoc.userId f) (User.id u)) as [Hmine | Hother];
          [now right | left].
        rewrite E. unfold without_id. rewrite filter_In. split; [| tauto].
        intros Hin. split; [exact Hin |].
        apply negb_true_iff, N.eqb_neq. intros Hid.
        apply Hother. rewrite <- Hown. f_equal.
        exact (same_id_same_doc _ f g Hnd Hin Hg Hid).
  - apply Hprot.
    + intros r0 _. apply keeps_deleteUser.
    + intros r0 u _ _ _. left. now rewrite keeps_deleteUser.
Qed.

Lemma stocked_ids_distinct : NoDup (map FavoriteDoc._id (favorites sample.stocked)).
Proof. cbn. repeat constructor; cbn; intuition discriminate. Qed.

Lemma request_touches_only_the_callers_favorites_witness :
  (In sample.serum (favorites sample.stocked)
   <-> In sample.serum
         (favorites (snd (server.app
                            (server.mkHttp server.DELETE ["api"; "favorites"; sample.oid_7]
                               (Some "Bearer tok-bob") empty_body None)
                            sample.stocked))))
  \/ exists token id,
      presents (server.incoming
                  (server.mkHttp server.DELETE ["api"; "favorites"; sample.oid_7]
                     (Some "Bearer tok-bob") empty_body None)) token
      /\ jwt_verify sample.stocked token = Some id
      /\ FavoriteDoc.userId sample.serum = id.
Proof.
  apply (request_touches_only_the_callers_favorites
           (server.mkHttp server.DELETE ["api"; "favorites"; sample.oid_7]
              (Some "Bearer tok-bob") empty_body None)
           sample.stocked sample.serum).
  exact stocked_ids_distinct.
Defined.

(** ** Racing adds that carry no product id *)










(** ** The duplicate search once the engine has answered *)

Lemma prop_not_null : forall k o,
    o <> JNull -> analysisController.prop k o = ret (Js.get k o).
Proof. intros k [] H; try reflexivity. contradiction. Qed.

Lemma read_reply_value : forall property data,
    data <> JNull -> nlpService.read_reply property (inl data) = inl data.
Proof. intros property [] H; try reflexivity. contradiction. Qed.

Lemma spread_with_is_object : forall p k v, exists fields, Js.spread_with p k v = JObj fields.
Proof.
  intros p k v. unfold Js.spread_with. destruct p; eauto.
  destruct (Js.assoc k fields); eauto.
Qed.

Lemma mark_favorites_value : forall req results w,
    results <> JNull ->
    exists marked,
      analysisController.mark_favorites req results w = (Ok marked, w)
      /\ marked <> JNull
      /\ (userId req = None -> marked = results).
Proof.
  intros req results w Hnn.
  pose proof (reads_only_mark_favorites req results w) as Hw.
  destruct (analysisController.mark_favorites req results w) as [res w'] eqn:E.
  cbn [snd] in Hw. subst w'.
  unfold analysisController.mark_favorites in E.
  destruct (userId req) as [uid |];
    [| inversion E; subst; exists results; auto].
  rewrite (prop_not_null _ _ Hnn) in E. unfold bind at 1 in E. cbn [ret] in E.
  destruct (negb (Js.truthy (Js.get "results" results)));
    [inversion E; subst; exists results; split; [reflexivity | split; [exact Hnn | discriminate]] |].
  unfold try_catch in E.
  match type of E with
  | context [match ?m w with _ => _ end] => destruct (m w) as [[marked | e] w1] eqn:E2
  end.
  - inversion E; subst. exists marked. split; [reflexivity | split; [| discriminate]].
    unfold bind, Favorite.find in E2.
    destruct (Js.get "results" results) as [[] |]; try discriminate.
    destruct (analysisController.map_annotate _ _ _) as [[items' | e] w2]; [| discriminate].
    inversion E2; subst.
    destruct (spread_with_is_object results "results" (JArr items')) as [fields ->].
    discriminate.
  - inversion E; subst. exists results. split; [reflexivity | split; [exact Hnn | discriminate]].
Qed.

(** X10: once the engine has answered the search with anything but
    [null], [getDupes] answers 200 with a count and a list, whoever asks
    and whatever the favorites lookup does; for a request without
    [req.userId] these are the reply's [count] and [results] themselves
    (0 and the empty list when absent or falsy). *)
Theorem getDupes_answers_200_when_engine_replies :
  forall (req : Req) (w : World) (ingr : string) (data : json),
    ingredients (body req) = Some ingr ->
    5 <= Js.length (Js.trim ingr) ->
    engine w (Engine.PostFindDupes (dupes_payload (body req) ingr)) = Engine.Resolved data ->
    data <> JNull ->
    exists count items,
      analysisController.getDupes req w
      = (Ok (respond 200 (dupes_found count items)),
         with_outbox (outbox w ++ [Engine.PostFindDupes (dupes_payload (body req) ingr)]) w)
      /\ (userId req = None ->
          count = or_json (Js.get "count" data) (JNum 0)
          /\ items = or_json (Js.get "results" data) (JArr [])).
Proof.
  intros req w ingr data Hsome Hlong Hup Hnn.
  unfold analysisController.getDupes, try_catch. rewrite Hsome.
  assert (Hne : String.eqb ingr "" = false).
  { destruct ingr; [| reflexivity]. cbn in Hlong. lia. }
  apply N.ltb_ge in Hlong. rewrite Hne, Hlong. cbn [orb].
  unfold bind at 1. unfold nlpService.findDupes, bind at 1, nlpService.post, axios.
  fold (dupes_payload (body req) ingr). rewrite Hup.
  rewrite (read_reply_value "count" data Hnn). cbn [ret].
  set (w1 := with_outbox _ w).
  destruct (mark_favorites_value req data w1 Hnn) as [marked [Hm [Hmn Hanon]]].
  unfold bind at 1. rewrite Hm.
  rewrite !(prop_not_null _ _ Hmn). unfold bind, ret.
  exists (or_json (Js.get "count" marked) (JNum 0)),
    (or_json (Js.get "results" marked) (JArr [])).
  split; [reflexivity |].
  intros Hu. rewrite (Hanon Hu). split; reflexivity.
Qed.

Lemma getDupes_answers_200_when_engine_replies_witness :
  exists count items,
    analysisController.getDupes (sample.anonymous (sample.with_ingredients "aqua, glycerin"))
      (sample.world sample.engine_up)
    = (Ok (respond 200 (dupes_found count items)),
       with_outbox
         (outbox (sample.world sample.engine_up)
          ++ [Engine.PostFindDupes
                (dupes_payload (sample.with_ingredients "aqua, glycerin") "aqua, glycerin")])
         (sample.world sample.engine_up))
    /\ (userId (sample.anonymous (sample.with_ingredients "aqua, glycerin")) = None ->
        count = or_json (Js.get "count" (JObj [("count", JNum 0); ("results", JArr [])])) (JNum 0)
        /\ items = or_json (Js.get "results" (JObj [("count", JNum 0); ("results", JArr [])]))
                     (JArr [])).
Proof.
  apply (getDupes_answers_200_when_engine_replies
           (sample.anonymous (sample.with_ingredients "aqua, glycerin"))
           (sample.world sample.engine_up) "aqua, glycerin"
           (JObj [("count", JNum 0); ("results", JArr [])]));
    [reflexivity | vm_compute; discriminate | reflexivity | discriminate].
Defined.

(** ** The favourites cross-reference *)

Lemma assoc_replace_same : forall k v fs,
    Js.assoc k (map (fun kv => if String.eqb k (fst kv) then (fst kv, v) else kv) fs)
    = match Js.assoc k fs with Some _ => Some v | None => None end.
Proof.
  intros k v fs. induction fs as [| [k' x] r IH]; cbn; [reflexivity |].
  destruct (String.eqb k k') eqn:E; cbn; rewrite E; [reflexivity | exact IH].
Qed.

Lemma assoc_replace_other : forall k k' v fs,
    k' <> k ->
    Js.assoc k' (map (fun kv => if String.eqb k (fst kv) then (fst kv, v) else kv) fs)
    = Js.assoc k' fs.
Proof.
  intros k k' v fs Hne. induction fs as [| [k0 x] r IH]; cbn; [reflexivity |].
  destruct (String.eqb k k0) eqn:E; cbn.
  - apply String.eqb_eq in E. subst k0.
    apply String.eqb_neq in Hne. rewrite Hne. exact IH.
  - destruct (String.eqb k' k0); [reflexivity | exact IH].
Qed.

Lemma assoc_app_new : forall k k' v fs,
    Js.assoc k' (fs ++ [(k, v)])
    = match Js.assoc k' fs with
      | Some x => Some x
      | None => if String.eqb k' k then Some v else None
      end.
Proof.
  intros k k' v fs. induction fs as [| [k0 x] r IH]; cbn; [reflexivity |].
  destruct (String.eqb k' k0); [reflexivity | exact IH].
Qed.

Lemma spread_with_get_same : forall fs k v,
    Js.get k (Js.spread_with (JObj fs) k v) = Some v.
Proof.
  intros fs k v. unfold Js.spread_with.
  destruct (Js.assoc k fs) eqn:E; cbn.
  - now rewrite assoc_replace_same, E.
  - now rewrite assoc_app_new, E, String.eqb_refl.
Qed.

Lemma spread_with_get_other : forall fs k k' v,
    k' <> k -> Js.get k' (Js.spread_with (JObj fs) k v) = Js.assoc k' fs.
Proof.
  intros fs k k' v Hne. unfold Js.spread_with.
  destruct (Js.assoc k fs) eqn:E; cbn.
  - now apply assoc_replace_other.
  - rewrite assoc_app_new. apply String.eqb_neq in Hne. rewrite Hne.
    now destruct (Js.assoc k' fs).
Qed.

Lemma existsb_product_ids : forall uid s fs,
    existsb (String.eqb s) (map FavoriteDoc.productId (List.filter (Favorite.by_user uid) fs))
    = existsb (fun g => Favorite.by_user uid g && String.eqb s (FavoriteDoc.productId g)) fs.
Proof.
  intros uid s fs. induction fs as [| g r IH]; cbn; [reflexivity |].
  destruct (Favorite.by_user uid g); cbn; now rewrite IH.
Qed.

Lemma map_annotate_objects : forall uid w items,
    Forall (fun p => p <> JNull) items ->
    exists marked,
      analysisController.map_annotate
        (map FavoriteDoc.productId (List.filter (Favorite.by_user uid) (favorites w))) items w
      = (Ok marked, w)
      /\ Forall2 (fun p p' =>
                    Js.get "isFavorite" p' = Some (JBool (is_favorite_of uid w p))
                    /\ forall k, k <> "isFavorite" ->
                                 Js.get k p' = Js.assoc k (analysisController.own_fields p))
           items marked.
Proof.
  intros uid w items H. induction H as [| p r Hp _ [marked [IH F]]].
  - exists []. split; [reflexivity | constructor].
  - cbn [analysisController.map_annotate]. unfold bind at 1.
    unfold analysisController.annotate. rewrite (prop_not_null _ _ Hp).
    unfold bind at 1. cbn [ret]. unfold bind at 1. rewrite IH. cbn [ret].
    eexists. split; [reflexivity |]. constructor; [| exact F]. split.
    + rewrite spread_with_get_same. do 2 f_equal. unfold is_favorite_of.
      destruct (Js.get "product_id" p) as [[] |]; try reflexivity.
      apply existsb_product_ids.
    + intros k Hk. now apply spread_with_get_other.
Qed.

Lemma map_annotate_null : forall ids w items,
    In JNull items ->
    exists e, analysisController.map_annotate ids items w = (Throw e, w).
Proof.
  intros ids w items. induction items as [| p r IH]; intros Hin; [contradiction |].
  cbn [analysisController.map_annotate]. unfold bind at 1.
  pose proof (reads_only_bind _ _ (analysisController.prop "product_id" p)
                (fun product_id =>
                   ret (Js.spread_with (JObj (analysisController.own_fields p)) "isFavorite"
                          (JBool match product_id with
                                 | Some (JStr s) => existsb (String.eqb s) ids
                                 | _ => false
                                 end)))
                (reads_only_prop _ _) (fun a => reads_only_ret _ _) w) as Hw.
  fold (analysisController.annotate ids p) in Hw.
  destruct (analysisController.annotate ids p w) as [[p' | e] w1] eqn:E;
    cbn [snd] in Hw; subst w1; [| eauto].
  destruct Hin as [-> | Hin]; [discriminate |].
  destruct (IH Hin) as [e He]. unfold bind. rewrite He. eauto.
Qed.

(** X11: with [req.userId] set, the cross-reference of [getDupes] marks
    each product of the result list with [isFavorite], true exactly when
    its [product_id] is the product id of one of that user's favorites,
    and keeps the product's other properties; if the list holds a [null],
    the failure is swallowed and the results stay as the engine sent
    them. *)
Theorem mark_favorites_flags_the_callers_products :
  forall (req : Req) (uid : ObjectId) (w : World) (fields : list (string * json))
         (items : list json),
    userId req = Some uid ->
    Js.assoc "results" fields = Some (JArr items) ->
    (Forall (fun p => p <> JNull) items ->
     exists marked,
       analysisController.mark_favorites req (JObj fields) w
       = (Ok (Js.spread_with (JObj fields) "results" (JArr marked)), w)
       /\ Forall2 (fun p p' =>
                     Js.get "isFavorite" p' = Some (JBool (is_favorite_of uid w p))
                     /\ forall k, k <> "isFavorite" ->
                                  Js.get k p' = Js.assoc k (analysisController.own_fields p))
            items marked)
    /\ (In JNull items ->
        analysisController.mark_favorites req (JObj fields) w = (Ok (JObj fields), w)).
Proof.
  intros req uid w fields items Hu Hres.
  assert (Hstart :
             analysisController.mark_favorites req (JObj fields) w
             = try_catch
                 (bind (Favorite.find (Favorite.by_user uid))
                    (fun userFavorites =>
                       bind (analysisController.map_annotate
                               (map FavoriteDoc.productId userFavorites) items)
                         (fun items' =>
                            ret (Js.spread_with (JObj fields) "results" (JArr items')))))
                 (fun _ => ret (JObj fields)) w).
  { unfold analysisController.mark_favorites. rewrite Hu.
    unfold bind at 1. cbn [analysisController.prop ret Js.get]. rewrite Hres.
    reflexivity. }
  rewrite Hstart. split.
  - intros Hobj. destruct (map_annotate_objects uid w items Hobj) as [marked [Hm F]].
    exists marked. split; [| exact F].
    unfold try_catch, bind, Favorite.find. rewrite Hm. reflexivity.
  - intros Hnull.
    destruct (map_annotate_null
                (map FavoriteDoc.productId (List.filter (Favorite.by_user uid) (favorites w)))
                w items Hnull) as [e He].
    unfold try_catch, bind, Favorite.find. rewrite He. reflexivity.
Qed.

Lemma mark_favorites_flags_the_callers_products_witness :
  (exists marked,
      analysisController.mark_favorites (fixtures.with_userId 1 empty_body)
        (JObj (fixtures.reply [fixtures.serum_hit; fixtures.other_hit])) sample.stocked
      = (Ok (Js.spread_with (JObj (fixtures.reply [fixtures.serum_hit; fixtures.other_hit]))
               "results" (JArr marked)), sample.stocked)
      /\ Forall2 (fun p p' =>
                    Js.get "isFavorite" p' = Some (JBool (is_favorite_of 1 sample.stocked p))
                    /\ forall k, k <> "isFavorite" ->
                                 Js.get k p' = Js.assoc k (analysisController.own_fields p))
           [fixtures.serum_hit; fixtures.other_hit] marked)
  /\ analysisController.mark_favorites (fixtures.with_userId 1 empty_body)
       (JObj (fixtures.reply [fixtures.serum_hit; JNull])) sample.stocked
     = (Ok (JObj (fixtures.reply [fixtures.serum_hit; JNull])), sample.stocked).
Proof.
  split.
  - apply (proj1 (mark_favorites_flags_the_callers_products
                    (fixtures.with_userId 1 empty_body) 1 sample.stocked
                    (fixtures.reply [fixtures.serum_hit; fixtures.other_hit])
                    [fixtures.serum_hit; fixtures.other_hit] eq_refl eq_refl)).
    repeat constructor; discriminate.
  - apply (proj2 (mark_favorites_flags_the_callers_products
                    (fixtures.with_userId 1 empty_body) 1 sample.stocked
                    (fixtures.reply [fixtures.serum_hit; JNull])
                    [fixtures.serum_hit; JNull] eq_refl eq_refl)).
    right. now left.
Defined.

(** The flags of that example: Alice has [p-serum], not [p-other]. *)
Example serum_is_flagged :
  is_favorite_of 1 sample.stocked fixtures.serum_hit = true
  /\ is_favorite_of 1 sample.stocked fixtures.other_hit = false
  /\ is_favorite_of 2 sample.stocked fixtures.serum_hit = false.
Proof. repeat split. Qed.

(** ** Failures of the engine, as the handlers report them *)

(** X12: [getQualityAnalysis] answers 400 without calling the engine when
    [product_name] is missing or empty; otherwise it makes one quality
    call and answers 200 with the engine's reply, or, on any failure of
    the call, 500 with a fixed message that carries nothing of the
    engine's error. *)
Theorem getQualityAnalysis_outcomes :
  forall (req : Req) (w : World),
    (Js.truthy_str (product_name (body req)) = false ->
     analysisController.getQualityAnalysis req w
     = (Ok (respond 400 (analysisController.failure
                           "Le nom du produit est requis pour trouver sa note.")), w))
    /\ (forall n, product_name (body req) = Some n -> n <> "" ->
          exists response,
            analysisController.getQualityAnalysis req w
            = (Ok response,
               with_outbox
                 (outbox w ++ [Engine.PostQuality n (brand_name (body req))
                                 (ingredients (body req))]) w)
            /\ match engine w (Engine.PostQuality n (brand_name (body req))
                                 (ingredients (body req))) with
               | Engine.Resolved data =>
                   response = respond 200 (JObj [("success", JBool true); ("data", data)])
               | Engine.Rejected _ =>
                   response = respond 500 (analysisController.failure
                                             "Erreur lors de la récupération de la note.")
               end).
Proof.
  intros req w. split.
  - intros H. unfold analysisController.getQualityAnalysis, try_catch. now rewrite H.
  - intros n Hn Hne. apply String.eqb_neq in Hne.
    unfold analysisController.getQualityAnalysis, try_catch, bind,
      nlpService.analyzeQuality, bind, nlpService.post, axios.
    rewrite Hn. cbn [Js.truthy_str Js.or_str negb]. rewrite Hne. cbn [negb].
    destruct (engine w _); cbn; eexists; split; reflexivity.
Qed.

Lemma getQualityAnalysis_outcomes_witness :
  analysisController.getQualityAnalysis (sample.anonymous empty_body)
    (sample.world sample.engine_down)
  = (Ok (respond 400 (analysisController.failure
                        "Le nom du produit est requis pour trouver sa note.")),
     sample.world sample.engine_down)
  /\ exists response,
      analysisController.getQualityAnalysis
        (sample.anonymous (sample.product "Serum" None)) (sample.world sample.engine_down)
      = (Ok response,
         with_outbox
           (outbox (sample.world sample.engine_down)
            ++ [Engine.PostQuality "Serum" (brand_name (sample.product "Serum" None))
                  (ingredients (sample.product "Serum" None))])
           (sample.world sample.engine_down))
      /\ match engine (sample.world sample.engine_down)
                 (Engine.PostQuality "Serum" (brand_name (sample.product "Serum" None))
                    (ingredients (sample.product "Serum" None))) with
         | Engine.Resolved data =>
             response = respond 200 (JObj [("success", JBool true); ("data", data)])
         | Engine.Rejected _ =>
             response = respond 500 (analysisController.failure
                                       "Erreur lors de la récupération de la note.")
         end.
Proof.
  split.
  - apply (proj1 (getQualityAnalysis_outcomes (sample.anonymous empty_body)
                    (sample.world sample.engine_down))). reflexivity.
  - apply (proj2 (getQualityAnalysis_outcomes
                    (sample.anonymous (sample.product "Serum" None))
                    (sample.world sample.engine_down)) "Serum");
      [reflexivity | discriminate].
Defined.

(** X13: when the engine rejects the search, [getDupes] answers 500,
    never another status, and its message tells the cases apart: the
    fixed "not available" text for a refused connection, the fixed
    "loading" text for an upstream 503, and otherwise the upstream's own
    [detail] (or, without one, the transport message) after the prefix
    "Erreur d'analyse: ". *)
Theorem getDupes_reports_engine_failure :
  forall (req : Req) (w : World) (ingr : string) (error : Engine.AxiosError),
    ingredients (body req) = Some ingr ->
    5 <= Js.length (Js.trim ingr) ->
    engine w (Engine.PostFindDupes (dupes_payload (body req) ingr)) = Engine.Rejected error ->
    analysisController.getDupes req w
    = (Ok (respond 500 (analysisController.failure (dupes_failure error))),
       with_outbox (outbox w ++ [Engine.PostFindDupes (dupes_payload (body req) ingr)]) w)
    /\ (Engine.code error = Some "ECONNREFUSED" ->
        dupes_failure error
        = "Le service d'analyse IA n'est pas disponible. Vérifiez que le serveur Python est en cours d'exécution.")
    /\ (forall detail,
           Engine.code error = None ->
           Engine.response_status error = Some 422 ->
           Engine.response_detail error = Some detail -> detail <> "" ->
           dupes_failure error = "Erreur d'analyse: " ++ detail).
Proof.
  intros req w ingr error Hsome Hlong Hup. split; [| split].
  - unfold analysisController.getDupes, try_catch. rewrite Hsome.
    assert (Hne : String.eqb ingr "" = false).
    { destruct ingr; [| reflexivity]. cbn in Hlong. lia. }
    apply N.ltb_ge in Hlong. rewrite Hne, Hlong. cbn [orb].
    unfold bind at 1. unfold nlpService.findDupes, bind at 1, nlpService.post, axios.
    fold (dupes_payload (body req) ingr). rewrite Hup.
    cbn [nlpService.read_reply]. unfold dupes_failure.
    destruct (nlpService.opt_eqb _ _); [reflexivity |].
    destruct (match Engine.response_status error with Some s => s =? 503 | None => false end);
      reflexivity.
  - intros Hc. unfold dupes_failure. now rewrite Hc.
  - intros detail Hc Hs Hd Hne. unfold dupes_failure. rewrite Hc, Hs, Hd. cbn.
    apply String.eqb_neq in Hne. now rewrite Hne.
Qed.

Lemma getDupes_reports_engine_failure_witness :
  analysisController.getDupes (sample.anonymous (sample.with_ingredients "aqua, glycerin"))
    (sample.world sample.engine_down)
  = (Ok (respond 500 (analysisController.failure (dupes_failure sample.refused))),
     with_outbox
       (outbox (sample.world sample.engine_down)
        ++ [Engine.PostFindDupes
              (dupes_payload (sample.with_ingredients "aqua, glycerin") "aqua, glycerin")])
       (sample.world sample.engine_down))
  /\ dupes_failure sample.refused
     = "Le service d'analyse IA n'est pas disponible. Vérifiez que le serveur Python est en cours d'exécution.".
Proof.
  destruct (getDupes_reports_engine_failure
              (sample.anonymous (sample.with_ingredients "aqua, glycerin"))
              (sample.world sample.engine_down) "aqua, glycerin" sample.refused
              eq_refl ltac:(vm_compute; discriminate) eq_refl) as [H1 [H2 _]].
  split; [exact H1 | apply H2; reflexivity].
Defined.

(** ** Accounts: register, login, profile *)

Section Accounts.

Variable bcrypt_hash : string -> string -> string.
Variable bcrypt_compare : string -> string -> bool.
Variable jwt_sign : ObjectId -> N -> string.

Lemma find_email_none : forall e us,
    List.find (fun u => String.eqb (User.email u) e) us = None ->
    existsb (fun u => String.eqb (User.email u) e) us = false.
Proof.
  intros e us. induction us as [| u us IH]; cbn; [reflexivity |].
  destruct (String.eqb (User.email u) e); [discriminate | exact IH].
Qed.

Lemma find_email_free : forall e w,
    List.find (fun u => String.eqb (User.email u) e) (users w) = None <-> email_free w e.
Proof.
  intros e w. unfold email_free. split.
  - intros H u Hin He. apply (find_none _ _ H) in Hin. cbn in Hin.
    apply String.eqb_neq in Hin. contradiction.
  - intros H. destruct (List.find _ (users w)) as [u |] eqn:E; [| reflexivity].
    apply find_some in E. destruct E as [Hin He]. apply String.eqb_eq in He.
    now apply H in Hin.
Qed.

Lemma register_created : forall salt n e p w,
    n <> "" -> e <> "" -> p <> "" ->
    email_free w e ->
    account.register bcrypt_hash jwt_sign salt (account.mkBody (Some n) (Some e) (Some p)) w
    = (Ok (respond 201
             (account.session (User.mk (oid_counter w) n e (bcrypt_hash p salt))
                (JStr (jwt_sign (oid_counter w) (clock w))))),
       tick (userController.with_users
               (users w ++ [User.mk (oid_counter w) n e (bcrypt_hash p salt)])
               (with_oid_counter (oid_counter w + 1) w))).
Proof.
  intros salt n e p w Hn He Hp Hfree.
  apply String.eqb_neq in Hn, He, Hp. apply find_email_free in Hfree.
  unfold account.register, try_catch. cbn [account.name account.email account.password
    Js.truthy_str Js.or_str]. rewrite Hn, He, Hp. cbn [negb orb].
  unfold bind at 1. unfold account.User_findOne at 1. rewrite Hfree.
  unfold bind at 1. unfold account.User_create, bind at 1, new_ObjectId.
  cbn [users with_oid_counter]. rewrite (find_email_none _ _ Hfree).
  unfold bind, account.generateToken, bind, Date_now, ret. cbn. reflexivity.
Qed.


Lemma login_with_password : forall n e p w,
    account.login bcrypt_compare jwt_sign (account.mkBody n e (Some p)) w
    = match match e with
            | Some e' => List.find (fun u => String.eqb (User.email u) e') (users w)
            | None => None
            end with
      | Some u =>
          if bcrypt_compare p (User.password u)
          then (Ok (respond_ok (account.session u (JStr (jwt_sign (User._id u) (clock w))))),
                tick w)
          else (Ok account.bad_credentials, w)
      | None => (Ok account.bad_credentials, w)
      end.
Proof.
  intros n e p w. unfold account.login, try_catch, bind at 1, account.User_findOne.
  cbn [account.email account.password].
  destruct (match e with Some _ => _ | None => _ end) as [u |]; [| reflexivity].
  unfold bind, account.compare, ret. destruct (bcrypt_compare p (User.password u)); reflexivity.
Qed.


(** X16: a login without a password tells known emails from unknown
    ones.  For an unknown email it is the usual 400; for a stored one
    [bcrypt.compare] rejects the missing password, and the handler's
    [catch] answers 500. *)
Theorem login_without_password_tells_known_emails_apart :
  forall (n e : option string) (w : World),
    account.login bcrypt_compare jwt_sign (account.mkBody n e None) w
    = (Ok (if match e with
              | Some e' => existsb (fun u => String.eqb (User.email u) e') (users w)
              | None => false
              end
           then respond 500 (account.message "Erreur Serveur")
           else account.bad_credentials), w).
Proof.
  intros n e w. unfold account.login, try_catch, bind at 1, account.User_findOne.
  cbn [account.email account.password]. destruct e as [e |]; [| reflexivity].
  destruct (List.find _ (users w)) as [u |] eqn:E.
  - assert (Hex : existsb (fun u => String.eqb (User.email u) e) (users w) = true).
    { apply existsb_exists. exists u. now apply find_some in E. }
    rewrite Hex. reflexivity.
  - now rewrite (find_email_none _ _ E).
Qed.

Lemma find_app_new : forall (f : User.doc -> bool) us u,
    List.find f us = None -> f u = true -> List.find f (us ++ [u]) = Some u.
Proof.
  intros f us u. induction us as [| v us IH]; cbn; intros Hn Hu.
  - now rewrite Hu.
  - destruct (f v); [discriminate | now apply IH].
Qed.

(** X17: an account that [register] created can log in.  If bcrypt
    accepts a password against its own hash, then after a 201 the same
    email and password are answered 200 with the same [_id], name and
    email, and registering that email again is refused with 400. *)
Theorem registered_account_can_log_in :
  forall (salt n e p : string) (w : World),
    n <> "" -> e <> "" -> p <> "" ->
    email_free w e ->
    bcrypt_compare p (bcrypt_hash p salt) = true ->
    exists u token w1,
      account.register bcrypt_hash jwt_sign salt (account.mkBody (Some n) (Some e) (Some p)) w
      = (Ok (respond 201 (account.session u (JStr token))), w1)
      /\ User.name u = n /\ User.email u = e
      /\ (forall n', account.login bcrypt_compare jwt_sign
                       (account.mkBody n' (Some e) (Some p)) w1
                     = (Ok (respond_ok
                              (account.session u (JStr (jwt_sign (User._id u) (clock w1))))),
                        tick w1))
      /\ (forall salt' n' p', n' <> "" -> p' <> "" ->
            account.register bcrypt_hash jwt_sign salt'
              (account.mkBody (Some n') (Some e) (Some p')) w1
            = (Ok account.email_in_use, w1)).
Proof.
  intros salt n e p w Hn He Hp Hfree Hc.
  eexists _, _, _. split; [now apply register_created |].
  split; [reflexivity | split; [reflexivity |]].
  assert (Hfound :
            List.find (fun u => String.eqb (User.email u) e)
              (users w ++ [User.mk (oid_counter w) n e (bcrypt_hash p salt)])
            = Some (User.mk (oid_counter w) n e (bcrypt_hash p salt))).
  { apply find_app_new; [now apply find_email_free | cbn; apply String.eqb_refl]. }
  split.
  - intros n'. rewrite login_with_password. cbn [users userController.with_users tick].
    rewrite Hfound. cbn [User.password]. now rewrite Hc.
  - intros salt' n' p' Hn' Hp'. apply String.eqb_neq in Hn', He, Hp'.
    unfold account.register, try_catch. cbn [account.name account.email account.password
      Js.truthy_str]. rewrite Hn', He, Hp'. cbn [negb orb].
    unfold bind, account.User_findOne. cbn [users userController.with_users tick].
    now rewrite Hfound.
Qed.

End Accounts.

Lemma registered_account_can_log_in_witness :
  exists u token w1,
    account.register fixtures.hash fixtures.sign "salt" fixtures.dana fixtures.world
    = (Ok (respond 201 (account.session u (JStr token))), w1)
    /\ User.name u = "Dana" /\ User.email u = "dana@example.org"
    /\ (forall n', account.login fixtures.compare fixtures.sign
                     (account.mkBody n' (Some "dana@example.org") (Some "s3cret")) w1
                   = (Ok (respond_ok
                            (account.session u (JStr (fixtures.sign (User._id u) (clock w1))))),
                      tick w1))
    /\ (forall salt' n' p', n' <> "" -> p' <> "" ->
          account.register fixtures.hash fixtures.sign salt'
            (account.mkBody (Some n') (Some "dana@example.org") (Some p')) w1
          = (Ok account.email_in_use, w1)).
Proof.
  apply (registered_account_can_log_in fixtures.hash fixtures.compare fixtures.sign
           "salt" "Dana" "dana@example.org" "s3cret" fixtures.world);
    try discriminate; try reflexivity.
  intros u [Hu | [Hu | []]]; subst u; discriminate.
Defined.

Lemma account_of_app_new : forall w u,
    account_of w (User._id u) = None ->
    List.find (fun v => User._id v =? User._id u) (users w ++ [u]) = Some u.
Proof.
  intros w u H. apply find_app_new; [exact H | apply N.eqb_refl].
Qed.

(** X18: the token of a 201 identifies the new account on protected
    routes.  When the verifier accepts what [generateToken] signed and
    maps it back to the id, a request that carries the token the way the
    client's interceptor sends it passes [protect], and the handler runs
    with [req.user] set to the new account's id, name and email, without
    the hash. *)
Theorem registered_token_opens_protected_routes :
  forall (bcrypt_hash : string -> string -> string) (jwt_sign : ObjectId -> N -> string)
         (salt n e p : string) (w : World) (next : Req -> M Response) (req : Req),
    n <> "" -> e <> "" -> p <> "" ->
    email_free w e ->
    account_of w (oid_counter w) = None ->
    jwt_sign (oid_counter w) (clock w) <> "" ->
    has_space (jwt_sign (oid_counter w) (clock w)) = false ->
    jwt_verify w (jwt_sign (oid_counter w) (clock w)) = Some (oid_counter w) ->
    authorization req
    = axiosClient.request_interceptor (Some (jwt_sign (oid_counter w) (clock w))) None ->
    exists u w1,
      account.register bcrypt_hash jwt_sign salt (account.mkBody (Some n) (Some e) (Some p)) w
      = (Ok (respond 201
               (account.session u (JStr (jwt_sign (oid_counter w) (clock w))))), w1)
      /\ authMiddleware.protect next req w1
         = next (with_user (Some (User.mkSafe (User._id u) n e)) req) w1.
Proof.
  intros bcrypt_hash jwt_sign salt n e p w next req Hn He Hp Hfree Hfresh Hne Hsp Hv Hauth.
  eexists _, _. split; [now apply register_created |].
  unfold axiosClient.request_interceptor in Hauth. cbn in Hauth.
  pose proof Hne as Hne'. apply String.eqb_neq in Hne'. rewrite Hne' in Hauth. cbn in Hauth.
  destruct (bearer_header_token _ Hsp) as [Hb Ht].
  erewrite protect_verified_token;
    [| exact Hauth | exact Hb | exact Ht | exact Hne | exact Hv].
  cbn [users userController.with_users tick].
  change (oid_counter w)
    with (User._id (User.mk (oid_counter w) n e (bcrypt_hash p salt))) at 1.
  rewrite account_of_app_new by exact Hfresh. reflexivity.
Qed.

Lemma registered_token_opens_protected_routes_witness :
  exists u w1,
    account.register fixtures.hash fixtures.sign "salt" fixtures.dana fixtures.world
    = (Ok (respond 201 (account.session u (JStr (fixtures.sign 100 1000)))), w1)
    /\ authMiddleware.protect authController.getMe
         (sample.bearer (fixtures.sign 100 1000)) w1
       = authController.getMe
           (with_user (Some (User.mkSafe (User._id u) "Dana" "dana@example.org"))
              (sample.bearer (fixtures.sign 100 1000))) w1.
Proof.
  apply (registered_token_opens_protected_routes fixtures.hash fixtures.sign
           "salt" "Dana" "dana@example.org" "s3cret" fixtures.world authController.getMe
           (sample.bearer (fixtures.sign 100 1000)));
    try discriminate; try reflexivity.
  intros u [Hu | [Hu | []]]; subst u; discriminate.
Defined.

(** ** The profile *)

Lemma Forall2_map_same : forall (R : User.doc -> User.doc -> Prop) f us,
    (forall v, In v us -> R v (f v)) -> Forall2 R us (map f us).
Proof.
  intros R f us. induction us as [| v us IH]; cbn; intros H; constructor.
  - apply H. now left.
  - apply IH. intros x Hx. apply H. now right.
Qed.

Lemma updateUserProfile_store :
  forall (bcrypt_hash : string -> string -> string) salt b req w,
    snd (account.updateUserProfile bcrypt_hash salt b req w) = w
    \/ exists su u,
        user req = Some su
        /\ account_of w (User.id su) = Some u
        /\ snd (account.updateUserProfile bcrypt_hash salt b req w)
           = userController.with_users
               (map (fun v =>
                       if User._id v =? User._id u
                       then User.mk (User._id u)
                              (Js.or_str (account.name b) (User.name u))
                              (Js.or_str (account.email b) (User.email u))
                              (if Js.truthy_str (account.password b)
                               then bcrypt_hash (Js.or_str (account.password b) "") salt
                               else User.password u)
                       else v) (users w)) w.
Proof.
  intros bcrypt_hash salt b req w.
  unfold account.updateUserProfile, try_catch, bind, req_user_id, ret,
    account.User_findById_doc, account.User_save, account.echoed_token, throw.
  destruct (user req) as [su |] eqn:Hu; [| now left].
  fold (account_of w (User.id su)).
  destruct (account_of w (User.id su)) as [u |] eqn:Hf; [| now left].
  cbn [User._id User.email].
  destruct (existsb _ (users w)); [now left |].
  right. exists su, u. split; [reflexivity | split; [exact Hf |]].
  destruct (authorization req); reflexivity.
Qed.

Lemma same_id_same_account : forall us (u v : User.doc),
    NoDup (map User._id us) -> In u us -> In v us -> User._id v = User._id u -> v = u.
Proof.
  intros us u v. induction us as [| x us IH]; cbn; intros Hnd Hu Hv Hid; [contradiction |].
  inversion Hnd as [| ? ? Hx Hnd']; subst.
  destruct Hu as [Hu | Hu], Hv as [Hv | Hv]; subst.
  - reflexivity.
  - exfalso. apply Hx. rewrite <- Hid. now apply in_map.
  - exfalso. apply Hx. rewrite Hid. now apply in_map.
  - now apply IH.
Qed.

(** X19: a profile update never touches another account or any
    favorite.  Whatever the body and the outcome, the stored accounts
    keep their ids and order, every account other than [req.user]'s is
    unchanged, and a hash changes only when the body carries a
    password. *)
Theorem updateUserProfile_touches_only_the_caller :
  forall (bcrypt_hash : string -> string -> string) (salt : string) (b : account.Body)
         (req : Req) (w : World),
    NoDup (map User._id (users w)) ->
    favorites (snd (account.updateUserProfile bcrypt_hash salt b req w)) = favorites w
    /\ Forall2 (fun v v' =>
                  User._id v' = User._id v
                  /\ (option_map User.id (user req) <> Some (User._id v) -> v' = v)
                  /\ (Js.truthy_str (account.password b) = false ->
                      User.password v' = User.password v))
         (users w) (users (snd (account.updateUserProfile bcrypt_hash salt b req w))).
Proof.
  intros bcrypt_hash salt b req w Hnd.
  destruct (updateUserProfile_store bcrypt_hash salt b req w) as [H | [su [u [Hu [Hf H]]]]];
    rewrite H.
  - split; [reflexivity |]. rewrite <- (map_id (users w)) at 2.
    apply Forall2_map_same. intros v _. repeat split.
  - split; [reflexivity |]. cbn [users userController.with_users].
    apply Forall2_map_same. intros v Hin.
    pose proof (find_some _ _ Hf) as [Hinu Hid]. cbn in Hid. apply N.eqb_eq in Hid.
    destruct (User._id v =? User._id u) eqn:E.
    + apply N.eqb_eq in E. cbn [User._id User.password]. split; [now symmetry |]. split.
      * intros Hne. exfalso. apply Hne. rewrite Hu. cbn. congruence.
      * intros Hp. rewrite Hp. now rewrite (same_id_same_account _ u v Hnd Hinu Hin E).
    + repeat split.
Qed.

Lemma updateUserProfile_touches_only_the_caller_witness :
  favorites (snd (account.updateUserProfile fixtures.hash "salt"
                    (account.mkBody (Some "Alicia") None None)
                    (sample.as_user sample.alice empty_body None) fixtures.world))
  = favorites fixtures.world
  /\ Forall2 (fun v v' =>
                User._id v' = User._id v
                /\ (option_map User.id (user (sample.as_user sample.alice empty_body None)) <> Some (User._id v)
                    -> v' = v)
                /\ (Js.truthy_str (account.password (account.mkBody (Some "Alicia") None None))
                    = false ->
                    User.password v' = User.password v))
       (users fixtures.world)
       (users (snd (account.updateUserProfile fixtures.hash "salt"
                      (account.mkBody (Some "Alicia") None None)
                      (sample.as_user sample.alice empty_body None) fixtures.world))).
Proof.
  apply (updateUserProfile_touches_only_the_caller fixtures.hash "salt"
           (account.mkBody (Some "Alicia") None None)
           (sample.as_user sample.alice empty_body None) fixtures.world).
  repeat constructor; cbn; intuition discriminate.
Defined.

(** X20: a profile update that asks for an email another account holds
    is refused by the unique index at [save]; the handler reports it as
    a 500, not a 400, and no account changes, whatever name and password
    the body carries besides. *)
Theorem updateUserProfile_refuses_a_taken_email :
  forall (bcrypt_hash : string -> string -> string) (salt : string)
         (n p : option string) (e : string) (req : Req) (w : World)
         (su : User.safe) (u v : User.doc),
    user req = Some su ->
    account_of w (User.id su) = Some u ->
    In v (users w) -> User._id v <> User._id u -> User.email v = e -> e <> "" ->
    account.updateUserProfile bcrypt_hash salt (account.mkBody n (Some e) p) req w
    = (Ok (respond 500 (account.message "Erreur serveur")), w).
Proof.
  intros bcrypt_hash salt n p e req w su u v Hu Hf Hin Hid He Hne.
  unfold account.updateUserProfile, try_catch, bind, req_user_id, ret,
    account.User_findById_doc, account.User_save, account.echoed_token, throw.
  rewrite Hu. fold (account_of w (User.id su)). rewrite Hf.
  cbn [User._id User.email account.email Js.or_str].
  apply String.eqb_neq in Hne. rewrite Hne.
  assert (Hex : existsb (fun x => negb (User._id x =? User._id u)
                                  && String.eqb (User.email x) e) (users w) = true).
  { apply existsb_exists. exists v. split; [exact Hin |].
    apply N.eqb_neq in Hid. rewrite Hid, He, String.eqb_refl. reflexivity. }
  rewrite Hex. reflexivity.
Qed.

Lemma updateUserProfile_refuses_a_taken_email_witness :
  account.updateUserProfile fixtures.hash "salt"
    (account.mkBody (Some "Alicia") (Some "bob@example.org") None)
    (sample.as_user sample.alice empty_body None) fixtures.world
  = (Ok (respond 500 (account.message "Erreur serveur")), fixtures.world).
Proof.
  apply (updateUserProfile_refuses_a_taken_email fixtures.hash "salt" (Some "Alicia") None
           "bob@example.org" (sample.as_user sample.alice empty_body None) fixtures.world
           (User.select_without_password sample.alice) sample.alice sample.bob);
    try reflexivity; try discriminate.
  cbn. tauto.
Defined.




(** ** The analysis router is public *)

Lemma blind_ret : forall A (a : A), blind (ret a) (ret a).
Proof. intros A a fs us w. reflexivity. Qed.

Lemma blind_throw : forall A e, blind (@throw A e) (throw e).
Proof. intros A e fs us w. reflexivity. Qed.

Lemma blind_bind : forall A B (m m' : M A) (k k' : A -> M B),
    blind m m' -> (forall a, blind (k a) (k' a)) -> blind (bind m k) (bind m' k').
Proof.
  intros A B m m' k k' Hm Hk fs us w. unfold bind. rewrite Hm.
  destruct (m w) as [[a | e] w1]; cbn; [apply Hk | reflexivity].
Qed.

Lemma blind_try : forall A (m m' : M A) (h h' : Thrown -> M A),
    blind m m' -> (forall e, blind (h e) (h' e)) -> blind (try_catch m h) (try_catch m' h').
Proof.
  intros A m m' h h' Hm Hh fs us w. unfold try_catch. rewrite Hm.
  destruct (m w) as [[a | e] w1]; cbn; [reflexivity | apply Hh].
Qed.

Lemma blind_post : forall c, blind (nlpService.post c) (nlpService.post c).
Proof.
  intros c fs us w. unfold nlpService.post, axios. cbn.
  destruct (engine w c); reflexivity.
Qed.

Ltac blind_step :=
  match goal with
  | |- blind (ret _) _ => apply blind_ret
  | |- blind (throw _) _ => apply blind_throw
  | |- blind (bind _ _) _ => apply blind_bind; [| intros ?]
  | |- blind (try_catch _ _) _ => apply blind_try; [| intros ?]
  | |- blind (nlpService.post _) _ => apply blind_post
  | |- blind (match ?x with _ => _ end) _ => destruct x
  | |- blind (if ?x then _ else _) _ => destruct x
  end.

Lemma blind_analysis_handlers : forall r a a' b m p,
    In r server.analysisRoute ->
    blind (server.route_handler r (mkReq a b m p None None None))
          (server.route_handler r (mkReq a' b m p None None None)).
Proof.
  intros r a a' b m p Hr. cbn in Hr.
  repeat (destruct Hr as [<- | Hr]; [cbn [server.route_handler] |]); try contradiction.
  - unfold analysisController.getDupes, analysisController.mark_favorites,
      nlpService.findDupes, analysisController.prop. cbn [body userId].
    repeat blind_step.
  - unfold analysisController.getSentiment, nlpService.analyzeReview. cbn [body].
    repeat blind_step.
  - unfold server.upload_single, analysisController.scanImage, nlpService.scanImage.
    cbn [multipart with_file file].
    repeat blind_step.
  - unfold analysisController.getQualityAnalysis, nlpService.analyzeQuality. cbn [body].
    repeat blind_step.
  - unfold analysisController.addToFavorites. cbn [userId]. repeat blind_step.
  - unfold analysisController.getFavorites. cbn [userId]. repeat blind_step.
  - unfold analysisController.removeFromFavorites. cbn [userId]. repeat blind_step.
  - repeat blind_step.
Qed.

Lemma dispatch_with_header : forall routes h a segments,
    match server.dispatch routes h segments,
          server.dispatch routes (with_header a h) segments with
    | Some m, Some m' =>
        exists r captured,
          In r routes
          /\ m = server.route_handler r (with_param captured (server.incoming h))
          /\ m' = server.route_handler r
                    (with_param captured (server.incoming (with_header a h)))
    | None, None => True
    | _, _ => False
    end.
Proof.
  induction routes as [| r rest IH]; intros h a segments; cbn; [exact I |].
  assert (Hrest :
            match server.dispatch rest h segments,
                  server.dispatch rest (with_header a h) segments with
            | Some m, Some m' =>
                exists r0 captured,
                  (r = r0 \/ In r0 rest)
                  /\ m = server.route_handler r0 (with_param captured (server.incoming h))
                  /\ m' = server.route_handler r0
                            (with_param captured (server.incoming (with_header a h)))
            | None, None => True
            | _, _ => False
            end).
  { specialize (IH h a segments).
    destruct (server.dispatch rest h segments), (server.dispatch rest (with_header a h) segments);
      try exact IH.
    destruct IH as [r0 [c [Hin H]]]. exists r0, c. split; [now right | exact H]. }
  destruct (server.method_eqb _ _); [| exact Hrest].
  destruct (server.match_pattern _ _ _) as [captured |]; [| exact Hrest].
  exists r, captured. split; [now left | split; reflexivity].
Qed.

Lemma strip_prefix_analysis : forall h segments,
    server.strip_prefix ["api"; "analysis"] (server.path h) = Some segments ->
    server.through server.mounted h = server.dispatch server.analysisRoute h segments.
Proof.
  intros h segments H. unfold server.mounted. cbn [server.through]. rewrite H.
  destruct (server.dispatch server.analysisRoute h segments); [reflexivity |].
  destruct (server.path h) as [| x [| y rest]];
    cbn [server.strip_prefix server.through] in H |- *; try discriminate H.
  - destruct (String.eqb "api" x); discriminate H.
  - destruct (String.eqb "api" x); [| reflexivity].
    destruct (String.eqb "analysis" y) eqn:E; [| discriminate H].
    apply String.eqb_eq in E. subst y. reflexivity.
Qed.

(** X22: the analysis router is public and blind to the store.  For a
    request under [/api/analysis], neither the Authorization header nor
    the stored accounts and favorites change the response or the calls
    made to the engine, and the store is left as it was: a search is
    never personalised and the router's favorites routes never reach the
    collection. *)
Theorem analysis_routes_ignore_credentials_and_store :
  forall (h : server.HttpRequest) (a : option string)
         (fs : list FavoriteDoc.doc) (us : list User.doc) (w : World),
    for_analysis h = true ->
    server.app (with_header a h) (with_store fs us w)
    = (fst (server.app h w), with_store fs us (snd (server.app h w))).
Proof.
  intros h a fs us w Hfor. unfold for_analysis in Hfor.
  destruct (server.strip_prefix ["api"; "analysis"] (server.path h)) as [segments |] eqn:Hs;
    [clear Hfor | discriminate Hfor].
  unfold server.app.
  rewrite (strip_prefix_analysis (with_header a h) segments Hs).
  rewrite (strip_prefix_analysis h segments Hs).
  pose proof (dispatch_with_header server.analysisRoute h a segments) as Hd.
  destruct (server.dispatch server.analysisRoute h segments) as [m |],
           (server.dispatch server.analysisRoute (with_header a h) segments) as [m' |];
    try contradiction.
  - destruct Hd as [r [captured [Hr [-> ->]]]].
    pose proof (blind_analysis_handlers r (server.header_authorization h) a
                  (server.json_body h) (server.file_part h) captured Hr fs us w) as Hb.
    change (server.route_handler r
              (with_param captured (server.incoming (with_header a h))) (with_store fs us w)
            = (fst (server.route_handler r (with_param captured (server.incoming h)) w),
               with_store fs us
                 (snd (server.route_handler r (with_param captured (server.incoming h)) w))))
      in Hb.
    rewrite Hb.
    destruct (server.route_handler r _ w) as [[response | e] w']; reflexivity.
  - cbn [with_header server.method server.path].
    destruct (server.method h), (server.path h); reflexivity.
Qed.

Lemma analysis_routes_ignore_credentials_and_store_witness :
  server.app
    (with_header (Some "Bearer tok-alice")
       (server.mkHttp server.POST ["api"; "analysis"; "dupes"] None
          (sample.with_ingredients "aqua, glycerin") None))
    (with_store [sample.serum] [sample.alice] (sample.world sample.engine_up))
  = (fst (server.app
            (server.mkHttp server.POST ["api"; "analysis"; "dupes"] None
               (sample.with_ingredients "aqua, glycerin") None)
            (sample.world sample.engine_up)),
     with_store [sample.serum] [sample.alice]
       (snd (server.app
               (server.mkHttp server.POST ["api"; "analysis"; "dupes"] None
                  (sample.with_ingredients "aqua, glycerin") None)
               (sample.world sample.engine_up)))).
Proof.
  apply (analysis_routes_ignore_credentials_and_store
           (server.mkHttp server.POST ["api"; "analysis"; "dupes"] None
              (sample.with_ingredients "aqua, glycerin") None)
           (Some "Bearer tok-alice") [sample.serum] [sample.alice]
           (sample.world sample.engine_up)).
  reflexivity.
Defined.

(** ** The scan route *)




(** ** Removal by product id *)

Lemma key_absent_no_match : forall uid pid fs,
    ~ In (uid, pid) (map index_key fs) ->
    List.filter (Favorite.by_user_and_product uid (Some pid)) fs = [].
Proof.
  intros uid pid fs. induction fs as [| f r IH]; cbn; intros H; [reflexivity |].
  destruct (Favorite.by_user_and_product uid (Some pid) f) eqn:E.
  - exfalso. apply H. left. unfold Favorite.by_user_and_product in E.
    apply andb_true_iff in E as [Hu Hp]. apply N.eqb_eq in Hu. apply String.eqb_eq in Hp.
    unfold index_key. now rewrite Hu, Hp.
  - apply IH. intros Hin. apply H. now right.
Qed.

Lemma remove_first_clears_key : forall uid pid fs,
    I1 fs ->
    List.filter (Favorite.by_user_and_product uid (Some pid))
      (Favorite.remove_first (Favorite.by_user_and_product uid (Some pid)) fs) = [].
Proof.
  unfold I1. intros uid pid fs. induction fs as [| f r IH]; cbn; intros H; [reflexivity |].
  apply NoDup_cons_iff in H as [Hnew Hr].
  destruct (Favorite.by_user_and_product uid (Some pid) f) eqn:E.
  - apply key_absent_no_match. unfold Favorite.by_user_and_product in E.
    apply andb_true_iff in E as [Hu Hp]. apply N.eqb_eq in Hu. apply String.eqb_eq in Hp.
    unfold index_key in Hnew at 1. now rewrite Hu, Hp in Hnew.
  - cbn. rewrite E. now apply IH.
Qed.

Lemma remove_first_no_match : forall (p : FavoriteDoc.doc -> bool) fs,
    List.filter p fs = [] -> Favorite.remove_first p fs = fs.
Proof.
  intros p fs. induction fs as [| f r IH]; cbn; intros H; [reflexivity |].
  destruct (p f); [discriminate |]. now rewrite IH.
Qed.

Lemma remove_first_keeps : forall (p : FavoriteDoc.doc -> bool) fs f,
    In f fs -> p f = false -> In f (Favorite.remove_first p fs).
Proof.
  intros p fs f. induction fs as [| g r IH]; cbn; intros Hin Hp; [contradiction |].
  destruct (p g) eqn:E.
  - destruct Hin as [-> | Hin]; [congruence | exact Hin].
  - destruct Hin as [-> | Hin]; [now left | right; now apply IH].
Qed.

(** X24: with [req.userId] set, [removeFromFavorites] answers 200
    whether or not anything was stored under the product id.  It removes
    nothing but the caller's favorite with that product id, adds
    nothing, and, the compound index holding, leaves none under that
    key: the same request again changes nothing. *)
Theorem removeFromFavorites_clears_the_key :
  forall (req : Req) (uid : ObjectId) (w : World),
    userId req = Some uid ->
    I1 (favorites w) ->
    exists w1,
      analysisController.removeFromFavorites req w
      = (Ok (respond 200 (JObj [("success", JBool true);
                                ("message", JStr "Retiré des favoris")])), w1)
      /\ (forall pid, param req = Some pid -> stored_under uid pid (favorites w1) = [])
      /\ (forall f, In f (favorites w) ->
                    Favorite.by_user_and_product uid (param req) f = false ->
                    In f (favorites w1))
      /\ (forall f, In f (favorites w1) -> In f (favorites w))
      /\ snd (analysisController.removeFromFavorites req w1) = w1.
Proof.
  intros req uid w Hu HI. eexists. split.
  - unfold analysisController.removeFromFavorites, try_catch, bind, Favorite.findOneAndDelete.
    rewrite Hu. reflexivity.
  - cbn [favorites with_favorites]. split; [| split; [| split]].
    + intros pid Hp. rewrite Hp. unfold stored_under. now apply remove_first_clears_key.
    + intros f Hin Hf. now apply remove_first_keeps.
    + intros f Hin. now apply in_remove_first in Hin.
    + unfold analysisController.removeFromFavorites, try_catch, bind, Favorite.findOneAndDelete.
      rewrite Hu. cbn [snd ret favorites with_favorites].
      rewrite (remove_first_no_match _ (Favorite.remove_first _ (favorites w))).
      * destruct w; reflexivity.
      * destruct (param req) as [pid |].
        -- now apply remove_first_clears_key.
        -- clear. induction (Favorite.remove_first _ (favorites w)) as [| f r IH];
             [reflexivity |].
           cbn. unfold Favorite.by_user_and_product at 1. rewrite andb_false_r. exact IH.
Qed.

Lemma removeFromFavorites_clears_the_key_witness :
  exists w1,
    analysisController.removeFromFavorites
      (with_param (Some "p-serum") (fixtures.with_userId 1 empty_body)) sample.stocked
    = (Ok (respond 200 (JObj [("success", JBool true);
                              ("message", JStr "Retiré des favoris")])), w1)
    /\ (forall pid,
           param (with_param (Some "p-serum") (fixtures.with_userId 1 empty_body)) = Some pid ->
           stored_under 1 pid (favorites w1) = [])
    /\ (forall f, In f (favorites sample.stocked) ->
                  Favorite.by_user_and_product 1
                    (param (with_param (Some "p-serum") (fixtures.with_userId 1 empty_body))) f
                  = false ->
                  In f (favorites w1))
    /\ (forall f, In f (favorites w1) -> In f (favorites sample.stocked))
    /\ snd (analysisController.removeFromFavorites
              (with_param (Some "p-serum") (fixtures.with_userId 1 empty_body)) w1) = w1.
Proof.
  apply (removeFromFavorites_clears_the_key
           (with_param (Some "p-serum") (fixtures.with_userId 1 empty_body)) 1 sample.stocked).
  - reflexivity.
  - unfold I1. cbn. repeat constructor; cbn; intuition discriminate.
Defined.
